(** * Proofora ML core: image similarity and design fingerprinting

    A shallow embedding of [proofora-ml/app/compare.py], [app/scan.py],
    [app/utils.py] and the endpoints of [app/main.py], with the properties of the design specification stated
    and settled against it.

    Conventions of the embedding.

    - A Python [float] / [numpy.float64] is a [pyfloat]: a finite value is
      the rational it denotes (every binary64 number is a rational), and
      the three special values are kept.  The arithmetic carried out by the
      program is modelled exactly: rounding of [+], [*], [/] to binary64 is
      not modelled; the special-value rules of IEEE 754 are ([0/0], [inf-inf],
      propagation of [nan]).
    - A raised Python exception is a value [exn]; fallible code lives in the
      [result] monad, code that also reads the wall clock in the monad [M].
    - The third-party libraries (Pillow, scikit-image, OpenCV, ImageHash,
      SciPy, NumPy's FFT, hashlib, datetime) and the absent [app/config.py]
      are interfaces (type classes); within one installation they are
      functions of their arguments.  [print] calls are logging and omitted. *)

From Stdlib Require Import List String Ascii ZArith QArith Qround Qabs Qminmax.
From Stdlib Require Import Lia Lqa Bool Permutation DecimalString.
Import ListNotations.

Local Open Scope Z_scope.
Local Open Scope Q_scope.

(* ================================================================== *)
(** ** Python floats *)

Inductive pyfloat : Type :=
| Fin (q : Q)
| PInf
| NInf
| NaN.

Definition is_nan (x : pyfloat) : bool :=
  match x with NaN => true | _ => false end.

Definition Qltb (a b : Q) : bool := negb (Qle_bool b a).

(** [x == y] on floats: numeric equality, [nan] equal to nothing. *)
Definition feqb (x y : pyfloat) : bool :=
  match x, y with
  | Fin a, Fin b => Qeq_bool a b
  | PInf, PInf => true
  | NInf, NInf => true
  | _, _ => false
  end.

(** [x <= y] and [x < y]: false as soon as one side is [nan]. *)
Definition fleb (x y : pyfloat) : bool :=
  match x, y with
  | NaN, _ | _, NaN => false
  | NInf, _ => true
  | _, PInf => true
  | Fin a, Fin b => Qle_bool a b
  | _, _ => false
  end.

Definition fltb (x y : pyfloat) : bool :=
  match x, y with
  | NaN, _ | _, NaN => false
  | PInf, _ => false
  | _, NInf => false
  | Fin a, Fin b => Qltb a b
  | _, _ => true
  end.

Definition fneg (x : pyfloat) : pyfloat :=
  match x with
  | Fin a => Fin (- a)
  | PInf => NInf
  | NInf => PInf
  | NaN => NaN
  end.

Definition fadd (x y : pyfloat) : pyfloat :=
  match x, y with
  | NaN, _ | _, NaN => NaN
  | Fin a, Fin b => Fin (a + b)
  | PInf, NInf | NInf, PInf => NaN
  | PInf, _ | _, PInf => PInf
  | NInf, _ | _, NInf => NInf
  end.

Definition fsub (x y : pyfloat) : pyfloat := fadd x (fneg y).

(** Sign-directed infinity: the value of [inf * q] for a finite [q]. *)
Definition inf_signed (positive : bool) (q : Q) : pyfloat :=
  if Qeq_bool q 0 then NaN
  else if Qltb 0 q then (if positive then PInf else NInf)
  else (if positive then NInf else PInf).

Definition fmul (x y : pyfloat) : pyfloat :=
  match x, y with
  | NaN, _ | _, NaN => NaN
  | Fin a, Fin b => Fin (a * b)
  | PInf, Fin b | Fin b, PInf => inf_signed true b
  | NInf, Fin b | Fin b, NInf => inf_signed false b
  | PInf, PInf | NInf, NInf => PInf
  | PInf, NInf | NInf, PInf => NInf
  end.

(** NumPy's float division: never raises; [0/0] is [nan], [a/0] an infinity
    of the sign of [a]. *)
Definition fdiv (x y : pyfloat) : pyfloat :=
  match x, y with
  | NaN, _ | _, NaN => NaN
  | Fin a, Fin b =>
      if Qeq_bool b 0
      then (if Qeq_bool a 0 then NaN else if Qltb 0 a then PInf else NInf)
      else Fin (a / b)
  | Fin _, _ => Fin 0
  | PInf, Fin b => if Qltb b 0 then NInf else PInf
  | NInf, Fin b => if Qltb b 0 then PInf else NInf
  | _, _ => NaN
  end.

(** [numpy.maximum] / [numpy.minimum]: a [nan] operand gives [nan]. *)
Definition np_maximum (x y : pyfloat) : pyfloat :=
  if is_nan x then x else if is_nan y then y
  else if fltb x y then y else x.

Definition np_minimum (x y : pyfloat) : pyfloat :=
  if is_nan x then x else if is_nan y then y
  else if fltb y x then y else x.

(** [numpy.clip(x, lo, hi)] is [minimum(maximum(x, lo), hi)]. *)
Definition np_clip (x : pyfloat) (lo hi : Q) : pyfloat :=
  np_minimum (np_maximum x (Fin lo)) (Fin hi).

(** The closed interval test used to state ranges. *)
Definition in_range (lo hi : Q) (x : pyfloat) : Prop :=
  exists q, x = Fin q /\ lo <= q /\ q <= hi.

(** Round half to even, the rule of Python's [round]. *)
Definition round_half_even (q : Q) : Z :=
  let f := Qfloor q in
  let r := q - inject_Z f in
  if Qltb r (1 # 2) then f
  else if Qltb (1 # 2) r then (f + 1)%Z
  else if Z.even f then f else (f + 1)%Z.

(** [round(x, ndigits)] on a finite float. *)
Definition py_round (q : Q) (ndigits : nat) : Q :=
  let s := inject_Z (10 ^ Z.of_nat ndigits) in
  inject_Z (round_half_even (q * s)) / s.

Definition py_round_f (x : pyfloat) (ndigits : nat) : pyfloat :=
  match x with
  | Fin q => Fin (py_round q ndigits)
  | other => other
  end.

(* ================================================================== *)
(** ** Exceptions *)

(** One traceback entry: the function and the line executing in it. *)
Definition frame : Type := (string * nat)%type.

Record exn : Type := mkExn {
  exn_type : string;       (* type(e).__name__ *)
  exn_message : string;    (* str(e) *)
  exn_tb : list frame      (* outermost frame first *)
}.

Inductive result (A : Type) : Type :=
| Ok (a : A)
| Raise (e : exn).
Arguments Ok {A} a.
Arguments Raise {A} e.

Definition rbind {A B} (m : result A) (k : A -> result B) : result B :=
  match m with
  | Ok a => k a
  | Raise e => Raise e
  end.

Declare Scope result_scope.
Delimit Scope result_scope with result.
Notation "x <- m ;; k" := (rbind m (fun x => k))
  (at level 61, m at next level, right associativity) : result_scope.
Notation "' p <- m ;; k" := (rbind m (fun x => match x with p => k end))
  (at level 61, p pattern, m at next level, right associativity) : result_scope.

(** An exception leaving line [line] of function [fn] gets that frame
    put in front of its traceback. *)
Definition push_frame (fn : string) (line : nat) (e : exn) : exn :=
  mkExn (exn_type e) (exn_message e) ((fn, line) :: exn_tb e).

Definition at_line {A} (fn : string) (line : nat) (m : result A) : result A :=
  match m with
  | Ok a => Ok a
  | Raise e => Raise (push_frame fn line e)
  end.

(** An exception raised by the interpreter itself at the current line. *)
Definition raise_here {A} (ty msg : string) : result A :=
  Raise (mkExn ty msg []).

Local Open Scope string_scope.
Local Open Scope result_scope.

(** [a / b] on Python ints: true division, [ZeroDivisionError] on [b = 0]. *)
Definition py_truediv (a b : Z) : result Q :=
  if (b =? 0)%Z then raise_here "ZeroDivisionError" "division by zero"
  else Ok (inject_Z a / inject_Z b).

(* ================================================================== *)
(** ** Arrays and images *)

(** A [uint8] image array as NumPy holds it: two-dimensional (H, W) or
    three-dimensional (H, W, C).  Rows are lists; a pixel is the list of
    its channel values. *)
Definition pixel : Type := list Z.

Inductive ndarray : Type :=
| Gray2 (rows : list (list Z))
| Color3 (rows : list (list pixel)).

Definition gray8 : Type := list (list Z).   (* (H, W) uint8 *)
Definition grayf : Type := list (list Q).   (* (H, W) float64, finite *)

Definition ndim (a : ndarray) : nat :=
  match a with Gray2 _ => 2%nat | Color3 _ => 3%nat end.

(** [a.shape[-1]]: the length of the last axis. *)
Definition shape_last (a : ndarray) : nat :=
  match a with
  | Gray2 rows => match rows with r :: _ => List.length r | [] => 0%nat end
  | Color3 rows =>
      match rows with
      | (p :: _) :: _ => List.length p
      | _ => 0%nat
      end
  end.

(** [a[:, :, :3]]: an [IndexError] on a two-dimensional array. *)
Definition first_three_channels (a : ndarray) : result ndarray :=
  match a with
  | Color3 rows => Ok (Color3 (map (map (firstn 3)) rows))
  | Gray2 _ =>
      raise_here "IndexError"
        "too many indices for array: array is 2-dimensional, but 3 were indexed"
  end.

(** A decoded Pillow image: its attributes and its pixel store, which is
    what [np.array(img)] returns. *)
Record PILImage : Type := mkImage {
  im_size : Z * Z;               (* (width, height) *)
  im_mode : string;
  im_format : option string;
  im_data : ndarray
}.

(** [imagehash.ImageHash]: a boolean array. *)
Record ImageHash : Type := mkHash { hash_array : list (list bool) }.

Definition hash_flatten (h : ImageHash) : list bool := List.concat (hash_array h).

Fixpoint count_differing (a b : list bool) : Z :=
  match a, b with
  | x :: a', y :: b' =>
      ((if Bool.eqb x y then 0 else 1) + count_differing a' b')%Z
  | _, _ => 0%Z
  end.

(** [ImageHash.__sub__]: the Hamming distance; hashes of different sizes
    are refused. *)
Definition ImageHash_sub (h1 h2 : ImageHash) : result Z :=
  if Nat.eqb (List.length (hash_flatten h1)) (List.length (hash_flatten h2))
  then Ok (count_differing (hash_flatten h1) (hash_flatten h2))
  else raise_here "TypeError" "ImageHashes must be of the same shape.".

(** OpenCV values. *)
Record KeyPoint : Type := mkKeyPoint { kp_x : Q; kp_y : Q }.

Definition descriptors : Type := list (list Z).   (* one row per keypoint *)

Record DMatch : Type := mkDMatch {
  queryIdx : nat;
  trainIdx : nat;
  distance : Q
}.

Inductive NormType : Type := NORM_L1 | NORM_L2 | NORM_HAMMING | NORM_HAMMING2.

(* ================================================================== *)
(** ** The collaborators *)

(** [app/config.py]. *)
Class Config : Type := {
  SSIM_WEIGHT : Q;
  PHASH_WEIGHT : Q;
  ORB_WEIGHT : Q;
  PHASH_SIZE : Z;
  ORB_MAX_FEATURES : Z
}.

(** Pillow. *)
Class Pillow : Type := {
  Image_open : list Byte.byte -> result PILImage;
  Image_convert : PILImage -> string -> result PILImage;
  Image_resize_LANCZOS : PILImage -> Z * Z -> result PILImage
}.

(** [skimage.color] and [skimage.metrics]. *)
Class Skimage : Type := {
  rgb2gray : ndarray -> result grayf;
  structural_similarity : grayf -> grayf -> Q (* data_range *) -> result pyfloat
}.

(** ImageHash: the five digests. *)
Class ImageHashLib : Type := {
  imagehash_phash : PILImage -> Z (* hash_size *) -> result ImageHash;
  imagehash_average_hash : PILImage -> result ImageHash;
  imagehash_dhash : PILImage -> result ImageHash;
  imagehash_whash : PILImage -> result ImageHash;
  imagehash_colorhash : PILImage -> result ImageHash
}.

(** OpenCV. *)
Class OpenCV : Type := {
  cvtColor_RGB2GRAY : ndarray -> result gray8;
  ORB_detectAndCompute :
    Z (* nfeatures *) -> gray8 -> result (list KeyPoint * option descriptors);
  BFMatcher_match :
    NormType -> bool (* crossCheck *) -> descriptors -> descriptors ->
    result (list DMatch);
  Canny : gray8 -> Z -> Z -> result gray8;
  Sobel_CV_64F : gray8 -> Z (* dx *) -> Z (* dy *) -> Z (* ksize *) -> result grayf;
  calcHist : list Z -> Z (* bins *) -> list Z
}.

(* ================================================================== *)
(** ** utils.py *)

Section Utils.
Context {pillow : Pillow}.

Definition load_image_bytes (image_bytes : list Byte.byte) : result PILImage :=
  at_line "load_image_bytes" 11 (Image_open image_bytes).

(** [np.array(pil_img)]. *)
Definition np_array (pil_img : PILImage) : ndarray := im_data pil_img.

Definition pil_to_np (pil_img : PILImage) (size : option (Z * Z))
  : result ndarray :=
  pil_img <- match size with
             | Some sz => at_line "pil_to_np" 16 (Image_resize_LANCZOS pil_img sz)
             | None => Ok pil_img
             end ;;
  Ok (np_array pil_img).
End Utils.

(* ================================================================== *)
(** ** compare.py *)

(** Minimum and maximum of a float array ([ValueError] when it is empty). *)
Definition array_reduce (f : Q -> Q -> Q) (g : grayf) : result Q :=
  match List.concat g with
  | [] =>
      raise_here "ValueError"
        "zero-size array to reduction operation which has no identity"
  | x :: xs => Ok (fold_left f xs x)
  end.

Definition array_max : grayf -> result Q := array_reduce Qmax.
Definition array_min : grayf -> result Q := array_reduce Qmin.

(** [sorted(matches, key=lambda x: x.distance)]: a stable sort. *)
Fixpoint insert_by_distance (m : DMatch) (l : list DMatch) : list DMatch :=
  match l with
  | [] => [m]
  | x :: l' =>
      if Qltb (distance m) (distance x) then m :: x :: l'
      else x :: insert_by_distance m l'
  end.

Definition sorted_by_distance (l : list DMatch) : list DMatch :=
  fold_right insert_by_distance [] l.

Record Breakdown : Type := mkBreakdown {
  bd_ssim : pyfloat;
  bd_phash : pyfloat;
  bd_orb : pyfloat
}.

Record SimilarityResult : Type := mkSimilarity {
  score : pyfloat;
  breakdown : Breakdown
}.

Section Compare.
Context {config : Config} {pillow : Pillow} {skimage : Skimage}
        {hashes : ImageHashLib} {opencv : OpenCV}.

Definition normalize_image_array (img_np : ndarray) : ndarray :=
  match img_np with
  | Gray2 rows => Color3 (map (map (fun v => [v; v; v])) rows)
  | Color3 rows =>
      if Nat.eqb (shape_last img_np) 4
      then Color3 (map (map (firstn 3)) rows)
      else img_np
  end.

Definition compute_ssim (img1_np img2_np : ndarray) : result pyfloat :=
  let here {A} := @at_line A "compute_ssim" in
  img1_np <- (if Nat.eqb (shape_last img1_np) 4
              then here 28%nat (first_three_channels img1_np)
              else Ok img1_np) ;;
  img2_np <- (if Nat.eqb (shape_last img2_np) 4
              then here 30%nat (first_three_channels img2_np)
              else Ok img2_np) ;;
  g1 <- here 32%nat (rgb2gray img1_np) ;;
  g2 <- here 33%nat (rgb2gray img2_np) ;;
  hi <- here 35%nat (array_max g2) ;;
  lo <- here 35%nat (array_min g2) ;;
  score <- here 35%nat (structural_similarity g1 g2 (hi - lo)) ;;
  Ok (np_clip score (-1) 1).

Definition compute_phash_similarity (pil1 pil2 : PILImage) : result pyfloat :=
  let here {A} := @at_line A "compute_phash_similarity" in
  pil1 <- here 42%nat (Image_convert pil1 "RGB") ;;
  pil2 <- here 43%nat (Image_convert pil2 "RGB") ;;
  ph1 <- here 45%nat (imagehash_phash pil1 PHASH_SIZE) ;;
  ph2 <- here 46%nat (imagehash_phash pil2 PHASH_SIZE) ;;
  let maxdist := (PHASH_SIZE * PHASH_SIZE)%Z in
  dist <- here 49%nat (ImageHash_sub ph1 ph2) ;;
  q <- here 50%nat (py_truediv dist maxdist) ;;
  let score := 1 - q in
  Ok (np_clip (Fin score) 0 1).

Definition compute_orb_match_ratio (img1_np img2_np : ndarray) : result pyfloat :=
  let here {A} := @at_line A "compute_orb_match_ratio" in
  let img1_np := normalize_image_array img1_np in
  let img2_np := normalize_image_array img2_np in
  gray1 <- here 59%nat (cvtColor_RGB2GRAY img1_np) ;;
  gray2 <- here 60%nat (cvtColor_RGB2GRAY img2_np) ;;
  '(kp1, des1) <- here 62%nat (ORB_detectAndCompute ORB_MAX_FEATURES gray1) ;;
  '(kp2, des2) <- here 63%nat (ORB_detectAndCompute ORB_MAX_FEATURES gray2) ;;
  match des1, des2 with
  | Some des1, Some des2 =>
      matches <- here 69%nat (BFMatcher_match NORM_HAMMING true des1 des2) ;;
      if (Z.of_nat (List.length matches) =? 0)%Z then Ok (Fin 0)
      else
        let matches := sorted_by_distance matches in
        let good := filter (fun m => Qltb (distance m) 60) matches in
        ratio <- here 75%nat
                   (py_truediv (Z.of_nat (List.length good))
                               (Z.max (Z.of_nat (List.length matches)) 1)) ;;
        Ok (np_clip (Fin ratio) 0 1)
  | _, _ => Ok (Fin 0)
  end.

Definition combined_similarity (pil1 pil2 : PILImage) (np_size : Z * Z)
  : result SimilarityResult :=
  let here {A} := @at_line A "combined_similarity" in
  pil1 <- here 83%nat (Image_convert pil1 "RGB") ;;
  pil2 <- here 84%nat (Image_convert pil2 "RGB") ;;
  img1_np <- here 86%nat (pil_to_np pil1 (Some np_size)) ;;
  img2_np <- here 87%nat (pil_to_np pil2 (Some np_size)) ;;
  ssim_score <- here 89%nat (compute_ssim img1_np img2_np) ;;
  phash_score <- here 90%nat (compute_phash_similarity pil1 pil2) ;;
  orb_score <- here 91%nat (compute_orb_match_ratio img1_np img2_np) ;;
  let score :=
    fadd (fadd (fmul (Fin SSIM_WEIGHT) ssim_score)
               (fmul (Fin PHASH_WEIGHT) phash_score))
         (fmul (Fin ORB_WEIGHT) orb_score) in
  Ok {| score := np_clip score 0 1;
        breakdown := {| bd_ssim := np_clip ssim_score 0 1;
                        bd_phash := np_clip phash_score 0 1;
                        bd_orb := np_clip orb_score 0 1 |} |}.

(** The default [np_size=(512, 512)]. *)
Definition default_np_size : Z * Z := (512%Z, 512%Z).
End Compare.

(* ================================================================== *)
(** ** scan.py: collaborators and numeric helpers *)

(** A complex spectrum coefficient: real and imaginary part. *)
Definition complex : Type := (Q * Q)%type.

(** NumPy routines used by the scanner beyond plain sums. *)
Class NumPy : Type := {
  np_sqrt : Q -> Q;
  np_std : list Q -> pyfloat;
  np_unique_counts : list (list Z) -> list (list Z * Z);  (* sorted rows, counts *)
  np_fft_fft2 : gray8 -> result (list (list complex));
  np_abs : complex -> Q
}.

(** SciPy statistics. *)
Class SciPy : Type := {
  scipy_entropy : list Q -> pyfloat;
  scipy_skew : list Z -> pyfloat;
  scipy_kurtosis : list Z -> pyfloat
}.

(** [skimage.feature]: grey-level co-occurrence matrices.  Angles are given
    in units of pi/4. *)
Class SkimageFeature : Type := {
  GLCM : Type;
  graycomatrix :
    gray8 -> list Z (* distances *) -> list Z (* angles *) -> Z (* levels *) ->
    bool (* symmetric *) -> bool (* normed *) -> result GLCM;
  graycoprops : GLCM -> string -> result (list Q)
}.

(** hashlib. *)
Class Hashlib : Type := {
  sha256_hexdigest : list Byte.byte -> string
}.

(** The wall clock and the interpreter: [utcnow_at k] is what the [k]-th
    call of [datetime.utcnow()] returns, in microseconds. *)
Class Runtime : Type := {
  utcnow_at : nat -> Z;
  isoformat : Z -> string;
  sys_version : string;
  numpy_version : string;
  cv2_version : string
}.

Definition Qsum (l : list Q) : Q := fold_right Qplus 0 l.

(** [np.mean] of a float array: [nan] when it is empty. *)
Definition np_mean (l : list Q) : pyfloat :=
  match l with
  | [] => NaN
  | _ => Fin (Qsum l / inject_Z (Z.of_nat (List.length l)))
  end.

Definition flatten_array (a : ndarray) : list Z :=
  match a with
  | Gray2 rows => List.concat rows
  | Color3 rows => List.concat (List.concat rows)
  end.

(** [a[:, :, k]] flattened. *)
Definition channel (a : ndarray) (k : nat) : result (list Z) :=
  match a with
  | Gray2 _ =>
      raise_here "IndexError"
        "too many indices for array: array is 2-dimensional, but 3 were indexed"
  | Color3 rows =>
      if Nat.ltb k (shape_last a)
      then Ok (map (fun p => nth k p 0%Z) (List.concat rows))
      else raise_here "IndexError" "index is out of bounds for axis 2"
  end.

(** [np.clip(a, 0, 255).astype(np.uint8)]. *)
Definition clip_uint8 (v : Z) : Z := Z.min (Z.max v 0) 255.

Definition clip_array (a : ndarray) : ndarray :=
  match a with
  | Gray2 rows => Gray2 (map (map clip_uint8) rows)
  | Color3 rows => Color3 (map (map (map clip_uint8)) rows)
  end.

(** [a.reshape(-1, 3)]. *)
Fixpoint chunks3 (l : list Z) : result (list (list Z)) :=
  match l with
  | [] => Ok []
  | a :: b :: c :: l' => rest <- chunks3 l' ;; Ok ([a; b; c] :: rest)
  | _ => raise_here "ValueError" "cannot reshape array into shape (3)"
  end.

(** [counts.argmax()]: the first position of the largest count. *)
Fixpoint argmax_from (best : list Z * Z) (l : list (list Z * Z)) : list Z * Z :=
  match l with
  | [] => best
  | x :: l' => argmax_from (if (snd best <? snd x)%Z then x else best) l'
  end.

Definition argmax_count (l : list (list Z * Z)) : result (list Z * Z) :=
  match l with
  | [] => raise_here "ValueError" "attempt to get argmax of an empty sequence"
  | x :: l' => Ok (argmax_from x l')
  end.

Definition Zsum (l : list Z) : Z := fold_right Z.add 0%Z l.

(** [(x * 255).astype(np.uint8)]: truncation, then wrap-around. *)
Definition astype_uint8 (q : Q) : Z :=
  (Z.quot (Qnum q) (Zpos (Qden q)) mod 256)%Z.

(** [int(np.min(a))] and [int(np.max(a))]. *)
Definition int_reduce (f : Z -> Z -> Z) (l : list Z) : result Z :=
  match l with
  | [] =>
      raise_here "ValueError"
        "zero-size array to reduction operation which has no identity"
  | x :: xs => Ok (fold_left f xs x)
  end.

(** [arr.tobytes()] of a [uint8] array. *)
Definition uint8_to_byte (v : Z) : Byte.byte :=
  match Byte.of_N (Z.to_N (v mod 256)) with
  | Some b => b
  | None => Byte.x00
  end.

Definition tobytes (l : list Z) : list Byte.byte := map uint8_to_byte l.

(** [str(ImageHash)]: the bits, most significant first, as hexadecimal
    digits on [ceil(n/4)] positions. *)
Definition hex_digit (n : nat) : ascii :=
  nth n ["0"; "1"; "2"; "3"; "4"; "5"; "6"; "7";
         "8"; "9"; "a"; "b"; "c"; "d"; "e"; "f"]%char "0"%char.

Definition bit (b : bool) : nat := if b then 1%nat else 0%nat.

Fixpoint nibbles (l : list bool) : string :=
  match l with
  | a :: b :: c :: d :: l' =>
      String (hex_digit (8 * bit a + 4 * bit b + 2 * bit c + bit d)) (nibbles l')
  | _ => EmptyString
  end.

Definition binary_array_to_hex (bits : list bool) : string :=
  let pad := ((4 - List.length bits mod 4) mod 4)%nat in
  nibbles (repeat false pad ++ bits).

Definition ImageHash_str (h : ImageHash) : string :=
  binary_array_to_hex (hash_flatten h).

(* ================================================================== *)
(** ** scan.py: the metadata record *)

Record per_channel (A : Type) : Type := mkChannels {
  red : A;
  green : A;
  blue : A
}.
Arguments mkChannels {A}.
Arguments red {A}.
Arguments green {A}.
Arguments blue {A}.

Record ColorAnalysis : Type := mkColor {
  mean_colors : per_channel pyfloat;
  color_variance : per_channel pyfloat;
  dominant_rgb : list Z;
  dominant_percentage : pyfloat;
  color_histogram : per_channel (list Z);
  color_entropy : per_channel pyfloat
}.

Record TextureFeatures : Type := mkTexture {
  tx_contrast : pyfloat;
  tx_dissimilarity : pyfloat;
  tx_homogeneity : pyfloat;
  tx_energy : pyfloat;
  tx_correlation : pyfloat;
  texture_complexity : pyfloat
}.

Record OrbFeatures : Type := mkOrb {
  total_keypoints : Z;
  keypoint_positions : list (Q * Q);
  feature_descriptor_hash : option string;
  keypoint_density : Q
}.

Record PixelStatistics : Type := mkPixelStats {
  brightness : pyfloat;
  px_contrast : pyfloat;
  min_pixel_value : Z;
  max_pixel_value : Z;
  dynamic_range : Z;
  px_entropy : pyfloat;
  skewness : pyfloat;
  kurtosis : pyfloat
}.

Record EdgeFeatures : Type := mkEdge {
  edge_density_percentage : pyfloat;
  edge_strength : pyfloat;
  has_strong_edges : bool
}.

Record FrequencyFeatures : Type := mkFrequency {
  low_frequency_energy : Q;
  high_frequency_energy : Q;
  frequency_ratio : Q;
  detail_level : string
}.

Record ImageInfo : Type := mkInfo {
  width : Z;
  height : Z;
  format : string;
  mode : string;
  total_pixels : Z;
  aspect_ratio : Q
}.

Record Hashes : Type := mkHashes {
  perceptual_hash : string;
  average_hash : string;
  difference_hash : string;
  wavelet_hash : string;
  color_hash : string;
  sha256 : string;
  design_fingerprint : string
}.

Record ScanMetadata : Type := mkScanMeta {
  algorithm_version : string;
  processing_resolution : string;
  scan_type : string;
  libraries_used : list string
}.

Record FeatureMetadata : Type := mkMetadata {
  scan_timestamp : string;
  image_info : ImageInfo;
  hashes : Hashes;
  color_analysis : ColorAnalysis;
  texture_features : TextureFeatures;
  orb_features : OrbFeatures;
  pixel_statistics : PixelStatistics;
  edge_features : EdgeFeatures;
  frequency_features : FrequencyFeatures;
  scan_metadata : ScanMetadata
}.

(* ================================================================== *)
(** ** scan.py: the feature extractors *)

(** [x / y] on Python floats: [ZeroDivisionError] on a zero divisor. *)
Definition float_truediv (a b : Q) : result Q :=
  if Qeq_bool b 0 then raise_here "ZeroDivisionError" "float division by zero"
  else Ok (a / b).

(** [l[start:stop]] with Python's treatment of negative and overlong bounds. *)
Definition slice_bound (n i : Z) : Z :=
  let i := if (i <? 0)%Z then (i + n)%Z else i in
  Z.min (Z.max i 0) n.

Definition py_slice {A} (start stop : Z) (l : list A) : list A :=
  let n := Z.of_nat (List.length l) in
  let s := slice_bound n start in
  let e := slice_bound n stop in
  firstn (Z.to_nat (e - s)) (skipn (Z.to_nat s) l).

(** [np.fft.fftshift] along one axis: a roll by [n // 2]. *)
Definition roll_half {A} (l : list A) : list A :=
  let n := List.length l in
  let k := (n / 2)%nat in
  skipn (n - k) l ++ firstn (n - k) l.

Definition np_fft_fftshift {A} (m : list (list A)) : list (list A) :=
  roll_half (map roll_half m).

Definition epsilon : Q := 1 # 10000000000.   (* 1e-10 *)

Section Extractors.
Context {config : Config} {skimage : Skimage} {opencv : OpenCV}
        {numpy : NumPy} {scipy : SciPy} {feature : SkimageFeature}
        {hashlib : Hashlib}.

Definition mean_of_channel (img_np : ndarray) (k : nat) : result pyfloat :=
  c <- channel img_np k ;; Ok (py_round_f (np_mean (map inject_Z c)) 2).

Definition std_of_channel (img_np : ndarray) (k : nat) : result pyfloat :=
  c <- channel img_np k ;; Ok (py_round_f (np_std (map inject_Z c)) 2).

Definition hist_of_channel (img_np : ndarray) (k : nat) : result (list Z) :=
  c <- channel img_np k ;; Ok (calcHist c 8).

Definition entropy_of_hist (hist : list Z) : pyfloat :=
  py_round_f (scipy_entropy (map (fun c => inject_Z c + epsilon) hist)) 2.

Definition extract_color_features (img_np : ndarray) : result ColorAnalysis :=
  let here {A} := @at_line A "extract_color_features" in
  img_np <- (if Nat.eqb (shape_last img_np) 4
             then here 137%nat (first_three_channels img_np)
             else Ok img_np) ;;
  let img_np := clip_array img_np in
  mean_r <- here 144%nat (mean_of_channel img_np 0) ;;
  mean_g <- here 145%nat (mean_of_channel img_np 1) ;;
  mean_b <- here 146%nat (mean_of_channel img_np 2) ;;
  std_r <- here 150%nat (std_of_channel img_np 0) ;;
  std_g <- here 151%nat (std_of_channel img_np 1) ;;
  std_b <- here 152%nat (std_of_channel img_np 2) ;;
  pixels <- here 155%nat (chunks3 (flatten_array img_np)) ;;
  let unique_counts := np_unique_counts pixels in
  dominant <- here 157%nat (argmax_count unique_counts) ;;
  let dominant_percentage :=
    py_round_f
      (fmul (fdiv (Fin (inject_Z (snd dominant)))
                  (Fin (inject_Z (Zsum (map snd unique_counts)))))
            (Fin 100)) 2 in
  hist_r <- here 161%nat (hist_of_channel img_np 0) ;;
  hist_g <- here 162%nat (hist_of_channel img_np 1) ;;
  hist_b <- here 163%nat (hist_of_channel img_np 2) ;;
  Ok {| mean_colors := mkChannels mean_r mean_g mean_b;
        color_variance := mkChannels std_r std_g std_b;
        dominant_rgb := fst dominant;
        dominant_percentage := dominant_percentage;
        color_histogram := mkChannels hist_r hist_g hist_b;
        color_entropy := mkChannels (entropy_of_hist hist_r)
                                    (entropy_of_hist hist_g)
                                    (entropy_of_hist hist_b) |}.

Definition mean_prop (glcm : GLCM) (prop : string) : result pyfloat :=
  v <- graycoprops glcm prop ;; Ok (np_mean v).

Definition extract_texture_features (img_np : ndarray) : result TextureFeatures :=
  let here {A} := @at_line A "extract_texture_features" in
  g <- here 200%nat (rgb2gray img_np) ;;
  let gray := map (map (fun v => astype_uint8 (v * 255))) g in
  let distances := [1; 3; 5]%Z in
  let angles := [0; 1; 2; 3]%Z in
  glcm <- here 205%nat (graycomatrix gray distances angles 256 true true) ;;
  contrast <- here 208%nat (mean_prop glcm "contrast") ;;
  dissimilarity <- here 209%nat (mean_prop glcm "dissimilarity") ;;
  homogeneity <- here 210%nat (mean_prop glcm "homogeneity") ;;
  energy <- here 211%nat (mean_prop glcm "energy") ;;
  correlation <- here 212%nat (mean_prop glcm "correlation") ;;
  Ok {| tx_contrast := py_round_f contrast 4;
        tx_dissimilarity := py_round_f dissimilarity 4;
        tx_homogeneity := py_round_f homogeneity 4;
        tx_energy := py_round_f energy 4;
        tx_correlation := py_round_f correlation 4;
        texture_complexity :=
          py_round_f (fdiv (fadd contrast dissimilarity) (Fin 2)) 2 |}.

Definition gray_size (gray : gray8) : Z :=
  (Z.of_nat (List.length gray) *
   Z.of_nat (match gray with r :: _ => List.length r | [] => 0%nat end))%Z.

Definition extract_orb_features (img_np : ndarray) : result OrbFeatures :=
  let here {A} := @at_line A "extract_orb_features" in
  gray <- here 230%nat (cvtColor_RGB2GRAY img_np) ;;
  '(keypoints, descs) <- here 233%nat (ORB_detectAndCompute ORB_MAX_FEATURES gray) ;;
  if (Z.of_nat (List.length keypoints) =? 0)%Z
  then Ok {| total_keypoints := 0;
             keypoint_positions := [];
             feature_descriptor_hash := None;
             keypoint_density := 0 |}
  else
    let positions := map (fun kp => (kp_x kp, kp_y kp)) (firstn 50 keypoints) in
    let total_pixels := gray_size gray in
    d <- here 246%nat (py_truediv (Z.of_nat (List.length keypoints)) total_pixels) ;;
    let density := py_round (d * 1000) 2 in
    let desc_hash :=
      match descs with
      | Some des => Some (sha256_hexdigest (tobytes (List.concat des)))
      | None => None
      end in
    Ok {| total_keypoints := Z.of_nat (List.length keypoints);
          keypoint_positions := positions;
          feature_descriptor_hash := desc_hash;
          keypoint_density := density |}.

Definition extract_pixel_statistics (img_np : ndarray) : result PixelStatistics :=
  let here {A} := @at_line A "extract_pixel_statistics" in
  let flat := flatten_array img_np in
  let brightness := np_mean (map inject_Z flat) in
  let contrast := np_std (map inject_Z flat) in
  min_pixel <- here 269%nat (int_reduce Z.min flat) ;;
  max_pixel <- here 270%nat (int_reduce Z.max flat) ;;
  let dynamic_range := (max_pixel - min_pixel)%Z in
  let hist := calcHist (map (fun v => (v mod 256)%Z) flat) 256 in
  let img_entropy := scipy_entropy (map (fun c => inject_Z c + epsilon) hist) in
  let pixel_skewness := scipy_skew flat in
  let pixel_kurtosis := scipy_kurtosis flat in
  Ok {| brightness := py_round_f brightness 2;
        px_contrast := py_round_f contrast 2;
        min_pixel_value := min_pixel;
        max_pixel_value := max_pixel;
        dynamic_range := dynamic_range;
        px_entropy := py_round_f img_entropy 2;
        skewness := py_round_f pixel_skewness 2;
        kurtosis := py_round_f pixel_kurtosis 2 |}.

(** [np.sum(edges > 0)] and [edges.size]. *)
Definition count_positive (edges : gray8) : Z :=
  Z.of_nat (List.length (filter (fun v => (0 <? v)%Z) (List.concat edges))).

Definition array_size (edges : gray8) : Z :=
  Z.of_nat (List.length (List.concat edges)).

(** [np.sqrt(sobelx**2 + sobely**2)], element by element. *)
Definition gradient_magnitude (sobelx sobely : grayf) : list Q :=
  map (fun xy => np_sqrt (fst xy * fst xy + snd xy * snd xy))
      (combine (List.concat sobelx) (List.concat sobely)).

Definition extract_edge_features (img_np : ndarray) : result EdgeFeatures :=
  let here {A} := @at_line A "extract_edge_features" in
  gray <- here 300%nat (cvtColor_RGB2GRAY img_np) ;;
  edges_canny <- here 302%nat (Canny gray 100 200) ;;
  let edge_density :=
    py_round_f
      (fmul (fdiv (Fin (inject_Z (count_positive edges_canny)))
                  (Fin (inject_Z (array_size edges_canny))))
            (Fin 100)) 2 in
  sobelx <- here 305%nat (Sobel_CV_64F gray 1 0 3) ;;
  sobely <- here 306%nat (Sobel_CV_64F gray 0 1 3) ;;
  let sobel_magnitude := gradient_magnitude sobelx sobely in
  let edge_strength := py_round_f (np_mean sobel_magnitude) 2 in
  Ok {| edge_density_percentage := edge_density;
        edge_strength := edge_strength;
        has_strong_edges := fltb (Fin 5) edge_density |}.

(** The magnitude spectrum with the zero frequency moved to the centre. *)
Definition magnitude_spectrum_of (spectrum : list (list complex)) : grayf :=
  map (map np_abs) (np_fft_fftshift spectrum).

Definition low_freq_region (magnitude_spectrum : grayf) : grayf :=
  let center_y := (Z.of_nat (List.length magnitude_spectrum) / 2)%Z in
  let center_x :=
    (Z.of_nat (match magnitude_spectrum with
               | r :: _ => List.length r
               | [] => 0%nat
               end) / 2)%Z in
  map (py_slice (center_x - 20) (center_x + 20))
      (py_slice (center_y - 20) (center_y + 20) magnitude_spectrum).

(** Every entry of the matrix is at least zero. *)
Definition nonneg_matrix (m : grayf) : Prop :=
  Forall (Forall (fun x => 0 <= x)) m.

Definition classify_detail (freq_ratio : Q) : string :=
  if Qltb (3 # 2) freq_ratio then "high"
  else if Qltb (8 # 10) freq_ratio then "medium"
  else "low".

Definition extract_frequency_features (img_np : ndarray) : result FrequencyFeatures :=
  let here {A} := @at_line A "extract_frequency_features" in
  gray <- here 324%nat (cvtColor_RGB2GRAY img_np) ;;
  fft <- here 326%nat (np_fft_fft2 gray) ;;
  let magnitude_spectrum := magnitude_spectrum_of fft in
  let low_freq_energy := Qsum (List.concat (low_freq_region magnitude_spectrum)) in
  let high_freq_energy := Qsum (List.concat magnitude_spectrum) - low_freq_energy in
  r <- here 336%nat (float_truediv high_freq_energy (low_freq_energy + epsilon)) ;;
  let freq_ratio := py_round r 2 in
  Ok {| low_frequency_energy := py_round low_freq_energy 2;
        high_frequency_energy := py_round high_freq_energy 2;
        frequency_ratio := freq_ratio;
        detail_level := classify_detail freq_ratio |}.

(** [create_design_fingerprint]: the variadic arguments are the list. *)
Definition create_design_fingerprint (hashes : list string) : string :=
  let combined := String.concat "" hashes in
  sha256_hexdigest (list_byte_of_string combined).
End Extractors.

(* ================================================================== *)
(** ** scan.py: the scan itself *)

(** Computations that may raise and that read the clock: the state is the
    number of clock readings made so far. *)
Definition M (A : Type) : Type := nat -> result A * nat.

Definition mret {A} (a : A) : M A := fun n => (Ok a, n).

Definition mbind {A B} (m : M A) (k : A -> M B) : M B :=
  fun n =>
    match m n with
    | (Ok a, n') => k a n'
    | (Raise e, n') => (Raise e, n')
    end.

Definition lift {A} (r : result A) : M A := fun n => (r, n).

Declare Scope clock_scope.
Delimit Scope clock_scope with clock.
Notation "x <~ m ;; k" := (mbind m (fun x => k))
  (at level 61, m at next level, right associativity) : clock_scope.
Local Open Scope clock_scope.

Record ScanSuccess : Type := mkSuccess {
  ok_design_id : string;
  ok_metadata : FeatureMetadata;
  ok_scan_duration_seconds : Q;
  ok_message : string
}.

Record ScanFailure : Type := mkFailure {
  error_type : string;
  error_message : string;
  scan_duration_seconds : Q;
  timestamp : string;
  image_bytes_length : Z;
  traceback : list frame;
  system_info : string * string * string;
  message : string
}.

(** The dictionary returned by a scan: with ["success": True] or with
    ["success": False]. *)
Inductive ScanResult : Type :=
| Scanned (s : ScanSuccess)
| Failed (f : ScanFailure).

Definition success (r : ScanResult) : bool :=
  match r with Scanned _ => true | Failed _ => false end.

(** [result.get("metadata")] and [result.get("design_id")]. *)
Definition get_metadata (r : ScanResult) : option FeatureMetadata :=
  match r with Scanned s => Some (ok_metadata s) | Failed _ => None end.

Definition get_design_id (r : ScanResult) : option string :=
  match r with Scanned s => Some (ok_design_id s) | Failed _ => None end.

(** [(t1 - t0).total_seconds()] for readings in microseconds. *)
Definition total_seconds (t0 t1 : Z) : Q := inject_Z (t1 - t0) / 1000000.

Section Scan.
Context {config : Config} {pillow : Pillow} {skimage : Skimage}
        {imagehash : ImageHashLib} {opencv : OpenCV}
        {numpy : NumPy} {scipy : SciPy} {feature : SkimageFeature}
        {hashlib : Hashlib} {runtime : Runtime}.

(** [datetime.utcnow()]. *)
Definition utcnow : M Z := fun n => (Ok (utcnow_at n), S n).

Definition hash_string (h : result ImageHash) : result string :=
  v <- h ;; Ok (ImageHash_str v).

Definition extract_image_metadata (pil_img : PILImage) : M FeatureMetadata :=
  let here {A} (line : nat) (r : result A) : M A :=
    lift (at_line "extract_image_metadata" line r) in
  pil_img <~ here 24%nat (Image_convert pil_img "RGB") ;;
  let '(width, height) := im_size pil_img in
  let format_type :=
    match im_format pil_img with
    | Some f => if String.eqb f "" then "UNKNOWN" else f
    | None => "UNKNOWN"
    end in
  let mode := im_mode pil_img in
  img_np <~ here 32%nat (pil_to_np pil_img (Some (512, 512)%Z)) ;;
  phash <~ here 37%nat (hash_string (imagehash_phash pil_img PHASH_SIZE)) ;;
  ahash <~ here 38%nat (hash_string (imagehash_average_hash pil_img)) ;;
  dhash <~ here 39%nat (hash_string (imagehash_dhash pil_img)) ;;
  whash <~ here 40%nat (hash_string (imagehash_whash pil_img)) ;;
  colorhash <~ here 41%nat (hash_string (imagehash_colorhash pil_img)) ;;
  let img_bytes := tobytes (flatten_array img_np) in
  let sha256_hash := sha256_hexdigest img_bytes in
  color_analysis <~ here 49%nat (extract_color_features img_np) ;;
  texture_features <~ here 53%nat (extract_texture_features img_np) ;;
  orb_features <~ here 57%nat (extract_orb_features img_np) ;;
  pixel_stats <~ here 61%nat (extract_pixel_statistics img_np) ;;
  edge_features <~ here 65%nat (extract_edge_features img_np) ;;
  frequency_features <~ here 69%nat (extract_frequency_features img_np) ;;
  let design_fingerprint :=
    create_design_fingerprint [phash; ahash; dhash; whash; colorhash; sha256_hash] in
  now <~ utcnow ;;
  aspect <~ here 86%nat (py_truediv width height) ;;
  mret {| scan_timestamp := isoformat now ++ "Z";
          image_info := {| width := width;
                           height := height;
                           format := format_type;
                           mode := mode;
                           total_pixels := (width * height)%Z;
                           aspect_ratio := py_round aspect 2 |};
          hashes := {| perceptual_hash := phash;
                       average_hash := ahash;
                       difference_hash := dhash;
                       wavelet_hash := whash;
                       color_hash := colorhash;
                       sha256 := sha256_hash;
                       design_fingerprint := design_fingerprint |};
          color_analysis := color_analysis;
          texture_features := texture_features;
          orb_features := orb_features;
          pixel_statistics := pixel_stats;
          edge_features := edge_features;
          frequency_features := frequency_features;
          scan_metadata :=
            {| algorithm_version := "2.0.0";
               processing_resolution := "512x512";
               scan_type := "full_pixel_analysis";
               libraries_used := ["opencv-python-4.12.0";
                                  "scikit-image-0.24.0";
                                  "scipy-1.16.3";
                                  "ImageHash-4.3.2";
                                  "numpy-2.2.6"] |} |}.

(** The body of the [try] block of [scan_design_for_blockchain]. *)
Definition scan_body (image_bytes : list Byte.byte) : M (string * FeatureMetadata) :=
  let here {A} (line : nat) (m : M A) : M A :=
    fun n => let '(r, n') := m n in
             (at_line "scan_design_for_blockchain" line r, n') in
  pil_img <~ here 370%nat (lift (load_image_bytes image_bytes)) ;;
  metadata <~ here 374%nat (extract_image_metadata pil_img) ;;
  let design_id := design_fingerprint (hashes metadata) in
  mret (design_id, metadata).

Definition scan_design_for_blockchain (image_bytes : list Byte.byte)
  : nat -> ScanResult * nat :=
  fun n =>
    let scan_start_time := utcnow_at n in
    match scan_body image_bytes (S n) with
    | (Ok (design_id, metadata), n') =>
        let scan_end_time := utcnow_at n' in
        let duration := total_seconds scan_start_time scan_end_time in
        (Scanned {| ok_design_id := design_id;
                    ok_metadata := metadata;
                    ok_scan_duration_seconds := py_round duration 2;
                    ok_message :=
                      "Design scanned successfully. Ready for blockchain integration." |},
         S n')
    | (Raise e, n') =>
        let scan_end_time := utcnow_at n' in
        let duration := total_seconds scan_start_time scan_end_time in
        (Failed {| error_type := exn_type e;
                   error_message := exn_message e;
                   scan_duration_seconds := py_round duration 2;
                   timestamp := isoformat scan_end_time ++ "Z";
                   image_bytes_length := Z.of_nat (List.length image_bytes);
                   traceback := exn_tb e;
                   system_info := (sys_version, numpy_version, cv2_version);
                   message := "Scan failed - see error details" |},
         S n')
    end.
End Scan.

(** The metadata with its time stamp replaced. *)
Definition with_timestamp (ts : string) (md : FeatureMetadata) : FeatureMetadata :=
  {| scan_timestamp := ts;
     image_info := image_info md;
     hashes := hashes md;
     color_analysis := color_analysis md;
     texture_features := texture_features md;
     orb_features := orb_features md;
     pixel_statistics := pixel_statistics md;
     edge_features := edge_features md;
     frequency_features := frequency_features md;
     scan_metadata := scan_metadata md |}.

(** The traceback of [e] begins in function [fn]. *)
Definition framed (fn : string) (e : exn) : Prop :=
  exists line rest, exn_tb e = (fn, line) :: rest.

(** The stages of [extract_image_metadata], by the line that starts them,
    and those of them that are functions of [scan.py] and [utils.py], which
    leave a frame of their own in a traceback. *)
Definition stage_table : list (nat * string) :=
  [(24%nat, "convert"); (32%nat, "pil_to_np"); (37%nat, "phash");
   (38%nat, "average_hash"); (39%nat, "dhash"); (40%nat, "whash");
   (41%nat, "colorhash"); (49%nat, "extract_color_features");
   (53%nat, "extract_texture_features"); (57%nat, "extract_orb_features");
   (61%nat, "extract_pixel_statistics"); (65%nat, "extract_edge_features");
   (69%nat, "extract_frequency_features"); (86%nat, "aspect_ratio")].

Definition stage_functions : list string :=
  ["pil_to_np"; "extract_color_features"; "extract_texture_features";
   "extract_orb_features"; "extract_pixel_statistics"; "extract_edge_features";
   "extract_frequency_features"].

Fixpoint stage_at (line : nat) (table : list (nat * string)) : option string :=
  match table with
  | [] => None
  | (l, name) :: table' => if Nat.eqb l line then Some name else stage_at line table'
  end.

Definition is_stage_function (name : string) : bool :=
  existsb (String.eqb name) stage_functions.

(** The stage a traceback names: the call of [scan_design_for_blockchain]
    that failed (line 370, decoding; line 374, extraction), then the line of
    [extract_image_metadata] at which the exception surfaced and, for a
    stage that is a function, the frame of that function. *)
Definition failing_stage (tb : list frame) : option string :=
  match tb with
  | (f0, l0) :: (f1, l1) :: rest =>
      if negb (String.eqb f0 "scan_design_for_blockchain") then None
      else if Nat.eqb l0 370 && String.eqb f1 "load_image_bytes"
      then Some "load_image_bytes"
      else if Nat.eqb l0 374 && String.eqb f1 "extract_image_metadata"
      then match stage_at l1 stage_table with
           | Some name =>
               if is_stage_function name
               then match rest with
                    | (f2, _) :: _ => if String.eqb f2 name then Some name else None
                    | [] => None
                    end
               else Some name
           | None => None
           end
      else None
  | _ => None
  end.

(** What a stage call did: nothing to report, or the exception it raised. *)
Definition outcome {A} (r : result A) : option exn :=
  match r with
  | Ok _ => None
  | Raise e => Some e
  end.

Section Stages.
Context {config : Config} {pillow : Pillow} {skimage : Skimage}
        {imagehash : ImageHashLib} {opencv : OpenCV}
        {numpy : NumPy} {scipy : SciPy} {feature : SkimageFeature}
        {hashlib : Hashlib}.

(** The stage calls of [extract_image_metadata] on an image, in the order of
    the source (lines 24, 32, 37-41, 49, 53, 57, 61, 65, 69 and 86), each
    with its outcome.  The stages after a conversion or a resizing that
    raised have no input and are not listed. *)
Definition stage_outcomes (pil_img : PILImage) : list (string * option exn) :=
  match Image_convert pil_img "RGB" with
  | Raise e => [("convert", Some e)]
  | Ok pil_img =>
      ("convert", None) ::
      match pil_to_np pil_img (Some (512, 512)%Z) with
      | Raise e => [("pil_to_np", Some e)]
      | Ok img_np =>
          [("pil_to_np", None);
           ("phash", outcome (imagehash_phash pil_img PHASH_SIZE));
           ("average_hash", outcome (imagehash_average_hash pil_img));
           ("dhash", outcome (imagehash_dhash pil_img));
           ("whash", outcome (imagehash_whash pil_img));
           ("colorhash", outcome (imagehash_colorhash pil_img));
           ("extract_color_features", outcome (extract_color_features img_np));
           ("extract_texture_features",
            outcome (extract_texture_features img_np));
           ("extract_orb_features", outcome (extract_orb_features img_np));
           ("extract_pixel_statistics",
            outcome (extract_pixel_statistics img_np));
           ("extract_edge_features", outcome (extract_edge_features img_np));
           ("extract_frequency_features",
            outcome (extract_frequency_features img_np));
           ("aspect_ratio",
            outcome (py_truediv (fst (im_size pil_img)) (snd (im_size pil_img))))]
      end
  end.
End Stages.

(** The first stage of the list that raised, with its exception. *)
Fixpoint first_failure (stages : list (string * option exn))
  : option (string * exn) :=
  match stages with
  | [] => None
  | (name, Some e) :: _ => Some (name, e)
  | (_, None) :: stages' => first_failure stages'
  end.

(** [name in text]. *)
Definition mentions (name text : string) : bool :=
  match String.index 0 name text with
  | Some _ => true
  | None => false
  end.

(** "A structured failure naming the failing stage", read as an entry of
    the record: one of its texts, the traceback apart, mentions the stage. *)
Definition names_stage_in_entry (f : ScanFailure) (stage : string) : bool :=
  mentions stage (error_type f) || mentions stage (error_message f)
  || mentions stage (message f) || mentions stage (timestamp f).

(* ================================================================== *)
(** ** utils.py: the helpers outside the scan *)

(** Image files on disk, as OpenCV and Pillow read them. *)
Class Files : Type := {
  imread_GRAYSCALE : string -> option gray8;   (* [None]: not readable *)
  Image_open_path : string -> result PILImage
}.

(** [json.dumps(d, sort_keys=True)] of a dictionary given by its items. *)
Class Json : Type := {
  json_value : Type;
  json_dumps_sort_keys : list (string * json_value) -> string
}.

(** The builtins [min(a, b)] and [max(a, b)] on floats: the first argument
    unless the second is strictly smaller (larger). *)
Definition py_min (a b : Q) : Q := if Qltb b a then b else a.
Definition py_max (a b : Q) : Q := if Qltb a b then b else a.

Section UtilsHelpers.
Context {opencv : OpenCV} {imagehash : ImageHashLib} {hashlib : Hashlib}
        {files : Files} {json : Json}.

Definition load_image (image_path : string) : result gray8 :=
  match imread_GRAYSCALE image_path with
  | None =>
      at_line "load_image" 23
        (raise_here "ValueError" ("Could not read image: " ++ image_path))
  | Some img => Ok img
  end.

Definition calculate_phash (image_path : string) (hash_size : Z)
  : result ImageHash :=
  image <- at_line "calculate_phash" 28 (Image_open_path image_path) ;;
  at_line "calculate_phash" 29 (imagehash_phash image hash_size).

Definition calculate_orb_features (image : gray8) (max_features : Z)
  : result (list KeyPoint * option descriptors) :=
  at_line "calculate_orb_features" 34 (ORB_detectAndCompute max_features image).

Definition match_orb_features (desc1 desc2 : option descriptors) : result Q :=
  match desc1, desc2 with
  | Some desc1, Some desc2 =>
      matches <- at_line "match_orb_features" 43
                   (BFMatcher_match NORM_HAMMING true desc1 desc2) ;;
      match matches with
      | [] => Ok 0
      | _ :: _ =>
          let distances := map distance matches in
          q <- at_line "match_orb_features" 48
                 (float_truediv (Qsum distances)
                    (inject_Z (Z.of_nat (List.length distances) * 256))) ;;
          let score := 1 - q in
          Ok (py_max 0 (py_min score 1))
      end
  | _, _ => Ok 0
  end.

(** The hasher is fed the array bytes and then, for a non-empty dictionary,
    the encoded JSON text: the digest is that of the two joined. *)
Definition compute_sha256_of_normalized (img_arr : ndarray)
  (metadata : option (list (string * json_value))) : string :=
  let img_bytes := tobytes (flatten_array img_arr) in
  let meta_bytes :=
    match metadata with
    | Some (item :: items) =>
        list_byte_of_string (json_dumps_sort_keys (item :: items))
    | _ => []
    end in
  sha256_hexdigest (img_bytes ++ meta_bytes)%list.
End UtilsHelpers.

(* ================================================================== *)
(** ** main.py: the two endpoints *)

(** [SIMILARITY_THRESHOLD] of [app/config.py]. *)
Class ApiConfig : Type := {
  SIMILARITY_THRESHOLD : Q
}.

(** An uploaded file: [upload_read] is what [await f.read()] gives. *)
Record UploadFile : Type := mkUpload {
  filename : option string;
  content_type : option string;
  upload_read : result (list Byte.byte)
}.

(** The content of an error response: ["success": False] with the keys
    ["error"], ["message"] and, on two paths, ["traceback"]. *)
Record ErrorContent : Type := mkErrorContent {
  err_error : string;
  err_message : string;
  err_traceback : option (list frame)
}.

Record ScanContent : Type := mkScanContent {
  sc_design_id : string;
  sc_designId : string;
  sc_metadata : FeatureMetadata;
  sc_scan_duration : Q;
  sc_scanDuration : Q;
  sc_message : string
}.

Record CompareContent : Type := mkCompareContent {
  cc_similarity_score : pyfloat;
  cc_similarityScore : pyfloat;
  cc_is_plagiarism : bool;
  cc_isPlagiarism : bool;
  cc_breakdown : Breakdown;
  cc_threshold : Q;
  cc_message : string
}.

(** What an endpoint returns: a [JSONResponse] with its status code, or a
    dictionary with ["success": True], which FastAPI sends with status 200. *)
Inductive Response (A : Type) : Type :=
| JSONResponse (status_code : Z) (content : ErrorContent)
| Returned (content : A).
Arguments JSONResponse {A} status_code content.
Arguments Returned {A} content.

Definition response_status {A} (r : Response A) : Z :=
  match r with
  | JSONResponse status_code _ => status_code
  | Returned _ => 200%Z
  end.

(** [not f.content_type or not f.content_type.startswith("image/")],
    negated. *)
Definition is_image_upload (f : UploadFile) : bool :=
  match content_type f with
  | Some ct => negb (String.eqb ct "") && String.prefix "image/" ct
  | None => false
  end.

Section Main.
Context {config : Config} {api : ApiConfig} {pillow : Pillow} {skimage : Skimage}
        {imagehash : ImageHashLib} {opencv : OpenCV}
        {numpy : NumPy} {scipy : SciPy} {feature : SkimageFeature}
        {hashlib : Hashlib} {runtime : Runtime}.

Definition scan_design (design : UploadFile) : nat -> Response ScanContent * nat :=
  fun n =>
    if negb (is_image_upload design)
    then (JSONResponse 400
            {| err_error := "InvalidFileType";
               err_message :=
                 "Invalid file type. Please upload an image (PNG, JPG, JPEG).";
               err_traceback := None |}, n)
    else
      match at_line "scan_design" 93 (upload_read design) with
      | Raise e =>
          (JSONResponse 500
             {| err_error := "UnexpectedError";
                err_message := "Unexpected error during scan: " ++ exn_message e;
                err_traceback := Some (exn_tb e) |}, n)
      | Ok image_bytes =>
          if (Z.of_nat (List.length image_bytes) =? 0)%Z
          then (JSONResponse 400
                  {| err_error := "EmptyFile";
                     err_message :=
                       "Empty file received. Please upload a valid image.";
                     err_traceback := None |}, n)
          else
            let '(result, n') := scan_design_for_blockchain image_bytes n in
            match result with
            | Failed f =>
                (JSONResponse 500
                   {| err_error := error_type f;
                      err_message := error_message f;
                      err_traceback := Some (traceback f) |}, n')
            | Scanned s =>
                let design_id := ok_design_id s in
                let scan_duration := ok_scan_duration_seconds s in
                (Returned
                   {| sc_design_id := design_id;
                      sc_designId := design_id;
                      sc_metadata := ok_metadata s;
                      sc_scan_duration := scan_duration;
                      sc_scanDuration := scan_duration;
                      sc_message := ok_message s |}, n')
            end
      end.

Definition compare_designs (original suspect : UploadFile)
  : Response CompareContent :=
  let here {A} := @at_line A "compare_designs" in
  if negb (is_image_upload original)
  then JSONResponse 400
         {| err_error := "InvalidFileType";
            err_message := "Original file must be an image";
            err_traceback := None |}
  else if negb (is_image_upload suspect)
  then JSONResponse 400
         {| err_error := "InvalidFileType";
            err_message := "Suspect file must be an image";
            err_traceback := None |}
  else
    let outcome :=
      original_bytes <- here 212%nat (upload_read original) ;;
      suspect_bytes <- here 213%nat (upload_read suspect) ;;
      if (Z.of_nat (List.length original_bytes) =? 0)%Z
         || (Z.of_nat (List.length suspect_bytes) =? 0)%Z
      then Ok (JSONResponse 400
                 {| err_error := "EmptyFile";
                    err_message := "Empty files received";
                    err_traceback := None |})
      else
        pil_orig <- here 230%nat (load_image_bytes original_bytes) ;;
        pil_susp <- here 231%nat (load_image_bytes suspect_bytes) ;;
        result <- here 235%nat
                    (combined_similarity pil_orig pil_susp default_np_size) ;;
        let score := score result in
        let is_plagiarism := fleb (Fin SIMILARITY_THRESHOLD) score in
        Ok (Returned
              {| cc_similarity_score := py_round_f score 4;
                 cc_similarityScore := py_round_f score 4;
                 cc_is_plagiarism := is_plagiarism;
                 cc_isPlagiarism := is_plagiarism;
                 cc_breakdown := breakdown result;
                 cc_threshold := SIMILARITY_THRESHOLD;
                 cc_message :=
                   if is_plagiarism then "Plagiarism detected"
                   else "No plagiarism detected" |}) in
    match outcome with
    | Ok response => response
    | Raise e =>
        JSONResponse 500
          {| err_error := "ComparisonError";
             err_message := "Comparison failed: " ++ exn_message e;
             err_traceback := None |}
    end.
End Main.

(* ================================================================== *)
(** ** Reference models of the collaborators *)

(** *** hashlib: SHA-256 (FIPS 180-4) on 32-bit words held in [Z] *)
Module SHA256.
Local Open Scope Z_scope.

Definition w32 (x : Z) : Z := x mod 4294967296.
Definition rotr (n x : Z) : Z :=
  w32 (Z.lor (Z.shiftr x n) (Z.shiftl x (32 - n))).
Definition not32 (x : Z) : Z := 4294967295 - x.

Definition Ch (x y z : Z) : Z := Z.lxor (Z.land x y) (Z.land (not32 x) z).
Definition Maj (x y z : Z) : Z :=
  Z.lxor (Z.lxor (Z.land x y) (Z.land x z)) (Z.land y z).
Definition Sigma0 (x : Z) : Z := Z.lxor (Z.lxor (rotr 2 x) (rotr 13 x)) (rotr 22 x).
Definition Sigma1 (x : Z) : Z := Z.lxor (Z.lxor (rotr 6 x) (rotr 11 x)) (rotr 25 x).
Definition sigma0 (x : Z) : Z := Z.lxor (Z.lxor (rotr 7 x) (rotr 18 x)) (Z.shiftr x 3).
Definition sigma1 (x : Z) : Z := Z.lxor (Z.lxor (rotr 17 x) (rotr 19 x)) (Z.shiftr x 10).

(** The round constants are the first 32 bits of the fractional parts of the
    cube roots of the first 64 primes; the initial hash value, those of the
    square roots of the first 8. *)
Definition primes : list Z :=
  [2; 3; 5; 7; 11; 13; 17; 19; 23; 29; 31; 37; 41; 43; 47; 53; 59; 61; 67; 71;
   73; 79; 83; 89; 97; 101; 103; 107; 109; 113; 127; 131; 137; 139; 149; 151;
   157; 163; 167; 173; 179; 181; 191; 193; 197; 199; 211; 223; 227; 229; 233;
   239; 241; 251; 257; 263; 269; 271; 277; 281; 283; 293; 307; 311].

(** The integer cube root of [n], one bit at a time from bit [bits - 1]. *)
Fixpoint cube_root (bits : nat) (n r : Z) : Z :=
  match bits with
  | O => r
  | S bits' =>
      let c := r + Z.shiftl 1 (Z.of_nat bits') in
      if c * c * c <=? n then cube_root bits' n c else cube_root bits' n r
  end.

Definition K : list Z :=
  Eval vm_compute in
    map (fun p => w32 (cube_root 36 (Z.shiftl p 96) 0)) primes.

Definition H0 : list Z :=
  Eval vm_compute in
    map (fun p => w32 (Z.sqrt (Z.shiftl p 64))) (firstn 8 primes).

(** Message padding: the bit [1], zeros, and the bit length on 64 bits. *)
Definition be_bytes (count : nat) (x : Z) : list Z :=
  map (fun i => (Z.shiftr x (8 * Z.of_nat (count - 1 - i))) mod 256) (seq 0 count).

Definition pad (msg : list Z) : list Z :=
  let len := Z.of_nat (List.length msg) in
  let zeros := Z.to_nat ((55 - len) mod 64) in
  msg ++ [128] ++ repeat 0 zeros ++ be_bytes 8 (8 * len).

Fixpoint words (fuel : nat) (bytes : list Z) : list Z :=
  match fuel, bytes with
  | S fuel', a :: b :: c :: d :: rest =>
      (a * 16777216 + b * 65536 + c * 256 + d) :: words fuel' rest
  | _, _ => []
  end.

(** The message schedule, most recent word first. *)
Fixpoint extend (count : nat) (rev_w : list Z) : list Z :=
  match count with
  | O => rev_w
  | S count' =>
      let w :=
        w32 (sigma1 (nth 1 rev_w 0) + nth 6 rev_w 0
             + sigma0 (nth 14 rev_w 0) + nth 15 rev_w 0) in
      extend count' (w :: rev_w)
  end.

Definition schedule (block : list Z) : list Z := rev (extend 48 (rev block)).

Definition round (st : list Z) (kw : Z * Z) : list Z :=
  match st with
  | [a; b; c; d; e; f; g; h] =>
      let t1 := h + Sigma1 e + Ch e f g + fst kw + snd kw in
      let t2 := Sigma0 a + Maj a b c in
      [w32 (t1 + t2); a; b; c; w32 (d + t1); e; f; g]
  | _ => st
  end.

Definition compress (h : list Z) (block : list Z) : list Z :=
  let st := fold_left round (combine K (schedule block)) h in
  map (fun p => w32 (fst p + snd p)) (combine h st).

Fixpoint blocks (fuel : nat) (ws : list Z) : list (list Z) :=
  match fuel, ws with
  | _, [] => []
  | O, _ => []
  | S fuel', _ => firstn 16 ws :: blocks fuel' (skipn 16 ws)
  end.

Definition digest (msg : list Z) : list Z :=
  let ws := words (List.length msg + 72) (pad msg) in
  fold_left compress (blocks (List.length ws) ws) H0.

Definition hex_of_word (x : Z) : string :=
  string_of_list_ascii
    (map (fun i => hex_digit (Z.to_nat ((Z.shiftr x (4 * Z.of_nat (7 - i))) mod 16)))
         (seq 0 8)).

Definition hexdigest (msg : list Byte.byte) : string :=
  String.concat ""
    (map hex_of_word (digest (map (fun b => Z.of_N (Byte.to_N b)) msg))).
End SHA256.

Definition hashlib_reference : Hashlib :=
  {| sha256_hexdigest := SHA256.hexdigest |}.

(** *** skimage.color.rgb2gray and skimage.metrics.structural_similarity

    The documented algorithms in the exact arithmetic of this embedding:
    luminance weights 0.2125, 0.7154, 0.0721 on channels scaled to [0, 1];
    SSIM with the default uniform 7x7 window, K1 = 0.01, K2 = 0.03, sample
    covariance, and the mean of the map cropped by the window's radius, so
    that every window used lies inside the frame. *)
Module SkimageReference.

Definition gray_of_pixel (p : pixel) : Q :=
  match p with
  | [r; g; b] =>
      (2125 * inject_Z r + 7154 * inject_Z g + 721 * inject_Z b) / 2550000
  | _ => 0
  end.

Definition rgb2gray_model (a : ndarray) : result grayf :=
  match a with
  | Color3 rows =>
      if Nat.eqb (shape_last a) 3 then Ok (map (map gray_of_pixel) rows)
      else raise_here "ValueError"
             "the input array must have size 3 along `channel_axis`"
  | Gray2 _ =>
      raise_here "ValueError"
        "the input array must have size 3 along `channel_axis`"
  end.

Definition shape2 {A} (g : list (list A)) : nat * nat :=
  (List.length g, match g with r :: _ => List.length r | [] => 0%nat end).

(** The 7x7 window whose upper left corner is at row [i], column [j]. *)
Definition window (g : grayf) (i j : nat) : list Q :=
  List.concat (map (fun row => firstn 7 (skipn j row)) (firstn 7 (skipn i g))).

(** [uniform_filter] on a window: the sum over 49. *)
Definition window_mean (w : list Q) : Q := Qsum w / 49.

Definition squares (l : list Q) : list Q := map (fun v => v * v) l.

Definition products (l l' : list Q) : list Q :=
  map (fun p => fst p * snd p) (combine l l').

Definition ssim_window (C1 C2 : Q) (wx wy : list Q) : pyfloat :=
  let ux := window_mean wx in
  let uy := window_mean wy in
  let uxx := window_mean (squares wx) in
  let uyy := window_mean (squares wy) in
  let uxy := window_mean (products wx wy) in
  let cov_norm := 49 # 48 in
  let vx := cov_norm * (uxx - ux * ux) in
  let vy := cov_norm * (uyy - uy * uy) in
  let vxy := cov_norm * (uxy - ux * uy) in
  let A1 := 2 * ux * uy + C1 in
  let A2 := 2 * vxy + C2 in
  let B1 := ux * ux + uy * uy + C1 in
  let B2 := vx + vy + C2 in
  fdiv (Fin (A1 * A2)) (Fin (B1 * B2)).

(** The cropped SSIM map, row by row. *)
Definition ssim_map (C1 C2 : Q) (x y : grayf) : list pyfloat :=
  let '(h, w) := shape2 x in
  flat_map (fun i =>
              map (fun j => ssim_window C1 C2 (window x i j) (window y i j))
                  (seq 0 (w - 6)))
           (seq 0 (h - 6)).

Definition fsum (l : list pyfloat) : pyfloat := fold_right fadd (Fin 0) l.

Definition fmean (l : list pyfloat) : pyfloat :=
  fdiv (fsum l) (Fin (inject_Z (Z.of_nat (List.length l)))).

Definition ssim_model (x y : grayf) (data_range : Q) : result pyfloat :=
  let '(h, w) := shape2 x in
  let '(h', w') := shape2 y in
  if negb (Nat.eqb h h' && Nat.eqb w w')
  then raise_here "ValueError" "Input images must have the same dimensions."
  else if Nat.ltb h 7 || Nat.ltb w 7
  then raise_here "ValueError" "win_size exceeds image extent."
  else
    let C1 := ((1 # 100) * data_range) * ((1 # 100) * data_range) in
    let C2 := ((3 # 100) * data_range) * ((3 # 100) * data_range) in
    Ok (fmean (ssim_map C1 C2 x y)).

(** The luminance of a black pixel, and the number of entries of a list as
    a rational. *)
Definition zero_gray : Q := gray_of_pixel [0; 0; 0]%Z.

Definition Qlen (l : list Q) : Q := inject_Z (Z.of_nat (List.length l)).

Definition skimage_reference : Skimage :=
  {| rgb2gray := rgb2gray_model;
     structural_similarity := ssim_model |}.

End SkimageReference.

(** *** The other collaborators on a black frame

    Partial models used to run the program on concrete data: each function
    answers as its library does on a uniformly black RGB frame (and on the
    few other inputs that are simple to describe), and refuses what it does
    not model. *)
Module Models.

Definition not_modelled {A} : result A :=
  raise_here "NotImplementedError" "input outside the model".

Definition config_example : Config :=
  {| SSIM_WEIGHT := 4 # 10;
     PHASH_WEIGHT := 3 # 10;
     ORB_WEIGHT := 3 # 10;
     PHASH_SIZE := 16;
     ORB_MAX_FEATURES := 500 |}.

(** A configuration ImageHash refuses: its hash size is below 2. *)
Definition config_small_hash : Config :=
  {| SSIM_WEIGHT := 4 # 10;
     PHASH_WEIGHT := 3 # 10;
     ORB_WEIGHT := 3 # 10;
     PHASH_SIZE := 1;
     ORB_MAX_FEATURES := 500 |}.

Definition black_rows (h w : nat) : list (list pixel) :=
  repeat (repeat [0; 0; 0]%Z w) h.

Definition black_frame (h w : nat) : ndarray := Color3 (black_rows h w).

Definition black_image (h w : nat) : PILImage :=
  {| im_size := (Z.of_nat w, Z.of_nat h);
     im_mode := "RGB";
     im_format := None;
     im_data := black_frame h w |}.

(** A black frame whose top row is white. *)
Definition white_top_frame (h w : nat) : ndarray :=
  Color3 (repeat [255; 255; 255]%Z w :: black_rows (h - 1) w).

Definition all_zero (g : gray8) : bool := forallb (forallb (Z.eqb 0)) g.

Definition is_black (a : ndarray) : bool :=
  match a with
  | Gray2 rows => all_zero rows
  | Color3 rows => forallb (forallb (forallb (Z.eqb 0))) rows
  end.

(** Pillow: an empty file is not identified and every other file stands for
    the encoded black 512x512 frame; converting an RGB image to RGB and
    resizing an image to its own size give a copy, which has no format. *)
Definition decoded_image : PILImage :=
  {| im_size := (512, 512)%Z;
     im_mode := "RGB";
     im_format := Some "PNG";
     im_data := black_frame 512 512 |}.

Definition pillow_model : Pillow :=
  {| Image_open := fun data =>
       match data with
       | [] => Raise (mkExn "UnidentifiedImageError" "cannot identify image file"
                            [("open", 3536%nat)])
       | _ => Ok decoded_image
       end;
     Image_convert := fun img target =>
       if String.eqb (im_mode img) "RGB" && String.eqb target "RGB"
       then Ok {| im_size := im_size img;
                  im_mode := "RGB";
                  im_format := None;
                  im_data := im_data img |}
       else not_modelled;
     Image_resize_LANCZOS := fun img size =>
       if (fst size =? fst (im_size img))%Z && (snd size =? snd (im_size img))%Z
       then Ok {| im_size := im_size img;
                  im_mode := im_mode img;
                  im_format := None;
                  im_data := im_data img |}
       else not_modelled |}.

(** ImageHash on a black frame: no bit set, except the "black fraction" bin
    of the colour hash. *)
Definition no_bits (h w : nat) : ImageHash := mkHash (repeat (repeat false w) h).

Definition on_black (img : PILImage) (h : ImageHash) : result ImageHash :=
  if is_black (im_data img) then Ok h else not_modelled.

Definition imagehash_model : ImageHashLib :=
  {| imagehash_phash := fun img hash_size =>
       if (hash_size <? 2)%Z
       then raise_here "ValueError" "Hash size must be greater than or equal to 2"
       else on_black img (no_bits (Z.to_nat hash_size) (Z.to_nat hash_size));
     imagehash_average_hash := fun img => on_black img (no_bits 8 8);
     imagehash_dhash := fun img => on_black img (no_bits 8 8);
     imagehash_whash := fun img => on_black img (no_bits 8 8);
     imagehash_colorhash := fun img =>
       on_black img (mkHash ([true; true; true] :: repeat [false; false; false] 13)) |}.

(** OpenCV: a black frame has a black luminance, no corner, no edge and no
    gradient.  The brute-force matcher is the documented one: to each query
    descriptor its nearest train descriptor, kept under [crossCheck] only
    when the choice is mutual. *)
Definition zeros_like {A B} (zero : B) (g : list (list A)) : list (list B) :=
  map (map (fun _ => zero)) g.

Fixpoint popcount8 (fuel : nat) (x : Z) : Z :=
  match fuel with
  | O => 0%Z
  | S fuel' => ((x mod 2) + popcount8 fuel' (x / 2))%Z
  end.

Definition hamming (a b : list Z) : Z :=
  Zsum (map (fun p => popcount8 8 (Z.lxor (fst p) (snd p))) (combine a b)).

(** Position and distance of the first nearest descriptor. *)
Fixpoint nearest_from (q : list Z) (train : list (list Z)) (idx : nat)
  (best : nat * Z) : nat * Z :=
  match train with
  | [] => best
  | t :: train' =>
      let d := hamming q t in
      nearest_from q train' (S idx) (if (d <? snd best)%Z then (idx, d) else best)
  end.

Definition nearest (q : list Z) (train : list (list Z)) : option (nat * Z) :=
  match train with
  | [] => None
  | t :: train' => Some (nearest_from q train' 1 (0%nat, hamming q t))
  end.

Definition bf_match (cross_check : bool) (des1 des2 : descriptors) : list DMatch :=
  flat_map
    (fun iq =>
       match nearest (snd iq) des2 with
       | None => []
       | Some (j, d) =>
           let mutual :=
             match nearest (nth j des2 []) des1 with
             | Some (i', _) => Nat.eqb i' (fst iq)
             | None => false
             end in
           if negb cross_check || mutual
           then [mkDMatch (fst iq) j (inject_Z d)]
           else []
       end)
    (combine (seq 0 (List.length des1)) des1).

Definition histogram (values : list Z) (bins : Z) : list Z :=
  map (fun i =>
         Z.of_nat (List.length
                     (filter (fun v => (v * bins / 256 =? Z.of_nat i)%Z) values)))
      (seq 0 (Z.to_nat bins)).

(** The luminance of a neutral pixel (equal channels) is the common value,
    the weights adding up to one. *)
Definition neutral (p : pixel) : bool :=
  match p with
  | [r; g; b] => (r =? g)%Z && (g =? b)%Z
  | _ => false
  end.

Definition luminance (rows : list (list pixel)) : gray8 :=
  map (map (fun p => nth 0 p 0%Z)) rows.

Definition opencv_model : OpenCV :=
  {| cvtColor_RGB2GRAY := fun a =>
       match a with
       | Color3 rows =>
           if forallb (forallb neutral) rows then Ok (luminance rows)
           else not_modelled
       | Gray2 _ => not_modelled
       end;
     ORB_detectAndCompute := fun _ gray =>
       if all_zero gray then Ok ([], None) else not_modelled;
     BFMatcher_match := fun norm cross_check des1 des2 =>
       match norm with
       | NORM_HAMMING => Ok (bf_match cross_check des1 des2)
       | _ => not_modelled
       end;
     Canny := fun gray _ _ =>
       if all_zero gray then Ok (zeros_like 0%Z gray) else not_modelled;
     Sobel_CV_64F := fun gray _ _ _ =>
       if all_zero gray then Ok (zeros_like 0 gray) else not_modelled;
     calcHist := histogram |}.

(** An OpenCV double for the matcher: the detector reports two keypoints
    with fixed 32-byte descriptors, chosen by the height of the frame. *)
Definition fixture_descriptors (rows : nat) : descriptors :=
  if Nat.eqb rows 1
  then [repeat 0%Z 32; repeat 255%Z 32]
  else [(repeat 0%Z 31 ++ [1%Z])%list; (repeat 255%Z 20 ++ repeat 0%Z 12)%list].

(** The edge map of the double: the first 13118 pixels of a 512-wide frame
    in raster order, whatever the frame shows. *)
Definition edge_map_fixture (gray : gray8) : gray8 :=
  (repeat (repeat 255%Z 512) 25
   ++ [(repeat 255%Z 318 ++ repeat 0%Z 194)%list]
   ++ repeat (repeat 0%Z 512) (List.length gray - 26))%list.

Definition opencv_fixture : OpenCV :=
  {| cvtColor_RGB2GRAY := fun a =>
       match a with
       | Color3 rows => Ok (zeros_like 0%Z rows)
       | Gray2 rows => Ok rows
       end;
     ORB_detectAndCompute := fun _ gray =>
       Ok ([mkKeyPoint 1 1; mkKeyPoint 2 2],
           Some (fixture_descriptors (List.length gray)));
     BFMatcher_match := BFMatcher_match (OpenCV := opencv_model);
     Canny := fun gray _ _ => Ok (edge_map_fixture gray);
     Sobel_CV_64F := fun gray _ _ _ => Ok (zeros_like 0 gray);
     calcHist := histogram |}.

(** An ImageHash double: the same digest for every image. *)
Definition imagehash_fixture : ImageHashLib :=
  {| imagehash_phash := fun _ hash_size =>
       Ok (no_bits (Z.to_nat hash_size) (Z.to_nat hash_size));
     imagehash_average_hash := fun _ => Ok (no_bits 8 8);
     imagehash_dhash := fun _ => Ok (no_bits 8 8);
     imagehash_whash := fun _ => Ok (no_bits 8 8);
     imagehash_colorhash := fun _ => Ok (no_bits 14 3) |}.

Definition white_top_image (h w : nat) : PILImage :=
  {| im_size := (Z.of_nat w, Z.of_nat h);
     im_mode := "RGB";
     im_format := None;
     im_data := white_top_frame h w |}.

(** NumPy: the square root rounded down to 30 binary places, the standard
    deviation through it, the sorted distinct rows with their counts. *)
Definition sqrt_model (q : Q) : Q :=
  inject_Z (Z.sqrt (Qfloor (q * inject_Z (2 ^ 60)))) / inject_Z (2 ^ 30).

Definition std_model (l : list Q) : pyfloat :=
  match l with
  | [] => NaN
  | _ =>
      let n := inject_Z (Z.of_nat (List.length l)) in
      let mu := Qsum l / n in
      Fin (sqrt_model (Qsum (map (fun v => (v - mu) * (v - mu)) l) / n))
  end.

Fixpoint lex_compare (a b : list Z) : comparison :=
  match a, b with
  | [], [] => Eq
  | [], _ => Lt
  | _, [] => Gt
  | x :: a', y :: b' =>
      match Z.compare x y with
      | Eq => lex_compare a' b'
      | c => c
      end
  end.

Fixpoint count_row (row : list Z) (acc : list (list Z * Z)) : list (list Z * Z) :=
  match acc with
  | [] => [(row, 1%Z)]
  | (r, c) :: acc' =>
      match lex_compare row r with
      | Eq => (r, (c + 1)%Z) :: acc'
      | Lt => (row, 1%Z) :: (r, c) :: acc'
      | Gt => (r, c) :: count_row row acc'
      end
  end.

Definition unique_counts (rows : list (list Z)) : list (list Z * Z) :=
  fold_right count_row [] rows.

(** A frame that vanishes outside its first entry is an impulse at the
    origin; its transform is flat, every coefficient being the value of the
    entry. *)
Definition impulse_value (gray : gray8) : option Z :=
  match gray with
  | (v :: row) :: rows =>
      if forallb (Z.eqb 0) row && all_zero rows then Some v else None
  | _ => None
  end.

Definition impulse_frame (h w : nat) : ndarray :=
  Color3 (([255; 255; 255]%Z :: repeat [0; 0; 0]%Z (w - 1))
            :: black_rows (h - 1) w).

Definition numpy_model : NumPy :=
  {| np_sqrt := sqrt_model;
     np_std := std_model;
     np_unique_counts := unique_counts;
     np_fft_fft2 := fun gray =>
       match impulse_value gray with
       | Some v => Ok (zeros_like (inject_Z v, 0) gray)
       | None => not_modelled
       end;
     np_abs := fun z => sqrt_model (fst z * fst z + snd z * snd z) |}.

(** SciPy on the pixels of a black frame: the entropy of a one-bin
    distribution vanishes, the moments of constant data are [nan]. *)
Definition scipy_model : SciPy :=
  {| scipy_entropy := fun _ => Fin 0;
     scipy_skew := fun _ => NaN;
     scipy_kurtosis := fun _ => NaN |}.

(** skimage.feature on a black frame: one grey level only. *)
Definition feature_model : SkimageFeature :=
  {| GLCM := gray8;
     graycomatrix := fun gray _ _ _ _ _ =>
       if all_zero gray then Ok gray else not_modelled;
     graycoprops := fun _ prop =>
       if String.eqb prop "contrast" || String.eqb prop "dissimilarity"
       then Ok (repeat 0 12)
       else Ok (repeat 1 12) |}.

(** The clock ticks once a millisecond; instants are rendered by their count
    of microseconds. *)
Definition runtime_model : Runtime :=
  {| utcnow_at := fun k => (1700000000000000 + 1000 * Z.of_nat k)%Z;
     isoformat := fun t => NilZero.string_of_int (Z.to_int t);
     sys_version := "3.12";
     numpy_version := "2.2.6";
     cv2_version := "4.12.0" |}.

End Models.

(** *** Uploads and JSON for the examples *)
Module ApiModels.

Definition api_example : ApiConfig := {| SIMILARITY_THRESHOLD := 85 # 100 |}.

Definition image_upload (data : list Byte.byte) : UploadFile :=
  {| filename := Some "design.png";
     content_type := Some "image/png";
     upload_read := Ok data |}.

(** Dictionaries of strings, rendered item by item in the order given. *)
Definition json_model : Json :=
  {| json_value := string;
     json_dumps_sort_keys := fun items =>
       String.concat "," (map (fun kv => fst kv ++ ":" ++ snd kv) items) |}.

End ApiModels.

(* ================================================================== *)
(** * Properties *)

Import SkimageReference Models ApiModels.

Lemma Qltb_true (a b : Q) : Qltb a b = true <-> a < b.
Proof.
  unfold Qltb. rewrite negb_true_iff. split; intro H.
  - apply Qnot_le_lt. intro Hle. apply Qle_bool_iff in Hle. congruence.
  - destruct (Qle_bool b a) eqn:E; [|reflexivity].
    apply Qle_bool_iff in E. exfalso. apply (Qlt_not_le _ _ H E).
Qed.

Lemma Qltb_false (a b : Q) : Qltb a b = false <-> b <= a.
Proof.
  unfold Qltb. rewrite negb_false_iff. apply Qle_bool_iff.
Qed.

Lemma np_clip_nan (lo hi : Q) : np_clip NaN lo hi = NaN.
Proof. reflexivity. Qed.

Lemma np_clip_fin (q lo hi : Q) :
  np_clip (Fin q) lo hi =
  Fin (if Qltb hi (if Qltb q lo then lo else q) then hi
       else if Qltb q lo then lo else q).
Proof.
  unfold np_clip, np_maximum, np_minimum; simpl.
  destruct (Qltb q lo); simpl; destruct (Qltb hi _); reflexivity.
Qed.

Lemma np_clip_range (x : pyfloat) (lo hi : Q) :
  lo <= hi -> is_nan x = false -> in_range lo hi (np_clip x lo hi).
Proof.
  intros Hlh Hx. destruct x as [q | | |]; try discriminate.
  - rewrite np_clip_fin.
    destruct (Qltb q lo) eqn:E1.
    + destruct (Qltb hi lo) eqn:E2.
      * apply Qltb_true in E2. exfalso. apply (Qlt_not_le _ _ E2 Hlh).
      * exists lo. split; [reflexivity|]. split; [apply Qle_refl | exact Hlh].
    + apply Qltb_false in E1.
      destruct (Qltb hi q) eqn:E2.
      * exists hi. split; [reflexivity|]. split; [exact Hlh | apply Qle_refl].
      * apply Qltb_false in E2. exists q. auto.
  - unfold np_clip, np_maximum, np_minimum; simpl.
    exists hi. split; [reflexivity|]. split; [exact Hlh | apply Qle_refl].
  - unfold np_clip, np_maximum, np_minimum; simpl.
    destruct (Qltb hi lo) eqn:E2.
    + apply Qltb_true in E2. exfalso. apply (Qlt_not_le _ _ E2 Hlh).
    + exists lo. split; [reflexivity|]. split; [apply Qle_refl | exact Hlh].
Qed.

Lemma np_clip_inside (q lo hi : Q) :
  lo <= q -> q <= hi -> np_clip (Fin q) lo hi = Fin q.
Proof.
  intros H1 H2. rewrite np_clip_fin.
  apply Qltb_false in H1. rewrite H1.
  apply Qltb_false in H2. rewrite H2. reflexivity.
Qed.

Lemma insert_by_distance_perm (m : DMatch) (l : list DMatch) :
  Permutation (insert_by_distance m l) (m :: l).
Proof.
  induction l as [|x l IH]; simpl.
  - apply Permutation_refl.
  - destruct (Qltb (distance m) (distance x)).
    + apply Permutation_refl.
    + apply perm_trans with (x :: m :: l).
      * apply perm_skip. exact IH.
      * apply perm_swap.
Qed.

Lemma sorted_by_distance_perm (l : list DMatch) :
  Permutation (sorted_by_distance l) l.
Proof.
  induction l as [|x l IH]; simpl.
  - apply perm_nil.
  - apply perm_trans with (x :: sorted_by_distance l).
    + apply insert_by_distance_perm.
    + apply perm_skip. exact IH.
Qed.

Lemma filter_length_perm {A} (p : A -> bool) (l l' : list A) :
  Permutation l l' -> List.length (filter p l) = List.length (filter p l').
Proof.
  induction 1; simpl.
  - reflexivity.
  - destruct (p x); simpl; congruence.
  - destruct (p x), (p y); reflexivity.
  - congruence.
Qed.

Lemma ratio_in_unit (g n : nat) :
  (g <= n)%nat -> (0 < n)%nat ->
  0 <= inject_Z (Z.of_nat g) / inject_Z (Z.of_nat n) /\
  inject_Z (Z.of_nat g) / inject_Z (Z.of_nat n) <= 1.
Proof.
  intros Hgn Hn.
  assert (Hpos : 0 < inject_Z (Z.of_nat n)).
  { change (inject_Z 0 < inject_Z (Z.of_nat n)). rewrite <- Zlt_Qlt. lia. }
  assert (Hg : 0 <= inject_Z (Z.of_nat g)).
  { change (inject_Z 0 <= inject_Z (Z.of_nat g)). rewrite <- Zle_Qle. lia. }
  assert (Hle : inject_Z (Z.of_nat g) <= inject_Z (Z.of_nat n)).
  { rewrite <- Zle_Qle. lia. }
  revert Hpos Hg Hle.
  generalize (inject_Z (Z.of_nat g)) (inject_Z (Z.of_nat n)).
  intros a b Hpos Hg Hle.
  split.
  - apply Qle_shift_div_l; [exact Hpos|]. lra.
  - apply Qle_shift_div_r; [exact Hpos|]. lra.
Qed.

Section OrbRatio.
Context {config : Config} {opencv : OpenCV}.

(** C6.  [compute_orb_match_ratio] returns 0 when either image yields no
    descriptors; otherwise it matches the descriptors by Hamming distance
    with the cross check, returns 0 when there is no match, and else the
    number of matches of distance below 60 divided by the number of all
    matches, clipped to [0, 1] (the quotient lies in that range, so that the
    clip returns it unchanged). *)
Theorem orb_match_ratio_cases (img1 img2 : ndarray) (gray1 gray2 : gray8)
  (kp1 kp2 : list KeyPoint) (des1 des2 : option descriptors) :
  cvtColor_RGB2GRAY (normalize_image_array img1) = Ok gray1 ->
  cvtColor_RGB2GRAY (normalize_image_array img2) = Ok gray2 ->
  ORB_detectAndCompute ORB_MAX_FEATURES gray1 = Ok (kp1, des1) ->
  ORB_detectAndCompute ORB_MAX_FEATURES gray2 = Ok (kp2, des2) ->
  (des1 = None \/ des2 = None ->
   compute_orb_match_ratio img1 img2 = Ok (Fin 0)) /\
  (forall d1 d2 matches,
      des1 = Some d1 -> des2 = Some d2 ->
      BFMatcher_match NORM_HAMMING true d1 d2 = Ok matches ->
      (matches = [] -> compute_orb_match_ratio img1 img2 = Ok (Fin 0)) /\
      (matches <> [] ->
       let good := filter (fun m => Qltb (distance m) 60) matches in
       let ratio := inject_Z (Z.of_nat (List.length good))
                    / inject_Z (Z.of_nat (List.length matches)) in
       compute_orb_match_ratio img1 img2 = Ok (np_clip (Fin ratio) 0 1) /\
       np_clip (Fin ratio) 0 1 = Fin ratio /\
       0 <= ratio /\ ratio <= 1)).
Proof.
  intros Hg1 Hg2 Ho1 Ho2.
  unfold compute_orb_match_ratio.
  rewrite Hg1, Hg2. simpl. rewrite Ho1, Ho2. simpl.
  split.
  - intros [-> | ->]; [reflexivity | destruct des1; reflexivity].
  - intros d1 d2 matches -> -> Hm. rewrite Hm. simpl.
    split.
    + intros ->. reflexivity.
    + intros Hne.
      set (good := filter (fun m => Qltb (distance m) 60) matches).
      set (ratio := inject_Z (Z.of_nat (List.length good))
                    / inject_Z (Z.of_nat (List.length matches))).
      assert (Hlen : (0 < List.length matches)%nat).
      { destruct matches; [congruence | simpl; lia]. }
      destruct (Z.of_nat (List.length matches) =? 0)%Z eqn:E.
      { apply Z.eqb_eq in E. lia. }
      rewrite (filter_length_perm _ _ _ (sorted_by_distance_perm matches)).
      rewrite (Permutation_length (sorted_by_distance_perm matches)).
      fold good.
      unfold py_truediv.
      destruct (Z.max (Z.of_nat (List.length matches)) 1 =? 0)%Z eqn:E2.
      { apply Z.eqb_eq in E2. lia. }
      simpl.
      replace (Z.max (Z.of_nat (List.length matches)) 1)
        with (Z.of_nat (List.length matches)) by lia.
      fold ratio.
      assert (Hr : 0 <= ratio /\ ratio <= 1).
      { apply ratio_in_unit; [|exact Hlen]. apply filter_length_le. }
      destruct Hr as [Hr0 Hr1].
      split; [reflexivity|]. split; [|split; assumption].
      apply np_clip_inside; assumption.
Qed.
End OrbRatio.

Lemma skipn_repeat {A} (x : A) (i n : nat) :
  skipn i (repeat x n) = repeat x (n - i).
Proof.
  revert n. induction i as [|i IH]; intros n.
  - rewrite Nat.sub_0_r. reflexivity.
  - destruct n as [|n]; [reflexivity|]. simpl. apply IH.
Qed.

Lemma firstn_repeat {A} (x : A) (k n : nat) :
  (k <= n)%nat -> firstn k (repeat x n) = repeat x k.
Proof.
  revert n. induction k as [|k IH]; intros n Hk.
  - reflexivity.
  - destruct n as [|n]; [lia|]. simpl. f_equal. apply IH. lia.
Qed.

Lemma concat_repeat_repeat {A} (x : A) (w h : nat) :
  List.concat (repeat (repeat x w) h) = repeat x (h * w).
Proof.
  induction h as [|h IH]; simpl.
  - reflexivity.
  - rewrite IH. symmetry. apply repeat_app.
Qed.

(** A window of a constant frame. *)
Lemma window_constant (c : Q) (h w i j : nat) :
  (i + 7 <= h)%nat -> (j + 7 <= w)%nat ->
  window (repeat (repeat c w) h) i j = repeat c 49.
Proof.
  intros Hi Hj. unfold window.
  rewrite skipn_repeat, firstn_repeat by lia.
  rewrite map_repeat, skipn_repeat, firstn_repeat by lia.
  reflexivity.
Qed.


Lemma shape_last_black (h w : nat) :
  (0 < h)%nat -> (0 < w)%nat -> shape_last (Color3 (black_rows h w)) = 3%nat.
Proof.
  intros Hh Hw. destruct h as [|h]; [lia|]. destruct w as [|w]; [lia|].
  reflexivity.
Qed.

Lemma rgb2gray_black (h w : nat) :
  (0 < h)%nat -> (0 < w)%nat ->
  rgb2gray_model (black_frame h w) = Ok (repeat (repeat zero_gray w) h).
Proof.
  intros Hh Hw. unfold rgb2gray_model, black_frame.
  rewrite (shape_last_black h w Hh Hw). cbn [Nat.eqb].
  unfold black_rows. rewrite map_repeat, map_repeat. reflexivity.
Qed.

Lemma fold_left_idem {A} (f : A -> A -> A) (c : A) (n : nat) :
  f c c = c -> fold_left f (repeat c n) c = c.
Proof.
  intro H. induction n as [|n IH]; simpl; [reflexivity|]. rewrite H. exact IH.
Qed.

Lemma array_reduce_constant (f : Q -> Q -> Q) (c : Q) (h w : nat) :
  (0 < h)%nat -> (0 < w)%nat -> f c c = c ->
  array_reduce f (repeat (repeat c w) h) = Ok c.
Proof.
  intros Hh Hw Hf. unfold array_reduce. rewrite concat_repeat_repeat.
  destruct (h * w)%nat as [|n] eqn:E; [nia|]. simpl.
  f_equal. apply fold_left_idem. exact Hf.
Qed.

Lemma fsum_all_nan (l : list pyfloat) :
  l <> [] -> (forall x, In x l -> x = NaN) -> fsum l = NaN.
Proof.
  intros Hne Hall. destruct l as [|x l]; [congruence|].
  simpl. rewrite (Hall x (or_introl eq_refl)). reflexivity.
Qed.

Lemma shape2_repeat {A} (r : list A) (h : nat) :
  (0 < h)%nat -> shape2 (repeat r h) = (h, List.length r).
Proof.
  intro Hh. unfold shape2. rewrite repeat_length.
  destruct h; [lia|]. reflexivity.
Qed.

(** The SSIM map of a black frame against itself, with a zero data range,
    is [nan] at every position. *)
Lemma ssim_map_black (h w : nat) (C1 C2 : Q) :
  (7 <= h)%nat -> (7 <= w)%nat ->
  ssim_window C1 C2 (repeat zero_gray 49) (repeat zero_gray 49) = NaN ->
  forall x,
    In x (ssim_map C1 C2 (repeat (repeat zero_gray w) h)
                         (repeat (repeat zero_gray w) h)) ->
    x = NaN.
Proof.
  intros Hh Hw Hwin x Hx. unfold ssim_map in Hx.
  rewrite shape2_repeat in Hx by lia. rewrite repeat_length in Hx.
  apply in_flat_map in Hx. destruct Hx as [i [Hi Hx]].
  apply in_map_iff in Hx. destruct Hx as [j [Hx Hj]].
  apply in_seq in Hi. apply in_seq in Hj.
  rewrite window_constant in Hx by lia. congruence.
Qed.

Lemma ssim_map_nonempty (h w : nat) (C1 C2 : Q) (x y : grayf) :
  shape2 x = (h, w) -> (7 <= h)%nat -> (7 <= w)%nat ->
  ssim_map C1 C2 x y <> [].
Proof.
  intros Hs Hh Hw. unfold ssim_map. rewrite Hs.
  destruct (h - 6)%nat as [|a] eqn:Ea; [lia|].
  destruct (w - 6)%nat as [|b] eqn:Eb; [lia|].
  simpl. discriminate.
Qed.

Lemma ssim_model_black (h w : nat) :
  (7 <= h)%nat -> (7 <= w)%nat ->
  ssim_model (repeat (repeat zero_gray w) h) (repeat (repeat zero_gray w) h)
             (zero_gray - zero_gray) = Ok NaN.
Proof.
  intros Hh Hw. unfold ssim_model.
  rewrite shape2_repeat by lia. rewrite repeat_length.
  rewrite !Nat.eqb_refl. cbn [andb negb].
  assert (E1 : Nat.ltb h 7 = false) by (apply Nat.ltb_ge; lia).
  assert (E2 : Nat.ltb w 7 = false) by (apply Nat.ltb_ge; lia).
  rewrite E1, E2. cbn [orb].
  f_equal. unfold fmean. rewrite fsum_all_nan; [reflexivity | |].
  - apply (ssim_map_nonempty h w).
    + rewrite shape2_repeat by lia. rewrite repeat_length. reflexivity.
    + exact Hh.
    + exact Hw.
  - apply ssim_map_black; [exact Hh | exact Hw |]. vm_compute. reflexivity.
Qed.

(** On a black frame the structural score is [nan]. *)
Lemma compute_ssim_black (h w : nat) :
  (7 <= h)%nat -> (7 <= w)%nat ->
  compute_ssim (skimage := skimage_reference) (black_frame h w) (black_frame h w)
  = Ok NaN.
Proof.
  intros Hh Hw. unfold compute_ssim.
  change (black_frame h w) with (Color3 (black_rows h w)).
  rewrite (shape_last_black h w) by lia. cbn [Nat.eqb rbind].
  change (Color3 (black_rows h w)) with (black_frame h w).
  cbn [rgb2gray structural_similarity skimage_reference].
  rewrite rgb2gray_black by lia. cbn [at_line rbind].
  unfold array_max, array_min.
  rewrite !array_reduce_constant by (try lia; reflexivity).
  cbn [at_line rbind].
  rewrite ssim_model_black by assumption.
  reflexivity.
Qed.

Lemma rbind_ok {A B} (m : result A) (k : A -> result B) (b : B) :
  rbind m k = Ok b -> exists a, m = Ok a /\ k a = Ok b.
Proof.
  destruct m as [a | e]; simpl; intro H; [|discriminate].
  exists a. split; [reflexivity | exact H].
Qed.

Lemma at_line_ok {A} (fn : string) (line : nat) (m : result A) (a : A) :
  at_line fn line m = Ok a -> m = Ok a.
Proof. destruct m; simpl; intro H; [exact H | discriminate]. Qed.

(** Take the next step of a successful run apart. *)
Ltac step_ok H :=
  let a := fresh "v" in
  let Ha := fresh "Hv" in
  apply rbind_ok in H; destruct H as [a [Ha H]];
  try apply at_line_ok in Ha.

Lemma count_differing_same (l : list bool) : count_differing l l = 0%Z.
Proof.
  induction l as [|b l IH]; simpl; [reflexivity|].
  rewrite Bool.eqb_reflx, IH. reflexivity.
Qed.

Lemma ImageHash_sub_self (h : ImageHash) : ImageHash_sub h h = Ok 0%Z.
Proof.
  unfold ImageHash_sub. rewrite Nat.eqb_refl, count_differing_same. reflexivity.
Qed.

Section CompareFacts.
Context {config : Config} {pillow : Pillow} {skimage : Skimage}
        {hashes : ImageHashLib} {opencv : OpenCV}.

(** What a comparison that returns has computed. *)
Lemma combined_similarity_ok (pil1 pil2 : PILImage) (np_size : Z * Z)
  (r : SimilarityResult) :
  combined_similarity pil1 pil2 np_size = Ok r ->
  exists c1 c2 img1 img2 s p o,
    Image_convert pil1 "RGB" = Ok c1 /\
    Image_convert pil2 "RGB" = Ok c2 /\
    pil_to_np c1 (Some np_size) = Ok img1 /\
    pil_to_np c2 (Some np_size) = Ok img2 /\
    compute_ssim img1 img2 = Ok s /\
    compute_phash_similarity c1 c2 = Ok p /\
    compute_orb_match_ratio img1 img2 = Ok o /\
    score r = np_clip (fadd (fadd (fmul (Fin SSIM_WEIGHT) s)
                                  (fmul (Fin PHASH_WEIGHT) p))
                            (fmul (Fin ORB_WEIGHT) o)) 0 1 /\
    breakdown r = {| bd_ssim := np_clip s 0 1;
                     bd_phash := np_clip p 0 1;
                     bd_orb := np_clip o 0 1 |}.
Proof.
  unfold combined_similarity. intro H.
  step_ok H. step_ok H. step_ok H. step_ok H. step_ok H. step_ok H. step_ok H.
  injection H as <-.
  exists v, v0, v1, v2, v3, v4, v5. repeat split; assumption.
Qed.

(** A perceptual comparison of an image with itself scores one. *)
Lemma phash_self_similarity (pil : PILImage) (p : pyfloat) :
  compute_phash_similarity pil pil = Ok p -> exists q, p = Fin q /\ q == 1.
Proof.
  unfold compute_phash_similarity. intro H.
  step_ok H. step_ok H. step_ok H. step_ok H. step_ok H. step_ok H.
  assert (v0 = v) by congruence. subst v0.
  assert (v2 = v1) by congruence. subst v2.
  rewrite ImageHash_sub_self in Hv3. injection Hv3 as <-.
  unfold py_truediv in Hv4.
  destruct (PHASH_SIZE * PHASH_SIZE =? 0)%Z; [discriminate|].
  injection Hv4 as <-. injection H as <-.
  assert (Hq : 1 - inject_Z 0 / inject_Z (PHASH_SIZE * PHASH_SIZE) == 1).
  { unfold Qdiv. change (inject_Z 0) with 0. ring. }
  exists (1 - inject_Z 0 / inject_Z (PHASH_SIZE * PHASH_SIZE)).
  split; [|exact Hq].
  apply np_clip_inside; rewrite Hq; discriminate.
Qed.

End CompareFacts.

Lemma fmul_nan_r (x : pyfloat) : fmul x NaN = NaN.
Proof. destruct x; reflexivity. Qed.

Lemma fadd_nan_l (x : pyfloat) : fadd NaN x = NaN.
Proof. destruct x; reflexivity. Qed.

Lemma nan_not_in_range (lo hi : Q) : ~ in_range lo hi NaN.
Proof. intros [q [H _]]. discriminate. Qed.

Section BlackFrames.
Context {config : Config} {pillow : Pillow} {hashes : ImageHashLib}
        {opencv : OpenCV}.

(** C2.  A black frame compared with itself: the perceptual entry of the
    breakdown is 1.0, but the structural entry is [nan], which is not 1.0.
    The frame is flat, so the data range handed to the structural index is
    zero and every window evaluates 0/0. *)
Theorem self_comparison_black_frame (pil c : PILImage) (np_size : Z * Z)
  (h w : nat) (r : SimilarityResult) :
  (7 <= h)%nat -> (7 <= w)%nat ->
  Image_convert pil "RGB" = Ok c ->
  pil_to_np c (Some np_size) = Ok (black_frame h w) ->
  combined_similarity (skimage := skimage_reference) pil pil np_size = Ok r ->
  bd_ssim (breakdown r) = NaN /\
  feqb (bd_ssim (breakdown r)) (Fin 1) = false /\
  feqb (bd_phash (breakdown r)) (Fin 1) = true.
Proof.
  intros Hh Hw Hc Hnp H.
  apply combined_similarity_ok in H.
  destruct H as (c1 & c2 & img1 & img2 & s & p & o &
                 H1 & H2 & H3 & H4 & Hs & Hp & Ho & Hscore & Hbd).
  assert (c1 = c) by congruence. assert (c2 = c) by congruence. subst c1 c2.
  assert (img1 = black_frame h w) by congruence.
  assert (img2 = black_frame h w) by congruence. subst img1 img2.
  rewrite compute_ssim_black in Hs by assumption. injection Hs as <-.
  apply phash_self_similarity in Hp. destruct Hp as [q [-> Hq]].
  rewrite Hbd. cbn [bd_ssim bd_phash].
  split; [reflexivity|]. split; [reflexivity|].
  rewrite np_clip_inside by (rewrite Hq; discriminate).
  apply Qeq_bool_iff. exact Hq.
Qed.

(** C4.  Two images that reach the metrics as black frames: the weighted
    sum is [nan], the final clip lets it through, and neither the score nor
    the structural entry of the breakdown lies in [0, 1]. *)
Theorem comparison_black_frames_score (pil1 pil2 c1 c2 : PILImage)
  (np_size : Z * Z) (h w : nat) (r : SimilarityResult) :
  (7 <= h)%nat -> (7 <= w)%nat ->
  Image_convert pil1 "RGB" = Ok c1 ->
  Image_convert pil2 "RGB" = Ok c2 ->
  pil_to_np c1 (Some np_size) = Ok (black_frame h w) ->
  pil_to_np c2 (Some np_size) = Ok (black_frame h w) ->
  combined_similarity (skimage := skimage_reference) pil1 pil2 np_size = Ok r ->
  score r = NaN /\
  ~ in_range 0 1 (score r) /\
  ~ in_range 0 1 (bd_ssim (breakdown r)).
Proof.
  intros Hh Hw Hc1 Hc2 Hn1 Hn2 H.
  apply combined_similarity_ok in H.
  destruct H as (d1 & d2 & img1 & img2 & s & p & o &
                 H1 & H2 & H3 & H4 & Hs & Hp & Ho & Hscore & Hbd).
  assert (d1 = c1) by congruence. assert (d2 = c2) by congruence. subst d1 d2.
  assert (img1 = black_frame h w) by congruence.
  assert (img2 = black_frame h w) by congruence. subst img1 img2.
  rewrite compute_ssim_black in Hs by assumption. injection Hs as <-.
  rewrite Hscore, Hbd. cbn [bd_ssim].
  rewrite fmul_nan_r, !fadd_nan_l.
  split; [reflexivity|]. split; apply nan_not_in_range.
Qed.

End BlackFrames.

(** The models on black frames. *)
Lemma forallb_repeat {A} (p : A -> bool) (x : A) (n : nat) :
  p x = true -> forallb p (repeat x n) = true.
Proof.
  intro H. induction n as [|n IH]; simpl; [reflexivity|]. rewrite H. exact IH.
Qed.

Lemma is_black_black_frame (h w : nat) : is_black (black_frame h w) = true.
Proof.
  unfold is_black, black_frame, black_rows.
  apply forallb_repeat, forallb_repeat. reflexivity.
Qed.

Lemma all_zero_zeros {A} (g : list (list A)) : all_zero (zeros_like 0%Z g) = true.
Proof.
  unfold all_zero, zeros_like.
  induction g as [|r g IH]; simpl; [reflexivity|].
  rewrite IH, andb_true_r.
  induction r as [|x r IHr]; simpl; [reflexivity | exact IHr].
Qed.

Lemma convert_black_image (h w : nat) :
  Image_convert (Pillow := pillow_model) (black_image h w) "RGB"
  = Ok (black_image h w).
Proof. reflexivity. Qed.

Lemma pil_to_np_black_image (h w : nat) :
  pil_to_np (pillow := pillow_model) (black_image h w)
            (Some (Z.of_nat w, Z.of_nat h))
  = Ok (black_frame h w).
Proof.
  unfold pil_to_np. cbn [Image_resize_LANCZOS pillow_model black_image
                         im_size fst snd].
  rewrite !Z.eqb_refl. reflexivity.
Qed.

Lemma phash_similarity_black_image (h w : nat) :
  exists q,
    compute_phash_similarity (config := config_example) (pillow := pillow_model)
      (hashes := imagehash_model) (black_image h w) (black_image h w)
    = Ok (Fin q).
Proof.
  unfold compute_phash_similarity.
  rewrite convert_black_image. cbn [at_line rbind].
  cbn [imagehash_phash imagehash_model PHASH_SIZE config_example].
  change (16 <? 2)%Z with false. cbn iota.
  unfold on_black. cbn [im_data black_image].
  rewrite is_black_black_frame. cbn [at_line rbind].
  rewrite ImageHash_sub_self. cbn [at_line rbind].
  eexists. vm_compute. reflexivity.
Qed.

Lemma neutral_black_rows (h w : nat) :
  forallb (forallb neutral) (black_rows h w) = true.
Proof. apply forallb_repeat, forallb_repeat. reflexivity. Qed.

Lemma luminance_black_rows (h w : nat) :
  luminance (black_rows h w) = repeat (repeat 0%Z w) h.
Proof. unfold luminance, black_rows. rewrite !map_repeat. reflexivity. Qed.

Lemma all_zero_repeat (h w : nat) : all_zero (repeat (repeat 0%Z w) h) = true.
Proof. apply forallb_repeat, forallb_repeat. reflexivity. Qed.

Lemma cvtColor_black_frame (h w : nat) :
  cvtColor_RGB2GRAY (OpenCV := opencv_model) (black_frame h w)
  = Ok (repeat (repeat 0%Z w) h).
Proof.
  cbn [cvtColor_RGB2GRAY opencv_model black_frame].
  rewrite neutral_black_rows, luminance_black_rows. reflexivity.
Qed.

Lemma orb_ratio_black_frame (h w : nat) :
  (0 < h)%nat -> (0 < w)%nat ->
  compute_orb_match_ratio (config := config_example) (opencv := opencv_model)
    (black_frame h w) (black_frame h w) = Ok (Fin 0).
Proof.
  intros Hh Hw. unfold compute_orb_match_ratio, normalize_image_array.
  change (black_frame h w) with (Color3 (black_rows h w)).
  rewrite (shape_last_black h w Hh Hw). cbn [Nat.eqb].
  change (Color3 (black_rows h w)) with (black_frame h w).
  rewrite cvtColor_black_frame. cbn [at_line rbind].
  cbn [ORB_detectAndCompute opencv_model].
  rewrite all_zero_repeat. reflexivity.
Qed.

Lemma compare_black_images (h w : nat) :
  (7 <= h)%nat -> (7 <= w)%nat ->
  exists r,
    combined_similarity (config := config_example) (pillow := pillow_model)
      (skimage := skimage_reference) (hashes := imagehash_model)
      (opencv := opencv_model)
      (black_image h w) (black_image h w) (Z.of_nat w, Z.of_nat h)
    = Ok r.
Proof.
  intros Hh Hw. unfold combined_similarity.
  rewrite convert_black_image. cbn [at_line rbind].
  rewrite pil_to_np_black_image. cbn [at_line rbind].
  rewrite compute_ssim_black by assumption. cbn [at_line rbind].
  destruct (phash_similarity_black_image h w) as [q Hq].
  rewrite Hq. cbn [at_line rbind].
  rewrite orb_ratio_black_frame by lia. cbn [at_line rbind].
  eexists. reflexivity.
Qed.

Lemma self_comparison_black_frame_witness :
  exists r,
    combined_similarity (config := config_example) (pillow := pillow_model)
      (skimage := skimage_reference) (hashes := imagehash_model)
      (opencv := opencv_model)
      (black_image 512 512) (black_image 512 512) default_np_size = Ok r /\
    bd_ssim (breakdown r) = NaN /\
    feqb (bd_ssim (breakdown r)) (Fin 1) = false /\
    feqb (bd_phash (breakdown r)) (Fin 1) = true.
Proof.
  destruct (compare_black_images 512 512 ltac:(lia) ltac:(lia)) as [r Hr].
  exists r. split; [exact Hr|].
  apply (self_comparison_black_frame
           (config := config_example) (pillow := pillow_model)
           (hashes := imagehash_model) (opencv := opencv_model)
           (black_image 512 512) (black_image 512 512)
           default_np_size 512 512 r); try lia.
  - apply convert_black_image.
  - apply (pil_to_np_black_image 512 512).
  - exact Hr.
Defined.

Lemma Qlen_cons (x : Q) (l : list Q) : Qlen (x :: l) == Qlen l + 1.
Proof.
  unfold Qlen. cbn [List.length]. rewrite Nat2Z.inj_succ.
  unfold Z.succ. rewrite inject_Z_plus. reflexivity.
Qed.

Lemma Qlen_nonneg (l : list Q) : 0 <= Qlen l.
Proof.
  unfold Qlen. change 0 with (inject_Z 0). rewrite <- Zle_Qle. lia.
Qed.

Lemma Qsquare_nonneg (y : Q) : 0 <= y * y.
Proof. nra. Qed.

Lemma Qsum_cons (x : Q) (l : list Q) : Qsum (x :: l) = x + Qsum l.
Proof. reflexivity. Qed.

Lemma squares_cons (x : Q) (l : list Q) : squares (x :: l) = x * x :: squares l.
Proof. reflexivity. Qed.

Lemma Qsum_squares_nonneg (l : list Q) : 0 <= Qsum (squares l).
Proof.
  induction l as [|x l IH]; [discriminate|].
  rewrite squares_cons, Qsum_cons.
  pose proof (Qsquare_nonneg x). lra.
Qed.

(** The sum of the squared distances to [a], expanded. *)
Lemma sum_square_distance (a : Q) (l : list Q) :
  0 <= Qlen l * (a * a) - 2 * a * Qsum l + Qsum (squares l).
Proof.
  induction l as [|x l IH].
  - simpl. unfold Qlen. simpl. change (inject_Z 0) with 0. nra.
  - rewrite Qlen_cons, squares_cons, !Qsum_cons.
    pose proof (Qsquare_nonneg (a - x)) as Hsq.
    revert IH Hsq.
    generalize (Qlen l) (Qsum l) (Qsum (squares l)). intros n s q IH Hsq.
    nra.
Qed.

(** Cauchy-Schwarz against the constant vector: the variance is not
    negative. *)
Lemma square_sum_le (l : list Q) :
  Qsum l * Qsum l <= Qlen l * Qsum (squares l).
Proof.
  induction l as [|x l IH].
  - simpl. unfold Qlen. simpl. change (inject_Z 0) with 0. nra.
  - rewrite Qlen_cons, squares_cons, !Qsum_cons.
    pose proof (sum_square_distance x l) as Hd.
    revert IH Hd.
    generalize (Qlen l) (Qsum l) (Qsum (squares l)). intros n s q IH Hd.
    nra.
Qed.

Lemma Qsum_products_zero_l (c : Q) (n : nat) (l : list Q) :
  c == 0 -> Qsum (products (repeat c n) l) == 0.
Proof.
  intro Hc. revert l. induction n as [|n IH]; intros l.
  - reflexivity.
  - destruct l as [|y l]; [reflexivity|].
    unfold products. cbn [repeat combine map fst snd]. rewrite Qsum_cons.
    fold (products (repeat c n) l). rewrite IH, Hc. ring.
Qed.

Lemma Qsum_products_zero_r (c : Q) (n : nat) (l : list Q) :
  c == 0 -> Qsum (products l (repeat c n)) == 0.
Proof.
  intro Hc. revert l. induction n as [|n IH]; intros l.
  - destruct l; reflexivity.
  - destruct l as [|y l]; [reflexivity|].
    unfold products. cbn [repeat combine map fst snd]. rewrite Qsum_cons.
    fold (products l (repeat c n)). rewrite IH, Hc. ring.
Qed.

Lemma Qlen_le (l : list Q) (n : nat) :
  (List.length l <= n)%nat -> Qlen l <= inject_Z (Z.of_nat n).
Proof. intro H. unfold Qlen. rewrite <- Zle_Qle. lia. Qed.

(** The variance term of a window of at most 49 entries. *)
Lemma window_variance_nonneg (w : list Q) :
  (List.length w <= 49)%nat ->
  0 <= window_mean (squares w) - window_mean w * window_mean w.
Proof.
  intro Hlen. unfold window_mean.
  pose proof (square_sum_le w) as Hcs.
  pose proof (Qsum_squares_nonneg w) as Hq.
  pose proof (Qlen_le w 49 Hlen) as Hn.
  pose proof (Qlen_nonneg w) as Hn0.
  change (inject_Z (Z.of_nat 49)) with 49 in Hn.
  revert Hcs Hq Hn Hn0.
  generalize (Qlen w) (Qsum w) (Qsum (squares w)). intros n s q Hcs Hq Hn Hn0.
  assert (Hle : s * s <= 49 * q) by nra.
  setoid_replace (q / 49 - s / 49 * (s / 49)) with ((49 * q - s * s) / 2401)
    by field.
  apply Qle_shift_div_l; [reflexivity|]. lra.
Qed.

Lemma fdiv_positive (a b : Q) :
  0 < a -> 0 < b -> exists q, fdiv (Fin a) (Fin b) = Fin q /\ 0 < q.
Proof.
  intros Ha Hb. unfold fdiv.
  destruct (Qeq_bool b 0) eqn:E.
  - apply Qeq_bool_iff in E. lra.
  - exists (a / b). split; [reflexivity|].
    apply Qlt_shift_div_l; [exact Hb|]. lra.
Qed.

Lemma fdiv_zero_numerator (a b : Q) :
  a == 0 ->
  fdiv (Fin a) (Fin b) = NaN \/ exists q, fdiv (Fin a) (Fin b) = Fin q /\ q == 0.
Proof.
  intro Ha. unfold fdiv.
  destruct (Qeq_bool b 0) eqn:E.
  - apply Qeq_bool_iff in Ha. rewrite Ha. left. reflexivity.
  - right. exists (a / b). split; [reflexivity|].
    rewrite Ha. unfold Qdiv. ring.
Qed.

(** A black window against any window, with positive constants: a positive
    finite value. *)
Lemma ssim_window_black_first (C1 C2 : Q) (wy : list Q) :
  0 < C1 -> 0 < C2 -> (List.length wy <= 49)%nat ->
  exists q, ssim_window C1 C2 (repeat zero_gray 49) wy = Fin q /\ 0 < q.
Proof.
  intros HC1 HC2 Hlen. unfold ssim_window.
  assert (Hux : window_mean (repeat zero_gray 49) == 0) by reflexivity.
  assert (Huxx : window_mean (squares (repeat zero_gray 49)) == 0) by reflexivity.
  assert (Huxy : window_mean (products (repeat zero_gray 49) wy) == 0).
  { unfold window_mean. rewrite Qsum_products_zero_l by reflexivity. reflexivity. }
  pose proof (window_variance_nonneg wy Hlen) as Hvy.
  pose proof (Qsquare_nonneg (window_mean wy)) as Huy2.
  revert Hux Huxx Huxy Hvy Huy2.
  generalize (window_mean (repeat zero_gray 49))
             (window_mean (squares (repeat zero_gray 49)))
             (window_mean (products (repeat zero_gray 49) wy))
             (window_mean (squares wy)) (window_mean wy).
  intros ux uxx uxy uyy uy Hux Huxx Huxy Hvy Huy2.
  apply fdiv_positive.
  - rewrite Hux, Huxy. 
    setoid_replace ((2 * 0 * uy + C1) * (2 * ((49 # 48) * (0 - 0 * uy)) + C2))
      with (C1 * C2) by ring.
    nra.
  - rewrite Hux, Huxx.
    setoid_replace ((0 * 0 + uy * uy + C1)
                    * ((49 # 48) * (0 - 0 * 0) + (49 # 48) * (uyy - uy * uy) + C2))
      with ((uy * uy + C1) * ((49 # 48) * (uyy - uy * uy) + C2)) by ring.
    apply Qmult_lt_0_compat; lra.
Qed.

(** Any window against a black window, with vanishing constants: [nan] or
    zero. *)
Lemma ssim_window_black_second (C1 C2 : Q) (wx : list Q) :
  C1 == 0 -> C2 == 0 ->
  ssim_window C1 C2 wx (repeat zero_gray 49) = NaN \/
  exists q, ssim_window C1 C2 wx (repeat zero_gray 49) = Fin q /\ q == 0.
Proof.
  intros HC1 HC2. unfold ssim_window.
  apply fdiv_zero_numerator.
  assert (Huy : window_mean (repeat zero_gray 49) == 0) by reflexivity.
  rewrite Huy, HC1. ring.
Qed.

Lemma fsum_cons (x : pyfloat) (l : list pyfloat) : fsum (x :: l) = fadd x (fsum l).
Proof. reflexivity. Qed.

Lemma fsum_positive (l : list pyfloat) :
  (forall x, In x l -> exists q, x = Fin q /\ 0 < q) ->
  exists q, fsum l = Fin q /\ 0 <= q /\ (l <> [] -> 0 < q).
Proof.
  induction l as [|x l IH]; intro H.
  - exists 0. split; [reflexivity|]. split; [lra | congruence].
  - destruct (H x (or_introl eq_refl)) as [q [-> Hq]].
    destruct IH as [s [Hs [Hs0 _]]].
    { intros y Hy. apply H. right. exact Hy. }
    rewrite fsum_cons, Hs. exists (q + s).
    split; [reflexivity|]. split; [lra | intros _; lra].
Qed.

Lemma fsum_zero_or_nan (l : list pyfloat) :
  (forall x, In x l -> x = NaN \/ exists q, x = Fin q /\ q == 0) ->
  fsum l = NaN \/ exists q, fsum l = Fin q /\ q == 0.
Proof.
  induction l as [|x l IH]; intro H.
  - right. exists 0. split; reflexivity.
  - rewrite fsum_cons.
    destruct (H x (or_introl eq_refl)) as [-> | [q [-> Hq]]].
    + left. apply fadd_nan_l.
    + destruct IH as [Hs | [s [Hs Hs0]]].
      { intros y Hy. apply H. right. exact Hy. }
      * left. rewrite Hs. reflexivity.
      * right. rewrite Hs. exists (q + s). split; [reflexivity | lra].
Qed.

Lemma count_positive_Q (n : nat) : (0 < n)%nat -> 0 < inject_Z (Z.of_nat n).
Proof. intro H. change 0 with (inject_Z 0). rewrite <- Zlt_Qlt. lia. Qed.

Lemma fmean_positive (l : list pyfloat) :
  l <> [] -> (forall x, In x l -> exists q, x = Fin q /\ 0 < q) ->
  exists q, fmean l = Fin q /\ 0 < q.
Proof.
  intros Hne H. unfold fmean.
  destruct (fsum_positive l H) as [s [Hs [_ Hpos]]]. rewrite Hs.
  apply fdiv_positive; [apply Hpos, Hne|].
  apply count_positive_Q. destruct l; [congruence | simpl; lia].
Qed.

Lemma fmean_zero_or_nan (l : list pyfloat) :
  (forall x, In x l -> x = NaN \/ exists q, x = Fin q /\ q == 0) ->
  fmean l = NaN \/ exists q, fmean l = Fin q /\ q == 0.
Proof.
  intro H. unfold fmean.
  destruct (fsum_zero_or_nan l H) as [Hs | [s [Hs Hs0]]]; rewrite Hs.
  - left. reflexivity.
  - apply fdiv_zero_numerator. exact Hs0.
Qed.

Lemma concat_length_le {A} (l : list (list A)) (n : nat) :
  (forall r, In r l -> (List.length r <= n)%nat) ->
  (List.length (List.concat l) <= List.length l * n)%nat.
Proof.
  intro H. induction l as [|r l IH]; simpl; [lia|].
  rewrite length_app.
  pose proof (H r (or_introl eq_refl)).
  assert ((List.length (List.concat l) <= List.length l * n)%nat).
  { apply IH. intros r' Hr'. apply H. right. exact Hr'. }
  lia.
Qed.

Lemma window_length_le (g : grayf) (i j : nat) :
  (List.length (window g i j) <= 49)%nat.
Proof.
  unfold window.
  pose proof (concat_length_le
                (map (fun row => firstn 7 (skipn j row)) (firstn 7 (skipn i g))) 7)
    as H.
  rewrite length_map in H.
  pose proof (firstn_le_length 7 (skipn i g)) as H7.
  assert (Hrows : forall r,
             In r (map (fun row => firstn 7 (skipn j row)) (firstn 7 (skipn i g))) ->
             (List.length r <= 7)%nat).
  { intros r Hr. apply in_map_iff in Hr. destruct Hr as [row [<- _]].
    apply firstn_le_length. }
  specialize (H Hrows). nia.
Qed.

Lemma in_ssim_map (C1 C2 : Q) (x y : grayf) (h w : nat) (v : pyfloat) :
  shape2 x = (h, w) ->
  In v (ssim_map C1 C2 x y) ->
  exists i j, (i + 7 <= h)%nat /\ (j + 7 <= w)%nat /\
              v = ssim_window C1 C2 (window x i j) (window y i j).
Proof.
  intros Hs Hv. unfold ssim_map in Hv. rewrite Hs in Hv.
  apply in_flat_map in Hv. destruct Hv as [i [Hi Hv]].
  apply in_map_iff in Hv. destruct Hv as [j [Hv Hj]].
  apply in_seq in Hi. apply in_seq in Hj.
  exists i, j. repeat split; [lia | lia | congruence].
Qed.

Lemma ssim_model_shapes (x y : grayf) (h w : nat) (dr : Q) :
  shape2 x = (h, w) -> shape2 y = (h, w) -> (7 <= h)%nat -> (7 <= w)%nat ->
  ssim_model x y dr =
  Ok (fmean (ssim_map (((1 # 100) * dr) * ((1 # 100) * dr))
                      (((3 # 100) * dr) * ((3 # 100) * dr)) x y)).
Proof.
  intros Hx Hy Hh Hw. unfold ssim_model. rewrite Hx, Hy.
  rewrite !Nat.eqb_refl. cbn [andb negb].
  assert (E1 : Nat.ltb h 7 = false) by (apply Nat.ltb_ge; lia).
  assert (E2 : Nat.ltb w 7 = false) by (apply Nat.ltb_ge; lia).
  rewrite E1, E2. reflexivity.
Qed.

Lemma shape2_black (h w : nat) :
  (0 < h)%nat -> shape2 (repeat (repeat zero_gray w) h) = (h, w).
Proof.
  intro Hh. rewrite shape2_repeat by exact Hh. rewrite repeat_length. reflexivity.
Qed.

(** The index of a black frame against a frame [g], with a positive data
    range. *)
Lemma ssim_model_black_first (h w : nat) (g : grayf) (dr : Q) :
  (7 <= h)%nat -> (7 <= w)%nat -> shape2 g = (h, w) -> 0 < dr ->
  exists q, ssim_model (repeat (repeat zero_gray w) h) g dr = Ok (Fin q) /\ 0 < q.
Proof.
  intros Hh Hw Hg Hdr.
  rewrite (ssim_model_shapes _ _ h w) by (try apply shape2_black; try assumption; lia).
  destruct (fmean_positive
              (ssim_map (((1 # 100) * dr) * ((1 # 100) * dr))
                        (((3 # 100) * dr) * ((3 # 100) * dr))
                        (repeat (repeat zero_gray w) h) g)) as [q [Hq Hpos]].
  - apply (ssim_map_nonempty h w); [apply shape2_black; lia | lia | lia].
  - intros v Hv.
    apply (in_ssim_map _ _ _ _ h w) in Hv; [|apply shape2_black; lia].
    destruct Hv as [i [j [Hi [Hj ->]]]].
    rewrite window_constant by lia.
    apply ssim_window_black_first; [nra | nra | apply window_length_le].
  - exists q. rewrite Hq. split; [reflexivity | exact Hpos].
Qed.

(** The index of a frame [g] against a black frame, whose data range is
    zero. *)
Lemma ssim_model_black_second (h w : nat) (g : grayf) :
  (7 <= h)%nat -> (7 <= w)%nat -> shape2 g = (h, w) ->
  ssim_model g (repeat (repeat zero_gray w) h) (zero_gray - zero_gray) = Ok NaN \/
  exists q,
    ssim_model g (repeat (repeat zero_gray w) h) (zero_gray - zero_gray)
    = Ok (Fin q) /\ q == 0.
Proof.
  intros Hh Hw Hg.
  rewrite (ssim_model_shapes _ _ h w) by (try apply shape2_black; try assumption; lia).
  destruct (fmean_zero_or_nan
              (ssim_map
                 (((1 # 100) * (zero_gray - zero_gray))
                  * ((1 # 100) * (zero_gray - zero_gray)))
                 (((3 # 100) * (zero_gray - zero_gray))
                  * ((3 # 100) * (zero_gray - zero_gray)))
                 g (repeat (repeat zero_gray w) h))) as [Hm | [q [Hm Hq]]].
  - intros v Hv.
    apply (in_ssim_map _ _ _ _ h w) in Hv; [|exact Hg].
    destruct Hv as [i [j [Hi [Hj ->]]]].
    rewrite (window_constant zero_gray h w i j) by lia.
    apply ssim_window_black_second; reflexivity.
  - left. rewrite Hm. reflexivity.
  - right. exists q. rewrite Hm. split; [reflexivity | exact Hq].
Qed.

Lemma fold_max_ge (l : list Q) (acc : Q) :
  acc <= fold_left Qmax l acc /\ forall y, In y l -> y <= fold_left Qmax l acc.
Proof.
  revert acc. induction l as [|x l IH]; intro acc; simpl.
  - split; [lra | intros y []].
  - destruct (IH (Qmax acc x)) as [H1 H2]. split.
    + pose proof (Q.le_max_l acc x). lra.
    + intros y [<- | Hy]; [|apply H2, Hy].
      pose proof (Q.le_max_r acc x). lra.
Qed.

Lemma fold_min_le (l : list Q) (acc : Q) :
  fold_left Qmin l acc <= acc /\ forall y, In y l -> fold_left Qmin l acc <= y.
Proof.
  revert acc. induction l as [|x l IH]; intro acc; simpl.
  - split; [lra | intros y []].
  - destruct (IH (Qmin acc x)) as [H1 H2]. split.
    + pose proof (Q.le_min_l acc x). lra.
    + intros y [<- | Hy]; [|apply H2, Hy].
      pose proof (Q.le_min_r acc x). lra.
Qed.

(** The extreme values of a frame bound every entry. *)
Lemma array_max_bound (g : grayf) (a : Q) :
  In a (List.concat g) ->
  exists hi, array_max g = Ok hi /\ forall y, In y (List.concat g) -> y <= hi.
Proof.
  intro Ha. unfold array_max, array_reduce.
  destruct (List.concat g) as [|x xs]; [destruct Ha|].
  exists (fold_left Qmax xs x). split; [reflexivity|].
  destruct (fold_max_ge xs x) as [H1 H2].
  intros y [<- | Hy]; [exact H1 | apply H2, Hy].
Qed.

Lemma array_min_bound (g : grayf) (a : Q) :
  In a (List.concat g) ->
  exists lo, array_min g = Ok lo /\ forall y, In y (List.concat g) -> lo <= y.
Proof.
  intro Ha. unfold array_min, array_reduce.
  destruct (List.concat g) as [|x xs]; [destruct Ha|].
  exists (fold_left Qmin xs x). split; [reflexivity|].
  destruct (fold_min_le xs x) as [H1 H2].
  intros y [<- | Hy]; [exact H1 | apply H2, Hy].
Qed.

Lemma shape2_map {A B} (f : list A -> list B) (rows : list (list A)) (h w : nat) :
  (forall r, List.length (f r) = List.length r) ->
  shape2 rows = (h, w) -> shape2 (map f rows) = (h, w).
Proof.
  intros Hf. unfold shape2. rewrite length_map.
  destruct rows as [|r rows]; simpl; [auto|].
  rewrite Hf. auto.
Qed.

Lemma clip_positive (q : Q) :
  0 < q -> exists q', np_clip (Fin q) (-1) 1 = Fin q' /\ 0 < q'.
Proof.
  intro Hq. rewrite np_clip_fin.
  assert (E : Qltb q (-1) = false) by (apply Qltb_false; lra).
  rewrite E. destruct (Qltb 1 q); eexists; split; try reflexivity; lra.
Qed.

Lemma clip_zero (q : Q) (lo : Q) :
  lo <= 0 -> q == 0 -> np_clip (Fin q) lo 1 = Fin q.
Proof. intros Hlo Hq. apply np_clip_inside; lra. Qed.

Section AgainstBlack.
Variables (h w : nat) (rows : list (list pixel)).
Hypothesis Hh : (7 <= h)%nat.
Hypothesis Hw : (7 <= w)%nat.
Hypothesis Hchannels : shape_last (Color3 rows) = 3%nat.
Hypothesis Hshape : shape2 rows = (h, w).

Let gray := map (map gray_of_pixel) rows.

Lemma rgb2gray_rows : rgb2gray_model (Color3 rows) = Ok gray.
Proof. unfold rgb2gray_model. rewrite Hchannels. reflexivity. Qed.

Lemma shape2_gray : shape2 gray = (h, w).
Proof.
  apply shape2_map; [intro r; apply length_map | exact Hshape].
Qed.

(** A black frame first, a frame that is not flat second: a positive
    structural score. *)
Lemma compute_ssim_black_first (p1 p2 : pixel) :
  In p1 (List.concat rows) -> In p2 (List.concat rows) ->
  gray_of_pixel p1 < gray_of_pixel p2 ->
  exists q,
    compute_ssim (skimage := skimage_reference) (black_frame h w) (Color3 rows)
    = Ok (Fin q) /\ 0 < q.
Proof.
  intros Hp1 Hp2 Hlt. unfold compute_ssim.
  change (black_frame h w) with (Color3 (black_rows h w)).
  rewrite (shape_last_black h w) by lia. rewrite Hchannels.
  cbn [Nat.eqb rbind].
  change (Color3 (black_rows h w)) with (black_frame h w).
  cbn [rgb2gray structural_similarity skimage_reference].
  rewrite rgb2gray_black by lia. rewrite rgb2gray_rows. cbn [at_line rbind].
  assert (Hin1 : In (gray_of_pixel p1) (List.concat gray)).
  { unfold gray. rewrite <- concat_map. apply in_map. exact Hp1. }
  assert (Hin2 : In (gray_of_pixel p2) (List.concat gray)).
  { unfold gray. rewrite <- concat_map. apply in_map. exact Hp2. }
  destruct (array_max_bound gray _ Hin1) as [hi [Ehi Hhi]].
  destruct (array_min_bound gray _ Hin1) as [lo [Elo Hlo]].
  rewrite Ehi, Elo. cbn [at_line rbind].
  pose proof (Hhi _ Hin2). pose proof (Hlo _ Hin1).
  destruct (ssim_model_black_first h w gray (hi - lo)) as [q [Eq Hq]];
    [exact Hh | exact Hw | exact shape2_gray | lra |].
  rewrite Eq. cbn [at_line rbind].
  destruct (clip_positive q Hq) as [q' [Eq' Hq']].
  exists q'. rewrite Eq'. split; [reflexivity | exact Hq'].
Qed.

(** The same pair in the other order: [nan] or zero. *)
Lemma compute_ssim_black_second :
  compute_ssim (skimage := skimage_reference) (Color3 rows) (black_frame h w)
  = Ok NaN \/
  exists q,
    compute_ssim (skimage := skimage_reference) (Color3 rows) (black_frame h w)
    = Ok (Fin q) /\ q == 0.
Proof.
  unfold compute_ssim.
  change (black_frame h w) with (Color3 (black_rows h w)).
  rewrite (shape_last_black h w) by lia. rewrite Hchannels.
  cbn [Nat.eqb rbind].
  change (Color3 (black_rows h w)) with (black_frame h w).
  cbn [rgb2gray structural_similarity skimage_reference].
  rewrite rgb2gray_black by lia. rewrite rgb2gray_rows. cbn [at_line rbind].
  unfold array_max, array_min.
  rewrite !array_reduce_constant by (try lia; reflexivity).
  cbn [at_line rbind].
  destruct (ssim_model_black_second h w gray Hh Hw shape2_gray)
    as [E | [q [E Hq]]]; rewrite E; cbn [at_line rbind].
  - left. reflexivity.
  - right. exists q. rewrite clip_zero by (try exact Hq; lra).
    split; [reflexivity | exact Hq].
Qed.

End AgainstBlack.

Lemma white_top_channels (h w : nat) :
  (0 < w)%nat -> shape_last (white_top_frame h w) = 3%nat.
Proof. intro Hw. destruct w; [lia | reflexivity]. Qed.

Lemma white_top_shape (h w : nat) :
  (0 < h)%nat ->
  shape2 (repeat [255; 255; 255]%Z w :: black_rows (h - 1) w) = (h, w).
Proof.
  intro Hh. unfold shape2, black_rows. cbn [List.length].
  rewrite !repeat_length. f_equal. lia.
Qed.

Lemma In_repeat {A} (x : A) (n : nat) : (0 < n)%nat -> In x (repeat x n).
Proof. intro H. destruct n; [lia | left; reflexivity]. Qed.

Lemma white_top_has_white (h w : nat) :
  (0 < w)%nat ->
  In [255; 255; 255]%Z
     (List.concat (repeat [255; 255; 255]%Z w :: black_rows (h - 1) w)).
Proof.
  intro Hw. cbn [List.concat]. apply in_or_app. left. apply In_repeat, Hw.
Qed.

Lemma white_top_has_black (h w : nat) :
  (2 <= h)%nat -> (0 < w)%nat ->
  In [0; 0; 0]%Z
     (List.concat (repeat [255; 255; 255]%Z w :: black_rows (h - 1) w)).
Proof.
  intros Hh Hw. cbn [List.concat]. apply in_or_app. right.
  unfold black_rows. rewrite concat_repeat_repeat. apply In_repeat. nia.
Qed.

(** The structural score of a black frame and a white-topped frame, in the
    two orders. *)
Lemma compute_ssim_black_white_top (h w : nat) :
  (7 <= h)%nat -> (7 <= w)%nat ->
  exists q,
    compute_ssim (skimage := skimage_reference)
      (black_frame h w) (white_top_frame h w) = Ok (Fin q) /\ 0 < q.
Proof.
  intros Hh Hw.
  apply (compute_ssim_black_first h w _ Hh Hw
           (white_top_channels h w ltac:(lia)) (white_top_shape h w ltac:(lia))
           [0; 0; 0]%Z [255; 255; 255]%Z).
  - apply white_top_has_black; lia.
  - apply white_top_has_white; lia.
  - reflexivity.
Qed.

Lemma compute_ssim_white_top_black (h w : nat) :
  (7 <= h)%nat -> (7 <= w)%nat ->
  compute_ssim (skimage := skimage_reference)
    (white_top_frame h w) (black_frame h w) = Ok NaN \/
  exists q,
    compute_ssim (skimage := skimage_reference)
      (white_top_frame h w) (black_frame h w) = Ok (Fin q) /\ q == 0.
Proof.
  intros Hh Hw.
  apply (compute_ssim_black_second h w _ Hh Hw
           (white_top_channels h w ltac:(lia)) (white_top_shape h w ltac:(lia))).
Qed.

Lemma breakdown_positive (q : Q) :
  0 < q -> exists q', np_clip (Fin q) 0 1 = Fin q' /\ 0 < q'.
Proof.
  intro Hq. rewrite np_clip_fin.
  assert (E : Qltb q 0 = false) by (apply Qltb_false; lra).
  rewrite E. destruct (Qltb 1 q); eexists; split; try reflexivity; lra.
Qed.

Lemma Qeq_bool_false_of_lt (a b : Q) : a < b -> Qeq_bool b a = false.
Proof.
  intro H. destruct (Qeq_bool b a) eqn:E; [|reflexivity].
  apply Qeq_bool_iff in E. lra.
Qed.

(** C5.  The structural index is computed on the two luminance frames with
    the data range of the second one, and its value is clipped to [-1, 1];
    exchanging the arguments changes the result: for a black frame and a
    white-topped frame of 512x512 the score is positive in one order and
    zero or [nan] in the other, and so are the structural entries of the two
    comparisons. *)
Theorem structural_similarity_second_argument_range :
  (forall (skimage : Skimage) (a b : ndarray) (g1 g2 : grayf) (hi lo : Q)
          (s : pyfloat),
      shape_last a <> 4%nat -> shape_last b <> 4%nat ->
      rgb2gray a = Ok g1 -> rgb2gray b = Ok g2 ->
      array_max g2 = Ok hi -> array_min g2 = Ok lo ->
      structural_similarity g1 g2 (hi - lo) = Ok s ->
      compute_ssim a b = Ok (np_clip s (-1) 1) /\
      (is_nan s = false -> in_range (-1) 1 (np_clip s (-1) 1))) /\
  (exists q,
      compute_ssim (skimage := skimage_reference)
        (black_frame 512 512) (white_top_frame 512 512) = Ok (Fin q) /\ 0 < q) /\
  (compute_ssim (skimage := skimage_reference)
     (white_top_frame 512 512) (black_frame 512 512) = Ok NaN \/
   exists q,
     compute_ssim (skimage := skimage_reference)
       (white_top_frame 512 512) (black_frame 512 512) = Ok (Fin q) /\ q == 0) /\
  (forall (config : Config) (pillow : Pillow) (hashes : ImageHashLib)
          (opencv : OpenCV) (pilA pilB cA cB : PILImage) (np_size : Z * Z)
          (r1 r2 : SimilarityResult),
      Image_convert pilA "RGB" = Ok cA ->
      Image_convert pilB "RGB" = Ok cB ->
      pil_to_np cA (Some np_size) = Ok (black_frame 512 512) ->
      pil_to_np cB (Some np_size) = Ok (white_top_frame 512 512) ->
      combined_similarity (skimage := skimage_reference) pilA pilB np_size = Ok r1 ->
      combined_similarity (skimage := skimage_reference) pilB pilA np_size = Ok r2 ->
      feqb (bd_ssim (breakdown r1)) (bd_ssim (breakdown r2)) = false /\
      r1 <> r2).
Proof.
  split; [|split; [|split]].
  - intros skimage a b g1 g2 hi lo s Ha Hb Hg1 Hg2 Hhi Hlo Hs.
    split.
    + unfold compute_ssim.
      apply Nat.eqb_neq in Ha. apply Nat.eqb_neq in Hb. rewrite Ha, Hb.
      cbn [rbind]. rewrite Hg1, Hg2. cbn [at_line rbind].
      rewrite Hhi, Hlo. cbn [at_line rbind]. rewrite Hs. reflexivity.
    + intro Hnan. apply np_clip_range; [discriminate | exact Hnan].
  - apply compute_ssim_black_white_top; lia.
  - apply compute_ssim_white_top_black; lia.
  - intros config pillow hashes opencv pilA pilB cA cB np_size r1 r2
           HcA HcB HnA HnB H1 H2.
    apply combined_similarity_ok in H1.
    destruct H1 as (a1 & a2 & i1 & i2 & s1 & p1 & o1 &
                    E1 & E2 & E3 & E4 & Hs1 & _ & _ & _ & Hbd1).
    apply combined_similarity_ok in H2.
    destruct H2 as (b1 & b2 & j1 & j2 & s2 & p2 & o2 &
                    F1 & F2 & F3 & F4 & Hs2 & _ & _ & _ & Hbd2).
    assert (a1 = cA) by congruence. assert (a2 = cB) by congruence.
    assert (b1 = cB) by congruence. assert (b2 = cA) by congruence.
    subst a1 a2 b1 b2.
    assert (i1 = black_frame 512 512) by congruence.
    assert (i2 = white_top_frame 512 512) by congruence.
    assert (j1 = white_top_frame 512 512) by congruence.
    assert (j2 = black_frame 512 512) by congruence.
    subst i1 i2 j1 j2.
    destruct (compute_ssim_black_white_top 512 512 ltac:(lia) ltac:(lia))
      as [q [Eq Hq]].
    rewrite Eq in Hs1. injection Hs1 as <-.
    destruct (breakdown_positive q Hq) as [q' [Eq' Hq']].
    assert (Hne : feqb (bd_ssim (breakdown r1)) (bd_ssim (breakdown r2)) = false).
    { rewrite Hbd1, Hbd2. cbn [bd_ssim]. rewrite Eq'.
      destruct (compute_ssim_white_top_black 512 512 ltac:(lia) ltac:(lia))
        as [E | [z [E Hz]]]; rewrite E in Hs2; injection Hs2 as <-.
      - reflexivity.
      - rewrite clip_zero by (try exact Hz; lra).
        cbn [feqb]. apply Qeq_bool_false_of_lt. lra. }
    split; [exact Hne|].
    intro Heq. subst r1. rewrite Hbd1 in Hne. cbn [bd_ssim] in Hne.
    rewrite Eq' in Hne. cbn [feqb] in Hne.
    rewrite Qeq_bool_refl in Hne. discriminate.
Qed.

Lemma convert_white_top_image (h w : nat) :
  Image_convert (Pillow := pillow_model) (white_top_image h w) "RGB"
  = Ok (white_top_image h w).
Proof. reflexivity. Qed.

Lemma pil_to_np_white_top_image (h w : nat) :
  pil_to_np (pillow := pillow_model) (white_top_image h w)
            (Some (Z.of_nat w, Z.of_nat h))
  = Ok (white_top_frame h w).
Proof.
  unfold pil_to_np. cbn [Image_resize_LANCZOS pillow_model white_top_image
                         im_size fst snd].
  rewrite !Z.eqb_refl. reflexivity.
Qed.

Lemma phash_similarity_fixture (pil1 pil2 c1 c2 : PILImage) :
  Image_convert (Pillow := pillow_model) pil1 "RGB" = Ok c1 ->
  Image_convert (Pillow := pillow_model) pil2 "RGB" = Ok c2 ->
  exists q,
    compute_phash_similarity (config := config_example) (pillow := pillow_model)
      (hashes := imagehash_fixture) pil1 pil2 = Ok (Fin q).
Proof.
  intros H1 H2. unfold compute_phash_similarity.
  rewrite H1, H2. cbn [at_line rbind].
  cbn [imagehash_phash imagehash_fixture]. cbn [at_line rbind].
  rewrite ImageHash_sub_self. cbn [at_line rbind].
  eexists. vm_compute. reflexivity.
Qed.

Lemma orb_ratio_fixture (rows1 rows2 : list (list pixel)) :
  shape_last (Color3 rows1) = 3%nat -> shape_last (Color3 rows2) = 3%nat ->
  List.length rows1 = 512%nat -> List.length rows2 = 512%nat ->
  exists q,
    compute_orb_match_ratio (config := config_example) (opencv := opencv_fixture)
      (Color3 rows1) (Color3 rows2) = Ok (Fin q).
Proof.
  intros H1 H2 L1 L2. unfold compute_orb_match_ratio, normalize_image_array.
  rewrite H1, H2. cbn [Nat.eqb].
  cbn [cvtColor_RGB2GRAY opencv_fixture at_line rbind ORB_detectAndCompute].
  unfold zeros_like. rewrite !length_map, L1, L2.
  eexists. vm_compute. reflexivity.
Qed.

Lemma black_rows_length (h w : nat) : List.length (black_rows h w) = h.
Proof. apply repeat_length. Qed.

(** The two comparisons return when the digests and the keypoints come from
    the doubles. *)
Lemma comparison_orders_return :
  exists r1 r2,
    combined_similarity (config := config_example) (pillow := pillow_model)
      (skimage := skimage_reference) (hashes := imagehash_fixture)
      (opencv := opencv_fixture)
      (black_image 512 512) (white_top_image 512 512) default_np_size = Ok r1 /\
    combined_similarity (config := config_example) (pillow := pillow_model)
      (skimage := skimage_reference) (hashes := imagehash_fixture)
      (opencv := opencv_fixture)
      (white_top_image 512 512) (black_image 512 512) default_np_size = Ok r2.
Proof.
  change default_np_size with (Z.of_nat 512, Z.of_nat 512).
  destruct (compute_ssim_black_white_top 512 512 ltac:(lia) ltac:(lia))
    as [q1 [E1 _]].
  assert (E2 : exists s,
             compute_ssim (skimage := skimage_reference)
               (white_top_frame 512 512) (black_frame 512 512) = Ok s).
  { destruct (compute_ssim_white_top_black 512 512 ltac:(lia) ltac:(lia))
      as [E | [z [E _]]]; eexists; exact E. }
  destruct E2 as [s2 E2].
  destruct (phash_similarity_fixture _ _ _ _
              (convert_black_image 512 512) (convert_white_top_image 512 512))
    as [p1 P1].
  destruct (phash_similarity_fixture _ _ _ _
              (convert_white_top_image 512 512) (convert_black_image 512 512))
    as [p2 P2].
  destruct (orb_ratio_fixture (black_rows 512 512)
              (repeat [255; 255; 255]%Z 512 :: black_rows 511 512))
    as [o1 O1];
    [apply shape_last_black; lia | reflexivity | apply black_rows_length
     | cbn [List.length]; rewrite black_rows_length; reflexivity |].
  destruct (orb_ratio_fixture
              (repeat [255; 255; 255]%Z 512 :: black_rows 511 512)
              (black_rows 512 512))
    as [o2 O2];
    [reflexivity | apply shape_last_black; lia
     | cbn [List.length]; rewrite black_rows_length; reflexivity
     | apply black_rows_length |].
  eexists. eexists. split.
  - unfold combined_similarity.
    rewrite convert_black_image, convert_white_top_image. cbn [at_line rbind].
    rewrite pil_to_np_black_image, pil_to_np_white_top_image. cbn [at_line rbind].
    rewrite E1. cbn [at_line rbind]. rewrite P1. cbn [at_line rbind].
    change (white_top_frame 512 512)
      with (Color3 (repeat [255; 255; 255]%Z 512 :: black_rows 511 512)).
    change (black_frame 512 512) with (Color3 (black_rows 512 512)).
    rewrite O1. cbn [at_line rbind]. reflexivity.
  - unfold combined_similarity.
    rewrite convert_black_image, convert_white_top_image. cbn [at_line rbind].
    rewrite pil_to_np_black_image, pil_to_np_white_top_image. cbn [at_line rbind].
    rewrite E2. cbn [at_line rbind]. rewrite P2. cbn [at_line rbind].
    change (white_top_frame 512 512)
      with (Color3 (repeat [255; 255; 255]%Z 512 :: black_rows 511 512)).
    change (black_frame 512 512) with (Color3 (black_rows 512 512)).
    rewrite O2. cbn [at_line rbind]. reflexivity.
Qed.

Lemma structural_similarity_second_argument_range_witness :
  exists r1 r2,
    combined_similarity (config := config_example) (pillow := pillow_model)
      (skimage := skimage_reference) (hashes := imagehash_fixture)
      (opencv := opencv_fixture)
      (black_image 512 512) (white_top_image 512 512) default_np_size = Ok r1 /\
    combined_similarity (config := config_example) (pillow := pillow_model)
      (skimage := skimage_reference) (hashes := imagehash_fixture)
      (opencv := opencv_fixture)
      (white_top_image 512 512) (black_image 512 512) default_np_size = Ok r2 /\
    feqb (bd_ssim (breakdown r1)) (bd_ssim (breakdown r2)) = false /\
    r1 <> r2.
Proof.
  destruct comparison_orders_return as [r1 [r2 [H1 H2]]].
  exists r1, r2. split; [exact H1|]. split; [exact H2|].
  destruct structural_similarity_second_argument_range as (_ & _ & _ & Hlift).
  apply (Hlift config_example pillow_model imagehash_fixture opencv_fixture
               (black_image 512 512) (white_top_image 512 512)
               (black_image 512 512) (white_top_image 512 512)
               default_np_size r1 r2).
  - apply convert_black_image.
  - apply convert_white_top_image.
  - apply (pil_to_np_black_image 512 512).
  - apply (pil_to_np_white_top_image 512 512).
  - exact H1.
  - exact H2.
Defined.

(** *** Fingerprints *)

Section Fingerprint.
Context {hashlib : Hashlib}.

Lemma create_design_fingerprint_six (a b c d e f : string) :
  create_design_fingerprint [a; b; c; d; e; f]
  = sha256_hexdigest (list_byte_of_string (a ++ b ++ c ++ d ++ e ++ f)).
Proof. reflexivity. Qed.

(** C10.  The hash strings are joined without a separator: tuples with the
    same concatenation have the same fingerprint, and two different tuples
    of six strings can have the same concatenation, so that the digest is
    taken of one and the same text. *)
Theorem fingerprint_ignores_component_boundaries :
  (forall hs1 hs2 : list string,
      String.concat "" hs1 = String.concat "" hs2 ->
      create_design_fingerprint hs1 = create_design_fingerprint hs2) /\
  (exists hs1 hs2 : list string,
      List.length hs1 = 6%nat /\ List.length hs2 = 6%nat /\ hs1 <> hs2 /\
      String.concat "" hs1 = String.concat "" hs2 /\
      create_design_fingerprint hs1 = create_design_fingerprint hs2).
Proof.
  split.
  - intros hs1 hs2 H. unfold create_design_fingerprint. rewrite H. reflexivity.
  - exists ["ab"; "c"; "d"; "e"; "f"; "0"], ["a"; "bc"; "d"; "e"; "f"; "0"].
    repeat split; try reflexivity. discriminate.
Qed.

End Fingerprint.

Lemma fingerprint_ignores_component_boundaries_witness :
  create_design_fingerprint (hashlib := hashlib_reference)
    ["8f"; "00ff"; "1"; "2"; "3"; "4"]
  = create_design_fingerprint (hashlib := hashlib_reference)
    ["8f0"; "0ff"; "1"; "2"; "3"; "4"].
Proof.
  apply (proj1 (fingerprint_ignores_component_boundaries
                  (hashlib := hashlib_reference))).
  reflexivity.
Defined.

(** The executable SHA-256 on the test vectors of FIPS 180-4. *)
Lemma sha256_test_vectors :
  SHA256.hexdigest (list_byte_of_string "abc")
  = "ba7816bf8f01cfea414140de5dae2223b00361a396177a9cb410ff61f20015ad" /\
  SHA256.hexdigest []
  = "e3b0c44298fc1c149afbf4c8996fb92427ae41e4649b934ca495991b7852b855".
Proof. split; vm_compute; reflexivity. Qed.

Lemma mbind_lift {A B} (r : result A) (k : A -> M B) (n : nat) :
  mbind (lift r) k n =
  match r with
  | Ok a => k a n
  | Raise e => (Raise e, n)
  end.
Proof. destruct r; reflexivity. Qed.

(** One more stage of a run of [extract_image_metadata] that returns. *)
Ltac stage_ok H :=
  rewrite mbind_lift in H;
  match type of H with
  | (match ?r with Ok _ => _ | Raise _ => _ end) = _ =>
      let v := fresh "v" in
      let E := fresh "E" in
      destruct r as [v | ?] eqn:E; [|discriminate H]
  end.

Section ScanFacts.
Context {config : Config} {pillow : Pillow} {skimage : Skimage}
        {imagehash : ImageHashLib} {opencv : OpenCV}
        {numpy : NumPy} {scipy : SciPy} {feature : SkimageFeature}
        {hashlib : Hashlib} {runtime : Runtime}.

(** What a returned metadata record holds in its hashes and its stamp. *)
Lemma extract_image_metadata_ok (pil_img : PILImage) (n n' : nat)
  (md : FeatureMetadata) :
  extract_image_metadata pil_img n = (Ok md, n') ->
  n' = S n /\
  scan_timestamp md = isoformat (utcnow_at n) ++ "Z" /\
  design_fingerprint (hashes md) =
  create_design_fingerprint
    [perceptual_hash (hashes md); average_hash (hashes md);
     difference_hash (hashes md); wavelet_hash (hashes md);
     color_hash (hashes md); sha256 (hashes md)].
Proof.
  unfold extract_image_metadata. intro H.
  stage_ok H. destruct (im_size v) as [width height].
  do 12 stage_ok H.
  unfold mbind at 1 in H. unfold utcnow at 1 in H.
  stage_ok H.
  unfold mret in H. injection H as <- <-.
  cbn [scan_timestamp hashes design_fingerprint perceptual_hash average_hash
       difference_hash wavelet_hash color_hash sha256].
  repeat split.
Qed.

Lemma scan_body_ok (image_bytes : list Byte.byte) (n n' : nat)
  (design_id : string) (md : FeatureMetadata) :
  scan_body image_bytes n = (Ok (design_id, md), n') ->
  exists pil_img,
    load_image_bytes image_bytes = Ok pil_img /\
    extract_image_metadata pil_img n = (Ok md, n') /\
    design_id = design_fingerprint (hashes md).
Proof.
  unfold scan_body, mbind, lift, mret. intro H.
  destruct (load_image_bytes image_bytes) as [pil_img | e] eqn:L;
    cbn [at_line] in H; [|discriminate].
  destruct (extract_image_metadata pil_img n) as [[md' | e] k] eqn:E;
    cbn [at_line] in H; [|discriminate].
  injection H as <- <- <-. exists pil_img. repeat split. exact E.
Qed.

(** C3.  The design identifier of a scan is the fingerprint of its record,
    and the fingerprint is the SHA-256 digest of the six hash strings of the
    record joined in the order perceptual, average, difference, wavelet,
    colour, content. *)
Theorem design_id_hashes_the_six_digests (image_bytes : list Byte.byte)
  (n n' : nat) (s : ScanSuccess) :
  scan_design_for_blockchain image_bytes n = (Scanned s, n') ->
  let h := hashes (ok_metadata s) in
  ok_design_id s = design_fingerprint h /\
  design_fingerprint h =
  sha256_hexdigest
    (list_byte_of_string
       (perceptual_hash h ++ average_hash h ++ difference_hash h
        ++ wavelet_hash h ++ color_hash h ++ sha256 h)).
Proof.
  unfold scan_design_for_blockchain. intro H.
  destruct (scan_body image_bytes (S n)) as [[[design_id md] | e] k] eqn:E;
    [|discriminate].
  injection H as <- _. cbn [ok_design_id ok_metadata].
  apply scan_body_ok in E. destruct E as [pil_img [_ [E ->]]].
  apply extract_image_metadata_ok in E. destruct E as [_ [_ E]].
  split; [reflexivity|]. rewrite E. apply create_design_fingerprint_six.
Qed.

End ScanFacts.

(** Two runs of the same stages: split on the next stage's outcome. *)
Ltac same_stage :=
  rewrite !mbind_lift;
  match goal with
  | |- context [match ?r with Ok _ => _ | Raise _ => _ end] =>
      destruct r; [|reflexivity]
  end.

Section Determinism.
Context {config : Config} {pillow : Pillow} {skimage : Skimage}
        {imagehash : ImageHashLib} {opencv : OpenCV}
        {numpy : NumPy} {scipy : SciPy} {feature : SkimageFeature}
        {hashlib : Hashlib} {runtime : Runtime}.

(** Apart from the time stamp, the outcome of an extraction does not depend
    on the clock. *)
Lemma extract_image_metadata_clock (pil_img : PILImage) (n1 n2 : nat) :
  match fst (extract_image_metadata pil_img n1),
        fst (extract_image_metadata pil_img n2) with
  | Ok m1, Ok m2 => with_timestamp "" m1 = with_timestamp "" m2
  | Raise e1, Raise e2 => e1 = e2
  | _, _ => False
  end.
Proof.
  unfold extract_image_metadata.
  same_stage. destruct (im_size a) as [width height].
  do 12 same_stage.
  unfold mbind at 1 3. unfold utcnow at 1 2.
  same_stage.
  reflexivity.
Qed.

(** C1 (amended).  Two scans of the same bytes, whatever the clock shows:
    both succeed or both fail; when they succeed, the metadata records agree
    in every field except [scan_timestamp], and the fingerprints and design
    identifiers are equal; when they fail, they fail with the same
    exception. *)
Theorem scan_deterministic_up_to_timestamp (image_bytes : list Byte.byte)
  (n1 n2 : nat) :
  match fst (scan_design_for_blockchain image_bytes n1),
        fst (scan_design_for_blockchain image_bytes n2) with
  | Scanned s1, Scanned s2 =>
      with_timestamp "" (ok_metadata s1) = with_timestamp "" (ok_metadata s2) /\
      design_fingerprint (hashes (ok_metadata s1))
      = design_fingerprint (hashes (ok_metadata s2)) /\
      ok_design_id s1 = ok_design_id s2
  | Failed f1, Failed f2 =>
      error_type f1 = error_type f2 /\
      error_message f1 = error_message f2 /\
      traceback f1 = traceback f2
  | _, _ => False
  end.
Proof.
  unfold scan_design_for_blockchain, scan_body, mbind, lift, mret.
  destruct (load_image_bytes image_bytes) as [pil_img | e]; cbn [at_line fst].
  - pose proof (extract_image_metadata_clock pil_img (S n1) (S n2)) as H.
    destruct (extract_image_metadata pil_img (S n1)) as [[m1 | e1] k1];
      destruct (extract_image_metadata pil_img (S n2)) as [[m2 | e2] k2];
      cbn [fst at_line] in *; try contradiction.
    + cbn [ok_metadata ok_design_id]. split; [exact H|].
      assert (Hh : hashes m1 = hashes m2).
      { change (hashes (with_timestamp "" m1) = hashes (with_timestamp "" m2)).
        rewrite H. reflexivity. }
      rewrite Hh. split; reflexivity.
    + subst e2. cbn [error_type error_message traceback]. repeat split.
  - cbn [error_type error_message traceback]. repeat split.
Qed.

End Determinism.

Lemma rbind_raise {A B} (m : result A) (k : A -> result B) (e : exn) :
  rbind m k = Raise e -> m = Raise e \/ exists a, m = Ok a /\ k a = Raise e.
Proof.
  destruct m as [a | e']; simpl; intro H.
  - right. exists a. split; [reflexivity | exact H].
  - left. injection H as <-. reflexivity.
Qed.

Lemma at_line_framed {A} (fn : string) (line : nat) (m : result A) (e : exn) :
  at_line fn line m = Raise e -> framed fn e.
Proof.
  destruct m as [a | e']; simpl; intro H; [discriminate|].
  injection H as <-. exists line, (exn_tb e'). reflexivity.
Qed.

(** Follow an exception back to the line that let it out. *)
Ltac find_frame H :=
  repeat first
    [ discriminate H
    | apply at_line_framed in H; exact H
    | apply rbind_raise in H; destruct H as [H | [? [_ H]]]
    | match type of H with
      | (if ?c then _ else _) = Raise _ => destruct c
      | (match ?x with _ => _ end) = Raise _ => destruct x
      end ].

Section Tracebacks.
Context {config : Config} {pillow : Pillow} {skimage : Skimage}
        {imagehash : ImageHashLib} {opencv : OpenCV}
        {numpy : NumPy} {scipy : SciPy} {feature : SkimageFeature}
        {hashlib : Hashlib} {runtime : Runtime}.

Lemma pil_to_np_framed (pil_img : PILImage) (size : option (Z * Z)) (e : exn) :
  pil_to_np pil_img size = Raise e -> framed "pil_to_np" e.
Proof. unfold pil_to_np. intro H. find_frame H. Qed.

Lemma color_framed (img_np : ndarray) (e : exn) :
  extract_color_features img_np = Raise e -> framed "extract_color_features" e.
Proof. unfold extract_color_features. intro H. find_frame H. Qed.

Lemma texture_framed (img_np : ndarray) (e : exn) :
  extract_texture_features img_np = Raise e -> framed "extract_texture_features" e.
Proof. unfold extract_texture_features. intro H. find_frame H. Qed.

Lemma orb_framed (img_np : ndarray) (e : exn) :
  extract_orb_features img_np = Raise e -> framed "extract_orb_features" e.
Proof. unfold extract_orb_features. intro H. find_frame H. Qed.

Lemma pixel_framed (img_np : ndarray) (e : exn) :
  extract_pixel_statistics img_np = Raise e -> framed "extract_pixel_statistics" e.
Proof. unfold extract_pixel_statistics. intro H. find_frame H. Qed.

Lemma edge_framed (img_np : ndarray) (e : exn) :
  extract_edge_features img_np = Raise e -> framed "extract_edge_features" e.
Proof. unfold extract_edge_features. intro H. find_frame H. Qed.

Lemma frequency_framed (img_np : ndarray) (e : exn) :
  extract_frequency_features img_np = Raise e ->
  framed "extract_frequency_features" e.
Proof. unfold extract_frequency_features. intro H. find_frame H. Qed.

End Tracebacks.

Section FailureReport.
Context {config : Config} {pillow : Pillow} {skimage : Skimage}
        {imagehash : ImageHashLib} {opencv : OpenCV}
        {numpy : NumPy} {scipy : SciPy} {feature : SkimageFeature}
        {hashlib : Hashlib} {runtime : Runtime}.

(** The traceback of a failed extraction, seen from the scan. *)
Lemma stage_of_pushed_frame (line : nat) (name : string) (e0 : exn) :
  stage_at line stage_table = Some name ->
  (is_stage_function name = true -> framed name e0) ->
  failing_stage
    (exn_tb (push_frame "scan_design_for_blockchain" 374
               (push_frame "extract_image_metadata" line e0)))
  = Some name.
Proof.
  intros Hstage Hframe. cbn [push_frame exn_tb failing_stage].
  change (String.eqb "scan_design_for_blockchain" "scan_design_for_blockchain")
    with true.
  change (String.eqb "extract_image_metadata" "load_image_bytes") with false.
  change (String.eqb "extract_image_metadata" "extract_image_metadata") with true.
  cbn [negb Nat.eqb andb]. rewrite Hstage.
  destruct (is_stage_function name) eqn:Ef; [|reflexivity].
  destruct (Hframe eq_refl) as [l [rest Htb]]. rewrite Htb.
  rewrite String.eqb_refl. reflexivity.
Qed.

(** The frame a stage function leaves in what it raises. *)
Ltac stage_frame E :=
  let Hf := fresh "Hf" in
  intro Hf;
  first [ discriminate Hf
        | exact (pil_to_np_framed _ _ _ E)
        | exact (color_framed _ _ E)
        | exact (texture_framed _ _ E)
        | exact (orb_framed _ _ E)
        | exact (pixel_framed _ _ E)
        | exact (edge_framed _ _ E)
        | exact (frequency_framed _ _ E) ].

(** One stage of the run [Hrun] of [extract_image_metadata], called as [r]
    at [line]: it returned, or it is the first to raise. *)
Ltac stage_case Hrun r line :=
  let E := fresh "E" in
  destruct r eqn:E;
  try rewrite E in Hrun;
  cbn [outcome first_failure fst snd];
  cbn [hash_string rbind] in Hrun;
  rewrite mbind_lift in Hrun; cbn [at_line] in Hrun;
  [ | exists line; eexists;
      split; [reflexivity|];
      split; [stage_frame E|];
      split; [exact Hrun | first [left; reflexivity | right; reflexivity]] ].

(** The run of [extract_image_metadata] by its stages: the first stage that
    raises ends it, with the frame of its line put on the exception; when
    none raises the record holds what the stages returned. *)
Lemma extract_image_metadata_stages (pil_img : PILImage) (n : nat) :
  match first_failure (stage_outcomes pil_img) with
  | Some (stage, e) =>
      exists line k,
        stage_at line stage_table = Some stage /\
        (is_stage_function stage = true -> framed stage e) /\
        extract_image_metadata pil_img n
        = (Raise (push_frame "extract_image_metadata" line e), k) /\
        (k = n \/ k = S n)
  | None =>
      exists md c img_np,
        extract_image_metadata pil_img n = (Ok md, S n) /\
        Image_convert pil_img "RGB" = Ok c /\
        pil_to_np c (Some (512, 512)%Z) = Ok img_np /\
        hash_string (imagehash_phash c PHASH_SIZE)
        = Ok (perceptual_hash (hashes md)) /\
        hash_string (imagehash_average_hash c)
        = Ok (average_hash (hashes md)) /\
        hash_string (imagehash_dhash c) = Ok (difference_hash (hashes md)) /\
        hash_string (imagehash_whash c) = Ok (wavelet_hash (hashes md)) /\
        hash_string (imagehash_colorhash c) = Ok (color_hash (hashes md)) /\
        extract_color_features img_np = Ok (color_analysis md) /\
        extract_texture_features img_np = Ok (texture_features md) /\
        extract_orb_features img_np = Ok (orb_features md) /\
        extract_pixel_statistics img_np = Ok (pixel_statistics md) /\
        extract_edge_features img_np = Ok (edge_features md) /\
        extract_frequency_features img_np = Ok (frequency_features md)
  end.
Proof.
  remember (extract_image_metadata pil_img n) as run eqn:Hrun.
  unfold extract_image_metadata in Hrun. unfold stage_outcomes.
  stage_case Hrun (Image_convert pil_img "RGB") 24%nat.
  rename a into c.
  destruct (im_size c) as [width height] eqn:Es.
  stage_case Hrun (pil_to_np c (Some (512, 512)%Z)) 32%nat.
  rename a into img_np.
  stage_case Hrun (imagehash_phash c PHASH_SIZE) 37%nat.
  stage_case Hrun (imagehash_average_hash c) 38%nat.
  stage_case Hrun (imagehash_dhash c) 39%nat.
  stage_case Hrun (imagehash_whash c) 40%nat.
  stage_case Hrun (imagehash_colorhash c) 41%nat.
  stage_case Hrun (extract_color_features img_np) 49%nat.
  stage_case Hrun (extract_texture_features img_np) 53%nat.
  stage_case Hrun (extract_orb_features img_np) 57%nat.
  stage_case Hrun (extract_pixel_statistics img_np) 61%nat.
  stage_case Hrun (extract_edge_features img_np) 65%nat.
  stage_case Hrun (extract_frequency_features img_np) 69%nat.
  unfold mbind at 1 in Hrun. unfold utcnow at 1 in Hrun.
  stage_case Hrun (py_truediv width height) 86%nat.
  unfold mret in Hrun. eexists. exists c, img_np.
  split; [exact Hrun|].
  cbn [hashes perceptual_hash average_hash difference_hash wavelet_hash
       color_hash color_analysis texture_features orb_features
       pixel_statistics edge_features frequency_features hash_string rbind].
  repeat match goal with
         | H : ?r = Ok _ |- context [hash_string ?r] => rewrite H
         end.
  cbn [hash_string rbind].
  repeat (split; [first [reflexivity | eassumption]|]).
  first [reflexivity | eassumption].
Qed.

(** C7 (amended).  The scan by its stages.  When decoding raises, or when a
    stage of the extraction is the first to raise, the scan returns the
    failure record: [success] false, the type and the message of that
    exception, the elapsed time, and the traceback, whose frames are those
    of [scan_design_for_blockchain], of [extract_image_metadata] at the line
    of the stage and of the stage itself, so that the traceback names the
    stage that failed; the record has no metadata and no design identifier.
    When no stage raises the scan returns the record in which every section
    is what its stage returned. *)
Theorem failed_stage_is_reported (image_bytes : list Byte.byte) (n : nat) :
  match Image_open image_bytes with
  | Raise e =>
      exists f,
        scan_design_for_blockchain image_bytes n = (Failed f, S (S n)) /\
        success (Failed f) = false /\
        error_type f = exn_type e /\
        error_message f = exn_message e /\
        message f = "Scan failed - see error details" /\
        scan_duration_seconds f
        = py_round (total_seconds (utcnow_at n) (utcnow_at (S n))) 2 /\
        traceback f
        = ("scan_design_for_blockchain", 370%nat)
            :: ("load_image_bytes", 11%nat) :: exn_tb e /\
        failing_stage (traceback f) = Some "load_image_bytes" /\
        get_metadata (Failed f) = None /\
        get_design_id (Failed f) = None
  | Ok pil_img =>
      match first_failure (stage_outcomes pil_img) with
      | Some (stage, e) =>
          exists f line k,
            scan_design_for_blockchain image_bytes n = (Failed f, S k) /\
            success (Failed f) = false /\
            error_type f = exn_type e /\
            error_message f = exn_message e /\
            message f = "Scan failed - see error details" /\
            scan_duration_seconds f
            = py_round (total_seconds (utcnow_at n) (utcnow_at k)) 2 /\
            stage_at line stage_table = Some stage /\
            traceback f
            = ("scan_design_for_blockchain", 374%nat)
                :: ("extract_image_metadata", line) :: exn_tb e /\
            failing_stage (traceback f) = Some stage /\
            get_metadata (Failed f) = None /\
            get_design_id (Failed f) = None
      | None =>
          exists s c img_np,
            scan_design_for_blockchain image_bytes n
            = (Scanned s, S (S (S n))) /\
            success (Scanned s) = true /\
            ok_design_id s = design_fingerprint (hashes (ok_metadata s)) /\
            Image_convert pil_img "RGB" = Ok c /\
            pil_to_np c (Some (512, 512)%Z) = Ok img_np /\
            hash_string (imagehash_phash c PHASH_SIZE)
            = Ok (perceptual_hash (hashes (ok_metadata s))) /\
            hash_string (imagehash_average_hash c)
            = Ok (average_hash (hashes (ok_metadata s))) /\
            hash_string (imagehash_dhash c)
            = Ok (difference_hash (hashes (ok_metadata s))) /\
            hash_string (imagehash_whash c)
            = Ok (wavelet_hash (hashes (ok_metadata s))) /\
            hash_string (imagehash_colorhash c)
            = Ok (color_hash (hashes (ok_metadata s))) /\
            extract_color_features img_np
            = Ok (color_analysis (ok_metadata s)) /\
            extract_texture_features img_np
            = Ok (texture_features (ok_metadata s)) /\
            extract_orb_features img_np = Ok (orb_features (ok_metadata s)) /\
            extract_pixel_statistics img_np
            = Ok (pixel_statistics (ok_metadata s)) /\
            extract_edge_features img_np
            = Ok (edge_features (ok_metadata s)) /\
            extract_frequency_features img_np
            = Ok (frequency_features (ok_metadata s))
      end
  end.
Proof.
  unfold scan_design_for_blockchain, scan_body, mbind, lift, mret,
    load_image_bytes.
  destruct (Image_open image_bytes) as [pil_img | e]; cbn [at_line].
  2:{ eexists. split; [reflexivity|].
      cbn [success error_type error_message message scan_duration_seconds
           traceback get_metadata get_design_id push_frame exn_type
           exn_message exn_tb].
      repeat (split; [reflexivity|]). reflexivity. }
  pose proof (extract_image_metadata_stages pil_img (S n)) as H.
  destruct (first_failure (stage_outcomes pil_img)) as [[stage e]|].
  - destruct H as (line & k & Hline & Hframe & Hrun & Hk).
    rewrite Hrun. cbn [at_line].
    eexists. exists line, k. split; [reflexivity|].
    cbn [success error_type error_message message scan_duration_seconds
         traceback get_metadata get_design_id push_frame exn_type
         exn_message exn_tb].
    repeat (split; [reflexivity|]).
    split; [exact Hline|]. split; [reflexivity|].
    split; [|split; reflexivity].
    exact (stage_of_pushed_frame line stage e Hline Hframe).
  - destruct H as (md & c & img_np & Hrun & Hc & Hnp & Hrest).
    rewrite Hrun. cbn [at_line].
    eexists. exists c, img_np. split; [reflexivity|].
    cbn [success ok_design_id ok_metadata].
    split; [reflexivity|]. split; [reflexivity|].
    split; [exact Hc|]. split; [exact Hnp|]. exact Hrest.
Qed.

End FailureReport.

(** *** Rounding *)

Lemma round_half_even_bounds (q : Q) (a b : Z) :
  inject_Z a <= q -> q <= inject_Z b ->
  (a <= round_half_even q <= b)%Z.
Proof.
  intros Ha Hb. unfold round_half_even.
  pose proof (Qfloor_le q) as Hf.
  assert (Hfa : (a <= Qfloor q)%Z).
  { rewrite <- (Qfloor_Z a). apply Qfloor_resp_le. exact Ha. }
  assert (Hfb : (Qfloor q <= b)%Z).
  { rewrite <- (Qfloor_Z b). apply Qfloor_resp_le. exact Hb. }
  assert (Hup : 0 < q - inject_Z (Qfloor q) -> (Qfloor q + 1 <= b)%Z).
  { intro Hr.
    assert (Hlt : inject_Z (Qfloor q) < inject_Z b) by lra.
    rewrite <- Zlt_Qlt in Hlt. lia. }
  destruct (Qltb (q - inject_Z (Qfloor q)) (1 # 2)) eqn:E1; [lia|].
  apply Qltb_false in E1.
  destruct (Qltb (1 # 2) (q - inject_Z (Qfloor q))) eqn:E2.
  - assert (0 < q - inject_Z (Qfloor q)) by lra. specialize (Hup H). lia.
  - destruct (Z.even (Qfloor q)); [lia|].
    assert (0 < q - inject_Z (Qfloor q)) by lra. specialize (Hup H). lia.
Qed.

(** Rounding to two decimals keeps a value between bounds that have at most
    two decimals themselves. *)
Lemma py_round_2_bounds (q : Q) (a b : Z) :
  inject_Z a / 100 <= q -> q <= inject_Z b / 100 ->
  inject_Z a / 100 <= py_round q 2 /\ py_round q 2 <= inject_Z b / 100.
Proof.
  intros Ha Hb. unfold py_round.
  change (inject_Z (10 ^ Z.of_nat 2)) with 100.
  unfold Qdiv in *. change (/ 100) with (1 # 100) in *.
  assert (H1 : inject_Z a <= q * 100) by lra.
  assert (H2 : q * 100 <= inject_Z b) by lra.
  destruct (round_half_even_bounds (q * 100) a b H1 H2) as [L U].
  rewrite Zle_Qle in L. rewrite Zle_Qle in U.
  revert L U. generalize (inject_Z (round_half_even (q * 100))).
  intros r L U. split; lra.
Qed.

Lemma py_round_2_nonneg (q : Q) : 0 <= q -> 0 <= py_round q 2.
Proof.
  intro Hq.
  destruct (py_round_2_bounds q 0 (Qceiling q * 100)) as [L _].
  - unfold Qdiv. change (/ 100) with (1 # 100). change (inject_Z 0) with 0. lra.
  - rewrite inject_Z_mult. pose proof (Qle_ceiling q).
    unfold Qdiv. change (/ 100) with (1 # 100). change (inject_Z 100) with 100.
    lra.
  - unfold Qdiv in L. change (/ 100) with (1 # 100) in L.
    change (inject_Z 0) with 0 in L. lra.
Qed.

(** *** Edge features *)

Lemma count_positive_le (edges : gray8) :
  (0 <= count_positive edges <= array_size edges)%Z.
Proof.
  unfold count_positive, array_size.
  pose proof (filter_length_le (fun v => (0 <? v)%Z) (List.concat edges)). lia.
Qed.

Section EdgeFeatures.
Context {opencv : OpenCV} {numpy : NumPy}.

(** The record computed by [extract_edge_features]. *)
Lemma extract_edge_features_value (img_np : ndarray) (gray edges : gray8)
  (sobelx sobely : grayf) :
  cvtColor_RGB2GRAY img_np = Ok gray ->
  Canny gray 100 200 = Ok edges ->
  Sobel_CV_64F gray 1 0 3 = Ok sobelx ->
  Sobel_CV_64F gray 0 1 3 = Ok sobely ->
  (0 < array_size edges)%Z ->
  extract_edge_features img_np
  = Ok {| edge_density_percentage :=
            Fin (py_round (inject_Z (count_positive edges)
                           / inject_Z (array_size edges) * 100) 2);
          edge_strength := py_round_f (np_mean (gradient_magnitude sobelx sobely)) 2;
          has_strong_edges :=
            Qltb 5 (py_round (inject_Z (count_positive edges)
                              / inject_Z (array_size edges) * 100) 2) |}.
Proof.
  intros Hg Hc Hx Hy Hsize.
  unfold extract_edge_features.
  rewrite Hg. cbn [at_line rbind]. rewrite Hc. cbn [at_line rbind].
  rewrite Hx. cbn [at_line rbind]. rewrite Hy. cbn [at_line rbind].
  unfold fdiv.
  assert (E : Qeq_bool (inject_Z (array_size edges)) 0 = false).
  { destruct (Qeq_bool (inject_Z (array_size edges)) 0) eqn:E; [|reflexivity].
    apply Qeq_bool_iff in E.
    assert (Hs : 0 < inject_Z (array_size edges)).
    { change 0 with (inject_Z 0). rewrite <- Zlt_Qlt. exact Hsize. }
    lra. }
  rewrite E. reflexivity.
Qed.

(** C9 (amended).  The edge density is the fraction of edge pixels of the
    Canny map (thresholds 100 and 200) times 100, rounded to two decimals,
    and lies in [0, 100]; the edge strength is the mean, rounded to two
    decimals, of sqrt(gx^2 + gy^2) over the two Sobel gradients; the flag
    compares the rounded density with 5. *)
Theorem edge_features_rounded (img_np : ndarray) (gray edges : gray8)
  (sobelx sobely : grayf) :
  cvtColor_RGB2GRAY img_np = Ok gray ->
  Canny gray 100 200 = Ok edges ->
  Sobel_CV_64F gray 1 0 3 = Ok sobelx ->
  Sobel_CV_64F gray 0 1 3 = Ok sobely ->
  (0 < array_size edges)%Z ->
  let density :=
    py_round (inject_Z (count_positive edges) / inject_Z (array_size edges) * 100) 2 in
  extract_edge_features img_np
  = Ok {| edge_density_percentage := Fin density;
          edge_strength := py_round_f (np_mean (gradient_magnitude sobelx sobely)) 2;
          has_strong_edges := Qltb 5 density |} /\
  0 <= density /\ density <= 100.
Proof.
  intros Hg Hc Hx Hy Hsize density.
  split.
  - apply (extract_edge_features_value img_np gray edges sobelx sobely);
      assumption.
  - pose proof (count_positive_le edges) as [Hc0 Hc1].
    assert (Hs : 0 < inject_Z (array_size edges)).
    { change 0 with (inject_Z 0). rewrite <- Zlt_Qlt. exact Hsize. }
    assert (Hn : 0 <= inject_Z (count_positive edges)).
    { change 0 with (inject_Z 0). rewrite <- Zle_Qle. exact Hc0. }
    assert (Hle : inject_Z (count_positive edges) <= inject_Z (array_size edges)).
    { rewrite <- Zle_Qle. exact Hc1. }
    assert (Hfrac : 0 <= inject_Z (count_positive edges)
                         / inject_Z (array_size edges) /\
                    inject_Z (count_positive edges)
                    / inject_Z (array_size edges) <= 1).
    { revert Hs Hn Hle.
      generalize (inject_Z (count_positive edges)) (inject_Z (array_size edges)).
      intros c s Hs Hn Hle. split.
      - apply Qle_shift_div_l; [exact Hs | lra].
      - apply Qle_shift_div_r; [exact Hs | lra]. }
    destruct Hfrac as [F0 F1].
    destruct (py_round_2_bounds
                (inject_Z (count_positive edges) / inject_Z (array_size edges) * 100)
                0 10000) as [L U].
    + change (inject_Z 0 / 100) with (0 * (1 # 100)). lra.
    + change (inject_Z 10000 / 100) with (10000 * (1 # 100)). lra.
    + subst density. split.
      * change (inject_Z 0 / 100) with (0 * (1 # 100)) in L. lra.
      * change (inject_Z 10000 / 100) with (10000 * (1 # 100)) in U. lra.
Qed.

End EdgeFeatures.

(** Two small frames seen by the detector double: two cross-checked
    matches at distances 1 and 96, of which one is good. *)
Lemma orb_match_ratio_cases_witness :
  compute_orb_match_ratio (config := config_example) (opencv := opencv_fixture)
    (Color3 [[[0; 0; 0]%Z]]) (Color3 [[[0; 0; 0]%Z]; [[9; 9; 9]%Z]])
  = Ok (np_clip (Fin (inject_Z 1 / inject_Z 2)) 0 1).
Proof.
  destruct (orb_match_ratio_cases
              (config := config_example) (opencv := opencv_fixture)
              (Color3 [[[0; 0; 0]%Z]]) (Color3 [[[0; 0; 0]%Z]; [[9; 9; 9]%Z]])
              _ _ _ _ _ _ eq_refl eq_refl eq_refl eq_refl) as [_ H].
  destruct (H _ _ _ eq_refl eq_refl eq_refl) as [_ H2].
  destruct (H2 ltac:(discriminate)) as [H3 _].
  exact H3.
Defined.

Lemma comparison_black_frames_score_witness :
  exists r,
    combined_similarity (config := config_example) (pillow := pillow_model)
      (skimage := skimage_reference) (hashes := imagehash_model)
      (opencv := opencv_model)
      (black_image 512 512) (black_image 512 512) default_np_size = Ok r /\
    score r = NaN /\
    ~ in_range 0 1 (score r) /\
    ~ in_range 0 1 (bd_ssim (breakdown r)).
Proof.
  destruct (compare_black_images 512 512 ltac:(lia) ltac:(lia)) as [r Hr].
  exists r. split; [exact Hr|].
  apply (comparison_black_frames_score
           (config := config_example) (pillow := pillow_model)
           (hashes := imagehash_model) (opencv := opencv_model)
           (black_image 512 512) (black_image 512 512)
           (black_image 512 512) (black_image 512 512)
           default_np_size 512 512 r); try lia.
  - apply convert_black_image.
  - apply convert_black_image.
  - apply (pil_to_np_black_image 512 512).
  - apply (pil_to_np_black_image 512 512).
  - exact Hr.
Defined.

Lemma filter_repeat {A} (p : A -> bool) (x : A) (n : nat) :
  filter p (repeat x n) = if p x then repeat x n else [].
Proof.
  induction n as [|n IH]; simpl.
  - destruct (p x); reflexivity.
  - rewrite IH. destruct (p x); reflexivity.
Qed.

Lemma edge_map_fixture_flat (gray : gray8) :
  List.concat (edge_map_fixture gray)
  = (repeat 255%Z (25 * 512) ++ (repeat 255%Z 318 ++ repeat 0%Z 194)
     ++ repeat 0%Z ((List.length gray - 26) * 512))%list.
Proof.
  unfold edge_map_fixture.
  rewrite !concat_app, !concat_repeat_repeat. cbn [List.concat].
  rewrite app_nil_r. reflexivity.
Qed.

Lemma edge_map_fixture_count (gray : gray8) :
  count_positive (edge_map_fixture gray) = 13118%Z.
Proof.
  unfold count_positive. rewrite edge_map_fixture_flat.
  rewrite !filter_app, !filter_repeat. cbn [Z.ltb Z.compare].
  rewrite app_nil_r, app_nil_r, length_app, !repeat_length. reflexivity.
Qed.

Lemma edge_map_fixture_size (gray : gray8) :
  List.length gray = 512%nat ->
  array_size (edge_map_fixture gray) = 262144%Z.
Proof.
  intro H. unfold array_size. rewrite edge_map_fixture_flat, H.
  rewrite !length_app, !repeat_length. reflexivity.
Qed.

Lemma white_top_gray_length :
  List.length
    (zeros_like 0%Z (repeat [255; 255; 255]%Z 512 :: black_rows 511 512))
  = 512%nat.
Proof.
  unfold zeros_like. rewrite length_map. cbn [List.length].
  rewrite black_rows_length. reflexivity.
Qed.

(** The frame seen through the edge double: 13118 edge pixels of 262144. *)
Lemma edge_features_rounded_witness :
  let gray := zeros_like 0%Z (repeat [255; 255; 255]%Z 512 :: black_rows 511 512) in
  let density :=
    py_round (inject_Z (count_positive (edge_map_fixture gray))
              / inject_Z (array_size (edge_map_fixture gray)) * 100) 2 in
  extract_edge_features (opencv := opencv_fixture) (numpy := numpy_model)
    (white_top_frame 512 512)
  = Ok {| edge_density_percentage := Fin density;
          edge_strength :=
            py_round_f (np_mean
                          (gradient_magnitude (numpy := numpy_model)
                             (zeros_like 0 gray) (zeros_like 0 gray))) 2;
          has_strong_edges := Qltb 5 density |} /\
  0 <= density /\ density <= 100.
Proof.
  apply (edge_features_rounded (opencv := opencv_fixture) (numpy := numpy_model)
           (white_top_frame 512 512)
           (zeros_like 0%Z (repeat [255; 255; 255]%Z 512 :: black_rows 511 512))
           (edge_map_fixture
              (zeros_like 0%Z (repeat [255; 255; 255]%Z 512 :: black_rows 511 512)))).
  - reflexivity.
  - reflexivity.
  - reflexivity.
  - reflexivity.
  - rewrite edge_map_fixture_size by apply white_top_gray_length. reflexivity.
Defined.

(** C9 as stated fails: with 13118 edge pixels of 262144 the fraction times
    100 is above 5, the reported density is exactly 5.0 and the flag is
    false. *)
Lemma edge_density_unrounded_counterexample :
  exists (edges : gray8) (ef : EdgeFeatures) (d : Q),
    Canny (OpenCV := opencv_fixture)
      (zeros_like 0%Z (repeat [255; 255; 255]%Z 512 :: black_rows 511 512)) 100 200
    = Ok edges /\
    count_positive edges = 13118%Z /\
    array_size edges = 262144%Z /\
    extract_edge_features (opencv := opencv_fixture) (numpy := numpy_model)
      (white_top_frame 512 512) = Ok ef /\
    edge_density_percentage ef = Fin d /\
    d == 5 /\
    ~ d == (13118 # 262144) * 100 /\
    5 < (13118 # 262144) * 100 /\
    has_strong_edges ef = false.
Proof.
  pose proof (edge_map_fixture_count
                (zeros_like 0%Z (repeat [255; 255; 255]%Z 512 :: black_rows 511 512)))
    as Hc.
  pose proof (edge_map_fixture_size _ white_top_gray_length) as Hs.
  assert (Hpos : (0 < array_size
                         (edge_map_fixture
                            (zeros_like 0%Z
                               (repeat [255; 255; 255]%Z 512
                                  :: black_rows 511 512))))%Z).
  { rewrite Hs. reflexivity. }
  pose proof (extract_edge_features_value
                (opencv := opencv_fixture) (numpy := numpy_model)
                (white_top_frame 512 512)
                (zeros_like 0%Z
                   (repeat [255; 255; 255]%Z 512 :: black_rows 511 512))
                (edge_map_fixture
                   (zeros_like 0%Z
                      (repeat [255; 255; 255]%Z 512 :: black_rows 511 512)))
                _ _ eq_refl eq_refl eq_refl eq_refl Hpos) as Hv.
  rewrite Hc, Hs in Hv.
  eexists. eexists. eexists.
  split; [reflexivity|]. split; [exact Hc|]. split; [exact Hs|].
  split; [exact Hv|].
  cbn [edge_density_percentage has_strong_edges].
  split; [reflexivity|].
  split; [vm_compute; reflexivity|].
  split; [vm_compute; intro H; discriminate H|].
  split; vm_compute; reflexivity.
Qed.

(** *** Sums over parts of a list *)

Lemma Qsum_nonneg (l : list Q) : Forall (fun x => 0 <= x) l -> 0 <= Qsum l.
Proof.
  induction 1 as [|x l Hx _ IH]; [discriminate|]. rewrite Qsum_cons. lra.
Qed.

Lemma Qsum_firstn_le (k : nat) (l : list Q) :
  Forall (fun x => 0 <= x) l -> 0 <= Qsum (firstn k l) /\ Qsum (firstn k l) <= Qsum l.
Proof.
  intro H. revert k. induction H as [|x l Hx Hl IH]; intro k.
  - rewrite firstn_nil. split; discriminate.
  - destruct k as [|k]; cbn [firstn].
    + pose proof (Qsum_nonneg l Hl). rewrite Qsum_cons.
      change (Qsum []) with 0. split; lra.
    + rewrite !Qsum_cons. destruct (IH k). split; lra.
Qed.

Lemma Qsum_skipn_le (k : nat) (l : list Q) :
  Forall (fun x => 0 <= x) l -> 0 <= Qsum (skipn k l) /\ Qsum (skipn k l) <= Qsum l.
Proof.
  intro H. revert k. induction H as [|x l Hx Hl IH]; intro k.
  - rewrite skipn_nil. split; discriminate.
  - destruct k as [|k]; cbn [skipn].
    + pose proof (Qsum_nonneg (x :: l) (Forall_cons x Hx Hl)). split; lra.
    + rewrite Qsum_cons. destruct (IH k). split; lra.
Qed.

Lemma Forall_skipn_nonneg (k : nat) (l : list Q) :
  Forall (fun x => 0 <= x) l -> Forall (fun x => 0 <= x) (skipn k l).
Proof.
  intro H. revert k. induction H as [|x l Hx Hl IH]; intro k.
  - rewrite skipn_nil. constructor.
  - destruct k; cbn [skipn]; [constructor; assumption | apply IH].
Qed.

(** A slice of a list of non-negative numbers sums to at most the whole. *)
Lemma Qsum_py_slice_le (a b : Z) (l : list Q) :
  Forall (fun x => 0 <= x) l ->
  0 <= Qsum (py_slice a b l) /\ Qsum (py_slice a b l) <= Qsum l.
Proof.
  intro H. unfold py_slice.
  set (s := Z.to_nat (slice_bound (Z.of_nat (List.length l)) a)).
  set (k := Z.to_nat (slice_bound (Z.of_nat (List.length l)) b
                      - slice_bound (Z.of_nat (List.length l)) a)).
  destruct (Qsum_firstn_le k (skipn s l) (Forall_skipn_nonneg s l H)) as [H0 H1].
  destruct (Qsum_skipn_le s l H) as [_ H2].
  split; lra.
Qed.

Lemma Qsum_app (l l' : list Q) : Qsum (l ++ l')%list == Qsum l + Qsum l'.
Proof.
  induction l as [|x l IH]; cbn [app].
  - change (Qsum []) with 0. ring.
  - rewrite !Qsum_cons, IH. ring.
Qed.

Lemma Qsum_concat (m : list (list Q)) :
  Qsum (List.concat m) == Qsum (map Qsum m).
Proof.
  induction m as [|r m IH]; cbn [List.concat map].
  - reflexivity.
  - rewrite Qsum_app, Qsum_cons, IH. reflexivity.
Qed.

(** Row by row: smaller rows give a smaller total. *)
Lemma Qsum_map_le (f g : list Q -> Q) (m : list (list Q)) :
  (forall r, In r m -> f r <= g r) -> Qsum (map f m) <= Qsum (map g m).
Proof.
  intro H. induction m as [|r m IH]; cbn [map].
  - discriminate.
  - rewrite !Qsum_cons.
    pose proof (H r (or_introl eq_refl)).
    assert (Qsum (map f m) <= Qsum (map g m)).
    { apply IH. intros r' Hr'. apply H. right. exact Hr'. }
    lra.
Qed.

Lemma In_firstn' {A} (k : nat) (l : list A) (x : A) :
  In x (firstn k l) -> In x l.
Proof.
  revert k. induction l as [|y l IH]; intros k H.
  - rewrite firstn_nil in H. exact H.
  - destruct k; cbn [firstn] in H; [destruct H|].
    destruct H as [<- | H]; [left; reflexivity | right; apply (IH k), H].
Qed.

Lemma In_skipn' {A} (k : nat) (l : list A) (x : A) :
  In x (skipn k l) -> In x l.
Proof.
  revert k. induction l as [|y l IH]; intros k H.
  - rewrite skipn_nil in H. exact H.
  - destruct k; cbn [skipn] in H; [exact H | right; apply (IH k), H].
Qed.

Lemma In_py_slice {A} (a b : Z) (l : list A) (x : A) :
  In x (py_slice a b l) -> In x l.
Proof. unfold py_slice. intro H. apply In_firstn' in H. apply In_skipn' in H. exact H. Qed.

Lemma py_slice_map {A B} (f : A -> B) (a b : Z) (l : list A) :
  map f (py_slice a b l) = py_slice a b (map f l).
Proof. unfold py_slice. rewrite length_map, skipn_map, firstn_map. reflexivity. Qed.

(** The energy of a block of a non-negative matrix is between zero and the
    total energy. *)
Lemma block_energy_le (a b c d : Z) (m : grayf) :
  nonneg_matrix m ->
  0 <= Qsum (List.concat (map (py_slice a b) (py_slice c d m))) /\
  Qsum (List.concat (map (py_slice a b) (py_slice c d m))) <= Qsum (List.concat m).
Proof.
  intro Hm. rewrite !Qsum_concat, map_map.
  assert (Hrows : forall r, In r (py_slice c d m) -> Forall (fun x => 0 <= x) r).
  { intros r Hr. apply In_py_slice in Hr.
    apply (proj1 (Forall_forall _ m) Hm r Hr). }
  assert (Hsums : Forall (fun x => 0 <= x) (map Qsum m)).
  { apply Forall_forall. intros x Hx. apply in_map_iff in Hx.
    destruct Hx as [r [<- Hr]]. apply Qsum_nonneg.
    apply (proj1 (Forall_forall _ m) Hm r Hr). }
  split.
  - apply Qsum_nonneg. apply Forall_forall. intros x Hx.
    apply in_map_iff in Hx. destruct Hx as [r [<- Hr]].
    apply (Qsum_py_slice_le a b r (Hrows r Hr)).
  - apply Qle_trans with (Qsum (map Qsum (py_slice c d m))).
    + apply Qsum_map_le. intros r Hr.
      apply (Qsum_py_slice_le a b r (Hrows r Hr)).
    + rewrite py_slice_map. apply (Qsum_py_slice_le c d _ Hsums).
Qed.

Lemma magnitude_nonneg {numpy : NumPy} (spectrum : list (list complex)) :
  (forall z, 0 <= np_abs z) -> nonneg_matrix (magnitude_spectrum_of spectrum).
Proof.
  intro H. unfold nonneg_matrix, magnitude_spectrum_of.
  apply Forall_forall. intros r Hr. apply in_map_iff in Hr.
  destruct Hr as [r' [<- _]]. apply Forall_forall. intros x Hx.
  apply in_map_iff in Hx. destruct Hx as [z [<- _]]. apply H.
Qed.

(** The three levels of detail. *)
Lemma classify_detail_cases (r : Q) :
  (classify_detail r = "high" <-> 3 # 2 < r) /\
  (classify_detail r = "medium" <-> 8 # 10 < r /\ r <= 3 # 2) /\
  (classify_detail r = "low" <-> r <= 8 # 10).
Proof.
  unfold classify_detail.
  destruct (Qltb (3 # 2) r) eqn:E1; [apply Qltb_true in E1|apply Qltb_false in E1].
  - split; [|split]; (split; [intro H | intro H]);
      try discriminate H; try reflexivity; try lra.
  - destruct (Qltb (8 # 10) r) eqn:E2;
      [apply Qltb_true in E2|apply Qltb_false in E2];
      (split; [|split]); (split; [intro H | intro H]);
      try discriminate H; try reflexivity; try lra.
Qed.

(** *** The centred window *)

Lemma py_slice_centered {A} (l : list A) :
  (40 <= List.length l)%nat ->
  py_slice (Z.of_nat (List.length l) / 2 - 20) (Z.of_nat (List.length l) / 2 + 20) l
  = firstn 40 (skipn (Z.to_nat (Z.of_nat (List.length l) / 2 - 20)) l).
Proof.
  intro H. unfold py_slice, slice_bound.
  set (n := Z.of_nat (List.length l)).
  assert (Hn : (40 <= n)%Z) by (unfold n; lia).
  assert (Hc : (20 <= n / 2 /\ n / 2 + 20 <= n)%Z)
    by (Z.div_mod_to_equations; lia).
  revert Hc. generalize (n / 2)%Z as c. intros c Hc.
  assert (E1 : (c - 20 <? 0)%Z = false) by (apply Z.ltb_ge; lia).
  assert (E2 : (c + 20 <? 0)%Z = false) by (apply Z.ltb_ge; lia).
  rewrite E1, E2.
  replace (Z.min (Z.max (c - 20) 0) n) with (c - 20)%Z by lia.
  replace (Z.min (Z.max (c + 20) 0) n) with (c + 20)%Z by lia.
  replace (Z.to_nat (c + 20 - (c - 20))) with 40%nat by lia.
  reflexivity.
Qed.

(** On a spectrum of at least 40 rows and columns the low-frequency region
    is the block of rows [H/2 - 20, H/2 + 20) and columns
    [W/2 - 20, W/2 + 20). *)
Lemma low_freq_region_centered (m : grayf) (H W : nat) :
  List.length m = H -> (forall r, In r m -> List.length r = W) ->
  (40 <= H)%nat -> (40 <= W)%nat ->
  low_freq_region m
  = map (fun r => firstn 40 (skipn (Z.to_nat (Z.of_nat W / 2 - 20)) r))
        (firstn 40 (skipn (Z.to_nat (Z.of_nat H / 2 - 20)) m)).
Proof.
  intros HH HW H40 W40. unfold low_freq_region. cbv zeta.
  assert (Hfirst : match m with r :: _ => List.length r | [] => 0%nat end = W).
  { destruct m as [|r m']; [simpl in HH; lia|]. apply HW. left. reflexivity. }
  rewrite Hfirst.
  pose proof (py_slice_centered m ltac:(lia)) as Hrows.
  rewrite HH in Hrows. rewrite HH, Hrows.
  apply map_ext_in. intros r Hr.
  apply In_firstn' in Hr. apply In_skipn' in Hr.
  pose proof (HW r Hr) as Hlen.
  pose proof (py_slice_centered r ltac:(lia)) as Hcols.
  rewrite Hlen in Hcols. exact Hcols.
Qed.

(** *** The zero frequency sits at the centre *)

Lemma nth_roll_half {A} (l : list A) (d : A) :
  (0 < List.length l)%nat ->
  nth (List.length l / 2) (roll_half l) d = nth 0 l d.
Proof.
  intro H. unfold roll_half.
  set (n := List.length l). set (k := (n / 2)%nat).
  assert (Hk : (k < n)%nat) by (apply Nat.div_lt; lia).
  rewrite app_nth2; rewrite length_skipn; fold n; [|lia].
  replace (k - (n - (n - k)))%nat with 0%nat by lia.
  destruct l as [|x l']; [simpl in H; lia|].
  destruct (n - k)%nat eqn:E; [lia|]. reflexivity.
Qed.

Lemma length_roll_half {A} (l : list A) : List.length (roll_half l) = List.length l.
Proof.
  unfold roll_half. rewrite length_app, length_skipn, length_firstn.
  pose proof (Nat.Div0.div_le_upper_bound (List.length l) 2 (List.length l)). lia.
Qed.

Lemma to_nat_half (n : nat) : Z.to_nat (Z.of_nat n / 2) = (n / 2)%nat.
Proof.
  change 2%Z with (Z.of_nat 2). rewrite <- Nat2Z.inj_div. apply Nat2Z.id.
Qed.

(** The centre entry of the shifted magnitude spectrum is the magnitude of
    the zero-frequency coefficient. *)
Lemma magnitude_dc_centered {numpy : NumPy} (fft : list (list complex))
  (H W : nat) :
  List.length fft = H -> (forall r, In r fft -> List.length r = W) ->
  (0 < H)%nat -> (0 < W)%nat ->
  nth (Z.to_nat (Z.of_nat W / 2))
      (nth (Z.to_nat (Z.of_nat H / 2)) (magnitude_spectrum_of fft) []) 0
  = np_abs (nth 0 (nth 0 fft []) (0, 0)).
Proof.
  intros HH HW Hpos Wpos. rewrite !to_nat_half.
  unfold magnitude_spectrum_of, np_fft_fftshift.
  change (@nil Q) with (map np_abs []).
  rewrite map_nth.
  assert (Hlen : List.length (map (@roll_half complex) fft) = H)
    by (rewrite length_map; exact HH).
  rewrite <- Hlen at 1. rewrite nth_roll_half by (rewrite Hlen; exact Hpos).
  change (@nil complex) with (@roll_half complex []).
  rewrite map_nth.
  destruct fft as [|r0 rest]; [simpl in HH; lia|].
  cbn [nth].
  assert (Hr0 : List.length r0 = W) by (apply HW; left; reflexivity).
  rewrite (nth_indep _ 0 (np_abs (0, 0)))
    by (rewrite length_map, length_roll_half, Hr0; apply Nat.div_lt; lia).
  rewrite map_nth. rewrite <- Hr0. rewrite nth_roll_half by lia. reflexivity.
Qed.

Section FrequencyFeatures.
Context {opencv : OpenCV} {numpy : NumPy}.

(** The record computed by [extract_frequency_features]. *)
Lemma extract_frequency_features_value (img_np : ndarray) (gray : gray8)
  (fft : list (list complex)) :
  cvtColor_RGB2GRAY img_np = Ok gray ->
  np_fft_fft2 gray = Ok fft ->
  (forall z, 0 <= np_abs z) ->
  extract_frequency_features img_np
  = Ok {| low_frequency_energy :=
            py_round (Qsum (List.concat
                              (low_freq_region (magnitude_spectrum_of fft)))) 2;
          high_frequency_energy :=
            py_round (Qsum (List.concat (magnitude_spectrum_of fft))
                      - Qsum (List.concat
                                (low_freq_region (magnitude_spectrum_of fft)))) 2;
          frequency_ratio :=
            py_round ((Qsum (List.concat (magnitude_spectrum_of fft))
                       - Qsum (List.concat
                                 (low_freq_region (magnitude_spectrum_of fft))))
                      / (Qsum (List.concat
                                 (low_freq_region (magnitude_spectrum_of fft)))
                         + epsilon)) 2;
          detail_level :=
            classify_detail
              (py_round ((Qsum (List.concat (magnitude_spectrum_of fft))
                          - Qsum (List.concat
                                    (low_freq_region (magnitude_spectrum_of fft))))
                         / (Qsum (List.concat
                                    (low_freq_region (magnitude_spectrum_of fft)))
                            + epsilon)) 2) |}.
Proof.
  intros Hg Hf Habs. unfold extract_frequency_features.
  rewrite Hg. cbn [at_line rbind]. rewrite Hf. cbn [at_line rbind].
  unfold float_truediv.
  destruct (block_energy_le
              (Z.of_nat (match magnitude_spectrum_of fft with
                         | r :: _ => List.length r
                         | [] => 0%nat
                         end) / 2 - 20)
              (Z.of_nat (match magnitude_spectrum_of fft with
                         | r :: _ => List.length r
                         | [] => 0%nat
                         end) / 2 + 20)
              (Z.of_nat (List.length (magnitude_spectrum_of fft)) / 2 - 20)
              (Z.of_nat (List.length (magnitude_spectrum_of fft)) / 2 + 20)
              (magnitude_spectrum_of fft) (magnitude_nonneg fft Habs)) as [H0 _].
  fold (low_freq_region (magnitude_spectrum_of fft)) in H0.
  assert (E : Qeq_bool
                (Qsum (List.concat (low_freq_region (magnitude_spectrum_of fft)))
                 + epsilon) 0 = false).
  { destruct (Qeq_bool _ 0) eqn:E; [|reflexivity].
    apply Qeq_bool_iff in E. unfold epsilon in E. lra. }
  rewrite E. reflexivity.
Qed.

End FrequencyFeatures.

Section FrequencyClaim.
Context {opencv : OpenCV} {numpy : NumPy}.

(** C8 (amended).  The magnitude spectrum has its zero frequency at the
    centre; the low-frequency energy is the sum of the magnitudes in the
    centred 40x40 block, the high-frequency energy the total minus it; the
    reported ratio is high / (low + 1e-10) rounded to two decimals and is
    not negative; the detail level is "high" when the rounded ratio exceeds
    1.5, "medium" when it exceeds 0.8 and "low" otherwise. *)
Theorem frequency_features_rounded (img_np : ndarray) (gray : gray8)
  (fft : list (list complex)) :
  cvtColor_RGB2GRAY img_np = Ok gray ->
  np_fft_fft2 gray = Ok fft ->
  (forall z, 0 <= np_abs z) ->
  let m := magnitude_spectrum_of fft in
  let low := Qsum (List.concat (low_freq_region m)) in
  let high := Qsum (List.concat m) - low in
  let ratio := py_round (high / (low + epsilon)) 2 in
  extract_frequency_features img_np
  = Ok {| low_frequency_energy := py_round low 2;
          high_frequency_energy := py_round high 2;
          frequency_ratio := ratio;
          detail_level := classify_detail ratio |} /\
  0 <= low /\ 0 <= high /\ 0 <= ratio /\
  (classify_detail ratio = "high" <-> 3 # 2 < ratio) /\
  (classify_detail ratio = "medium" <-> 8 # 10 < ratio /\ ratio <= 3 # 2) /\
  (classify_detail ratio = "low" <-> ratio <= 8 # 10) /\
  (forall H W : nat,
      List.length fft = H -> (forall r, In r fft -> List.length r = W) ->
      (40 <= H)%nat -> (40 <= W)%nat ->
      low_freq_region m
      = map (fun r => firstn 40 (skipn (Z.to_nat (Z.of_nat W / 2 - 20)) r))
            (firstn 40 (skipn (Z.to_nat (Z.of_nat H / 2 - 20)) m)) /\
      nth (Z.to_nat (Z.of_nat W / 2)) (nth (Z.to_nat (Z.of_nat H / 2)) m []) 0
      = np_abs (nth 0 (nth 0 fft []) (0, 0))).
Proof.
  intros Hg Hf Habs m low high ratio.
  pose proof (magnitude_nonneg fft Habs) as Hm. fold m in Hm.
  destruct (block_energy_le
              (Z.of_nat (match m with r :: _ => List.length r | [] => 0%nat end)
               / 2 - 20)
              (Z.of_nat (match m with r :: _ => List.length r | [] => 0%nat end)
               / 2 + 20)
              (Z.of_nat (List.length m) / 2 - 20)
              (Z.of_nat (List.length m) / 2 + 20) m Hm) as [Hlow0 Hlow1].
  fold (low_freq_region m) in Hlow0, Hlow1. fold low in Hlow0, Hlow1.
  assert (Hhigh : 0 <= high) by (unfold high; lra).
  assert (Hratio : 0 <= ratio).
  { apply py_round_2_nonneg. apply Qle_shift_div_l; [unfold epsilon; lra | lra]. }
  split; [apply (extract_frequency_features_value img_np gray fft); assumption|].
  split; [exact Hlow0|]. split; [exact Hhigh|]. split; [exact Hratio|].
  destruct (classify_detail_cases ratio) as [C1 [C2 C3]].
  split; [exact C1|]. split; [exact C2|]. split; [exact C3|].
  intros H W HH HW H40 W40.
  assert (Hlen : List.length m = H).
  { unfold m, magnitude_spectrum_of, np_fft_fftshift.
    rewrite length_map, length_roll_half, length_map. exact HH. }
  assert (Hrows : forall r, In r m -> List.length r = W).
  { intros r Hr. unfold m, magnitude_spectrum_of, np_fft_fftshift in Hr.
    apply in_map_iff in Hr. destruct Hr as [r1 [<- Hr1]].
    unfold roll_half in Hr1. apply in_app_or in Hr1.
    assert (Hin : In r1 (map (@roll_half complex) fft)).
    { destruct Hr1 as [Hr1 | Hr1];
        [apply In_skipn' in Hr1 | apply In_firstn' in Hr1]; exact Hr1. }
    apply in_map_iff in Hin. destruct Hin as [r0 [<- Hr0]].
    rewrite length_map, length_roll_half. apply HW, Hr0. }
  split.
  - apply low_freq_region_centered; assumption.
  - apply magnitude_dc_centered; try assumption; lia.
Qed.

End FrequencyClaim.

(** The models on a black frame. *)
Lemma sqrt_model_nonneg (q : Q) : 0 <= sqrt_model q.
Proof.
  unfold sqrt_model.
  apply Qle_shift_div_l; [reflexivity|].
  setoid_replace (0 * inject_Z (2 ^ 30)) with (inject_Z 0) by reflexivity.
  rewrite <- Zle_Qle. apply Z.sqrt_nonneg.
Qed.

Lemma np_abs_model_nonneg (z : complex) : 0 <= np_abs (NumPy := numpy_model) z.
Proof. apply sqrt_model_nonneg. Qed.

Lemma impulse_value_zeros (h w : nat) :
  (0 < h)%nat -> (0 < w)%nat ->
  impulse_value (repeat (repeat 0%Z w) h) = Some 0%Z.
Proof.
  intros Hh Hw. destruct h as [|h]; [lia|]. destruct w as [|w]; [lia|].
  cbn [repeat impulse_value].
  change (0%Z :: repeat 0%Z w) with (repeat 0%Z (S w)).
  rewrite forallb_repeat by reflexivity. rewrite all_zero_repeat. reflexivity.
Qed.

Lemma frequency_features_rounded_witness :
  exists ff,
    extract_frequency_features (opencv := opencv_model) (numpy := numpy_model)
      (black_frame 512 512) = Ok ff /\
    0 <= frequency_ratio ff /\
    (detail_level ff = "low" <-> frequency_ratio ff <= 8 # 10).
Proof.
  destruct (frequency_features_rounded
              (opencv := opencv_model) (numpy := numpy_model)
              (black_frame 512 512) (repeat (repeat 0%Z 512) 512)
              (zeros_like (inject_Z 0, 0) (repeat (repeat 0%Z 512) 512)))
    as (Hv & _ & _ & Hr & _ & _ & Hl & _).
  - apply cvtColor_black_frame.
  - cbn [np_fft_fft2 numpy_model].
    rewrite impulse_value_zeros by lia. reflexivity.
  - apply np_abs_model_nonneg.
  - eexists. split; [exact Hv|]. split; [exact Hr | exact Hl].
Defined.

(** *** Rounding respects equality of rationals *)

Lemma Qltb_comp (a a' b b' : Q) : a == a' -> b == b' -> Qltb a b = Qltb a' b'.
Proof. intros Ha Hb. unfold Qltb. rewrite Ha, Hb. reflexivity. Qed.

Lemma round_half_even_comp (q q' : Q) :
  q == q' -> round_half_even q = round_half_even q'.
Proof.
  intro H. unfold round_half_even.
  assert (Hf : Qfloor q = Qfloor q') by (rewrite H; reflexivity).
  rewrite Hf.
  assert (Hr : q - inject_Z (Qfloor q') == q' - inject_Z (Qfloor q'))
    by (rewrite H; reflexivity).
  rewrite (Qltb_comp _ _ (1 # 2) (1 # 2) Hr (Qeq_refl _)).
  rewrite (Qltb_comp (1 # 2) (1 # 2) _ _ (Qeq_refl _) Hr).
  reflexivity.
Qed.

Lemma py_round_comp (q q' : Q) (n : nat) :
  q == q' -> py_round q n = py_round q' n.
Proof.
  intro H. unfold py_round.
  rewrite (round_half_even_comp (q * inject_Z (10 ^ Z.of_nat n))
                                (q' * inject_Z (10 ^ Z.of_nat n)))
    by (rewrite H; reflexivity).
  reflexivity.
Qed.

(** *** A flat spectrum *)

Lemma Qsum_repeat (c : Q) (n : nat) :
  Qsum (repeat c n) == c * inject_Z (Z.of_nat n).
Proof.
  induction n as [|n IH].
  - simpl. ring.
  - cbn [repeat]. rewrite Qsum_cons, IH, Nat2Z.inj_succ.
    unfold Z.succ. rewrite inject_Z_plus. ring.
Qed.

Lemma roll_half_repeat {A} (x : A) (n : nat) : roll_half (repeat x n) = repeat x n.
Proof.
  unfold roll_half. rewrite repeat_length.
  assert (Hk : (n / 2 <= n)%nat) by (apply Nat.Div0.div_le_upper_bound; lia).
  rewrite skipn_repeat, firstn_repeat by lia.
  rewrite <- repeat_app. f_equal. lia.
Qed.

Lemma magnitude_flat {numpy : NumPy} (z : complex) (h w : nat) :
  magnitude_spectrum_of (repeat (repeat z w) h) = repeat (repeat (np_abs z) w) h.
Proof.
  unfold magnitude_spectrum_of, np_fft_fftshift.
  rewrite map_repeat, roll_half_repeat, roll_half_repeat, !map_repeat.
  reflexivity.
Qed.

Lemma low_freq_region_flat (c : Q) (h w : nat) :
  (40 <= h)%nat -> (40 <= w)%nat ->
  low_freq_region (repeat (repeat c w) h) = repeat (repeat c 40) 40.
Proof.
  intros Hh Hw.
  rewrite (low_freq_region_centered _ h w);
    [ | apply repeat_length
      | intros r Hr; apply repeat_spec in Hr; subst r; apply repeat_length
      | exact Hh | exact Hw ].
  assert (Hc : forall n, (40 <= n)%nat ->
                         (Z.to_nat (Z.of_nat n / 2 - 20) + 40 <= n)%nat).
  { intros n Hn. Z.div_mod_to_equations. lia. }
  rewrite skipn_repeat, firstn_repeat by (pose proof (Hc h Hh); lia).
  rewrite map_repeat, skipn_repeat, firstn_repeat by (pose proof (Hc w Hw); lia).
  reflexivity.
Qed.

(** The models on an impulse frame: one white pixel at the origin. *)
Lemma cvtColor_impulse_frame (h w : nat) :
  cvtColor_RGB2GRAY (OpenCV := opencv_model) (impulse_frame (S h) (S w))
  = Ok ((255%Z :: repeat 0%Z w) :: repeat (repeat 0%Z (S w)) h).
Proof.
  unfold impulse_frame. cbn [cvtColor_RGB2GRAY opencv_model].
  replace (S h - 1)%nat with h by lia. replace (S w - 1)%nat with w by lia.
  cbn [forallb neutral Z.eqb andb].
  rewrite forallb_repeat by reflexivity. rewrite neutral_black_rows.
  cbn [andb]. unfold luminance. cbn [map nth].
  rewrite map_repeat. cbn [nth].
  change (map (map (fun p : pixel => nth 0 p 0%Z)) (black_rows h (S w)))
    with (luminance (black_rows h (S w))).
  rewrite luminance_black_rows. reflexivity.
Qed.

Lemma fft_impulse (h w : nat) :
  np_fft_fft2 (NumPy := numpy_model)
    ((255%Z :: repeat 0%Z w) :: repeat (repeat 0%Z (S w)) h)
  = Ok (repeat (repeat (inject_Z 255, 0) (S w)) (S h)).
Proof.
  cbn [np_fft_fft2 numpy_model impulse_value].
  rewrite forallb_repeat by reflexivity. rewrite all_zero_repeat. cbn [andb].
  f_equal. unfold zeros_like. cbn [map repeat].
  rewrite !map_repeat. cbn [map repeat]. rewrite map_repeat. reflexivity.
Qed.

(** C8 as stated fails: on the impulse frame the spectrum is flat, the
    quotient high / (low + 1e-10) is just below 162.84, and the reported
    ratio is 162.84. *)
Lemma frequency_ratio_unrounded_counterexample :
  let c := np_abs (NumPy := numpy_model) (inject_Z 255, 0) in
  let m := repeat (repeat c 512) 512 in
  let low := Qsum (List.concat (low_freq_region m)) in
  let high := Qsum (List.concat m) - low in
  exists ff,
    extract_frequency_features (opencv := opencv_model) (numpy := numpy_model)
      (impulse_frame 512 512) = Ok ff /\
    frequency_ratio ff = py_round (high / (low + epsilon)) 2 /\
    frequency_ratio ff == 16284 # 100 /\
    ~ frequency_ratio ff == high / (low + epsilon).
Proof.
  intros c m low high.
  pose proof (extract_frequency_features_value
                (opencv := opencv_model) (numpy := numpy_model)
                (impulse_frame 512 512) _ _
                (cvtColor_impulse_frame 511 511) (fft_impulse 511 511)
                np_abs_model_nonneg) as Hv.
  rewrite magnitude_flat in Hv. fold c in Hv. fold m in Hv.
  fold low in Hv. fold high in Hv.
  assert (Hc : c == 255) by (vm_compute; reflexivity).
  assert (Hlow : low == 408000).
  { unfold low, m. rewrite low_freq_region_flat by lia.
    rewrite concat_repeat_repeat, Qsum_repeat, Hc. reflexivity. }
  assert (Hhigh : high == 66438720).
  { unfold high. rewrite Hlow. unfold m.
    rewrite concat_repeat_repeat, Qsum_repeat, Hc. reflexivity. }
  assert (Hraw : high / (low + epsilon) == 66438720 / (408000 + epsilon)).
  { rewrite Hhigh, Hlow. reflexivity. }
  eexists. split; [exact Hv|]. cbn [frequency_ratio].
  split; [reflexivity|].
  rewrite (py_round_comp _ _ 2 Hraw).
  split.
  - vm_compute. reflexivity.
  - rewrite Hraw. vm_compute. intro H. discriminate H.
Qed.

(** *** The extractors on a black frame, with the models *)

Lemma clip_array_black (h w : nat) : clip_array (black_frame h w) = black_frame h w.
Proof.
  unfold clip_array, black_frame, black_rows. rewrite !map_repeat. reflexivity.
Qed.

Lemma channel_black (h w k : nat) :
  (0 < h)%nat -> (0 < w)%nat -> (k < 3)%nat ->
  exists c, channel (black_frame h w) k = Ok c.
Proof.
  intros Hh Hw Hk. unfold channel, black_frame.
  rewrite (shape_last_black h w Hh Hw).
  apply Nat.ltb_lt in Hk. rewrite Hk. eexists. reflexivity.
Qed.

Lemma chunks3_black (n : nat) :
  chunks3 (List.concat (repeat [0; 0; 0]%Z n)) = Ok (repeat [0; 0; 0]%Z n).
Proof.
  induction n as [|n IH]; [reflexivity|].
  cbn [repeat List.concat app chunks3]. rewrite IH. reflexivity.
Qed.

Lemma flatten_black (h w : nat) :
  flatten_array (black_frame h w) = List.concat (repeat [0; 0; 0]%Z (h * w)).
Proof.
  unfold flatten_array, black_frame, black_rows.
  rewrite concat_repeat_repeat. reflexivity.
Qed.

Lemma count_row_nonempty (row : list Z) (acc : list (list Z * Z)) :
  count_row row acc <> [].
Proof.
  destruct acc as [|[r c] acc]; cbn [count_row]; [discriminate|].
  destruct (lex_compare row r); discriminate.
Qed.

Lemma unique_counts_black (n : nat) :
  (0 < n)%nat -> exists d, argmax_count (unique_counts (repeat [0; 0; 0]%Z n)) = Ok d.
Proof.
  intro Hn. destruct n as [|n]; [lia|].
  cbn [repeat unique_counts fold_right].
  pose proof (count_row_nonempty [0; 0; 0]%Z
                (fold_right count_row [] (repeat [0; 0; 0]%Z n))) as Hne.
  destruct (count_row _ _) as [|x l]; [congruence|].
  eexists. reflexivity.
Qed.

Lemma color_features_black (h w : nat) :
  (0 < h)%nat -> (0 < w)%nat ->
  exists ca,
    extract_color_features (opencv := opencv_model) (numpy := numpy_model)
      (scipy := scipy_model) (black_frame h w) = Ok ca.
Proof.
  intros Hh Hw. unfold extract_color_features.
  change (shape_last (black_frame h w)) with (shape_last (Color3 (black_rows h w))).
  rewrite (shape_last_black h w Hh Hw). cbn [Nat.eqb rbind].
  rewrite clip_array_black.
  unfold mean_of_channel, std_of_channel, hist_of_channel.
  destruct (channel_black h w 0 Hh Hw ltac:(lia)) as [c0 E0].
  destruct (channel_black h w 1 Hh Hw ltac:(lia)) as [c1 E1].
  destruct (channel_black h w 2 Hh Hw ltac:(lia)) as [c2 E2].
  rewrite E0, E1, E2. cbn [at_line rbind].
  rewrite flatten_black, chunks3_black. cbn [at_line rbind].
  cbn [np_unique_counts numpy_model].
  destruct (unique_counts_black (h * w) ltac:(nia)) as [d Ed].
  rewrite Ed. cbn [at_line rbind].
  eexists. reflexivity.
Qed.

Lemma texture_features_black (h w : nat) :
  (0 < h)%nat -> (0 < w)%nat ->
  exists tf,
    extract_texture_features (skimage := skimage_reference)
      (feature := feature_model) (black_frame h w) = Ok tf.
Proof.
  intros Hh Hw. unfold extract_texture_features.
  cbn [rgb2gray skimage_reference]. rewrite rgb2gray_black by assumption.
  cbn [at_line rbind]. rewrite !map_repeat.
  cbn [graycomatrix feature_model].
  assert (Ez : all_zero (repeat (repeat (astype_uint8 (zero_gray * 255)) w) h) = true).
  { apply forallb_repeat, forallb_repeat. reflexivity. }
  rewrite Ez. cbn [at_line rbind].
  unfold mean_prop. cbn [graycoprops feature_model at_line rbind String.eqb
                         Ascii.eqb Bool.eqb orb].
  eexists. reflexivity.
Qed.

Lemma orb_features_black (h w : nat) :
  exists po,
    extract_orb_features (config := config_example) (opencv := opencv_model)
      (hashlib := hashlib_reference) (black_frame h w) = Ok po.
Proof.
  unfold extract_orb_features. rewrite cvtColor_black_frame. cbn [at_line rbind].
  cbn [ORB_detectAndCompute opencv_model]. rewrite all_zero_repeat.
  cbn [at_line rbind]. eexists. reflexivity.
Qed.

Lemma pixel_statistics_black (h w : nat) :
  (0 < h)%nat -> (0 < w)%nat ->
  exists ps,
    extract_pixel_statistics (opencv := opencv_model) (numpy := numpy_model)
      (scipy := scipy_model) (black_frame h w) = Ok ps.
Proof.
  intros Hh Hw. unfold extract_pixel_statistics.
  rewrite flatten_black.
  destruct (h * w)%nat as [|n] eqn:E; [nia|].
  cbn [repeat List.concat app int_reduce at_line rbind].
  eexists. reflexivity.
Qed.

Lemma zeros_like_repeat {A B} (z : B) (x : A) (h w : nat) :
  zeros_like z (repeat (repeat x w) h) = repeat (repeat z w) h.
Proof. unfold zeros_like. rewrite !map_repeat. reflexivity. Qed.

Lemma edge_features_black (h w : nat) :
  (0 < h)%nat -> (0 < w)%nat ->
  exists ef,
    extract_edge_features (opencv := opencv_model) (numpy := numpy_model)
      (black_frame h w) = Ok ef.
Proof.
  intros Hh Hw. eexists.
  apply (extract_edge_features_value (opencv := opencv_model)
           (numpy := numpy_model) (black_frame h w)
           (repeat (repeat 0%Z w) h) (repeat (repeat 0%Z w) h)
           (repeat (repeat 0 w) h) (repeat (repeat 0 w) h)).
  - apply cvtColor_black_frame.
  - cbn [Canny opencv_model]. rewrite all_zero_repeat, zeros_like_repeat.
    reflexivity.
  - cbn [Sobel_CV_64F opencv_model]. rewrite all_zero_repeat, zeros_like_repeat.
    reflexivity.
  - cbn [Sobel_CV_64F opencv_model]. rewrite all_zero_repeat, zeros_like_repeat.
    reflexivity.
  - unfold array_size. rewrite concat_repeat_repeat, repeat_length. nia.
Qed.

Lemma frequency_features_black (h w : nat) :
  (0 < h)%nat -> (0 < w)%nat ->
  exists ff,
    extract_frequency_features (opencv := opencv_model) (numpy := numpy_model)
      (black_frame h w) = Ok ff.
Proof.
  intros Hh Hw. eexists.
  apply (extract_frequency_features_value (opencv := opencv_model)
           (numpy := numpy_model) (black_frame h w) (repeat (repeat 0%Z w) h)
           (zeros_like (inject_Z 0, 0) (repeat (repeat 0%Z w) h))).
  - apply cvtColor_black_frame.
  - cbn [np_fft_fft2 numpy_model]. rewrite impulse_value_zeros by assumption.
    reflexivity.
  - apply np_abs_model_nonneg.
Qed.

(** *** A scan that returns, and one that fails, with the models *)

Lemma stage_returns {A B} (fn : string) (line : nat) (r : result A) (a : A)
  (k : A -> M B) (n : nat) :
  r = Ok a -> mbind (lift (at_line fn line r)) k n = k a n.
Proof. intros ->. reflexivity. Qed.

Lemma hash_string_on_black (h : ImageHash) :
  hash_string (on_black (black_image 512 512) h) = Ok (ImageHash_str h).
Proof.
  unfold hash_string, on_black. cbn [im_data black_image].
  rewrite is_black_black_frame. reflexivity.
Qed.

Lemma extract_image_metadata_decoded (n : nat) :
  exists md,
    extract_image_metadata (config := config_example) (pillow := pillow_model)
      (skimage := skimage_reference) (imagehash := imagehash_model)
      (opencv := opencv_model) (numpy := numpy_model) (scipy := scipy_model)
      (feature := feature_model) (hashlib := hashlib_reference)
      (runtime := runtime_model) decoded_image n = (Ok md, S n).
Proof.
  destruct (color_features_black 512 512 ltac:(lia) ltac:(lia)) as [ca Eca].
  destruct (texture_features_black 512 512 ltac:(lia) ltac:(lia)) as [tf Etf].
  destruct (orb_features_black 512 512) as [po Epo].
  destruct (pixel_statistics_black 512 512 ltac:(lia) ltac:(lia)) as [ps Eps].
  destruct (edge_features_black 512 512 ltac:(lia) ltac:(lia)) as [ef Eef].
  destruct (frequency_features_black 512 512 ltac:(lia) ltac:(lia)) as [ff Eff].
  unfold extract_image_metadata.
  rewrite (stage_returns _ _ _ (black_image 512 512)) by reflexivity.
  cbn [im_size black_image im_format im_mode].
  rewrite (stage_returns _ _ _ (black_frame 512 512))
    by exact (pil_to_np_black_image 512 512).
  cbn [imagehash_phash imagehash_average_hash imagehash_dhash imagehash_whash
       imagehash_colorhash imagehash_model PHASH_SIZE config_example].
  change (16 <? 2)%Z with false. cbn iota.
  rewrite (stage_returns _ _ _ _ _ _ (hash_string_on_black _)).
  rewrite (stage_returns _ _ _ _ _ _ (hash_string_on_black _)).
  rewrite (stage_returns _ _ _ _ _ _ (hash_string_on_black _)).
  rewrite (stage_returns _ _ _ _ _ _ (hash_string_on_black _)).
  rewrite (stage_returns _ _ _ _ _ _ (hash_string_on_black _)).
  rewrite (stage_returns _ _ _ _ _ _ Eca).
  rewrite (stage_returns _ _ _ _ _ _ Etf).
  rewrite (stage_returns _ _ _ _ _ _ Epo).
  rewrite (stage_returns _ _ _ _ _ _ Eps).
  rewrite (stage_returns _ _ _ _ _ _ Eef).
  rewrite (stage_returns _ _ _ _ _ _ Eff).
  unfold mbind at 1. unfold utcnow at 1.
  rewrite (stage_returns _ _ _ (inject_Z 512 / inject_Z 512)) by reflexivity.
  unfold mret. eexists. reflexivity.
Qed.

(** The scan with every library replaced by its model. *)
Abbreviation model_scan :=
  (scan_design_for_blockchain (config := config_example) (pillow := pillow_model)
     (skimage := skimage_reference) (imagehash := imagehash_model)
     (opencv := opencv_model) (numpy := numpy_model) (scipy := scipy_model)
     (feature := feature_model) (hashlib := hashlib_reference)
     (runtime := runtime_model)).

(** A non-empty file is scanned: the clock is read at [n] (start), [n + 1]
    (the time stamp of the record) and [n + 2] (end). *)
Lemma model_scan_returns (b : Byte.byte) (bs : list Byte.byte) (n : nat) :
  exists s,
    model_scan (b :: bs) n = (Scanned s, S (S (S n))) /\
    scan_timestamp (ok_metadata s)
    = isoformat (Runtime := runtime_model)
        (utcnow_at (Runtime := runtime_model) (S n)) ++ "Z".
Proof.
  destruct (extract_image_metadata_decoded (S n)) as [md E].
  unfold scan_design_for_blockchain, scan_body, mbind, lift, mret.
  unfold load_image_bytes. cbn [Image_open pillow_model at_line].
  rewrite E. cbn [at_line].
  eexists. split; [reflexivity|]. cbn [ok_metadata].
  apply extract_image_metadata_ok in E. apply E.
Qed.

(** An empty file is not an image: the scan fails in [load_image_bytes]. *)
Lemma model_scan_empty_file (n : nat) :
  exists f,
    model_scan [] n = (Failed f, S (S n)) /\
    error_type f = "UnidentifiedImageError" /\
    failing_stage (traceback f) = Some "load_image_bytes" /\
    get_metadata (Failed f) = None.
Proof.
  eexists. split; [reflexivity|]. repeat split.
Qed.

(** C1, counterexample.  Two successive scans of the same one-byte file return
    metadata records that differ: the second carries a later
    [scan_timestamp]. *)
Lemma scan_timestamp_counterexample :
  exists s1 s2 n1 n2,
    model_scan [Byte.x00] 0 = (Scanned s1, n1) /\
    model_scan [Byte.x00] n1 = (Scanned s2, n2) /\
    scan_timestamp (ok_metadata s1) = "1700000000001000Z" /\
    scan_timestamp (ok_metadata s2) = "1700000000004000Z" /\
    ok_metadata s1 <> ok_metadata s2.
Proof.
  destruct (model_scan_returns Byte.x00 [] 0) as [s1 [E1 T1]].
  destruct (model_scan_returns Byte.x00 [] 3) as [s2 [E2 T2]].
  exists s1, s2, 3%nat, 6%nat.
  assert (H1 : scan_timestamp (ok_metadata s1) = "1700000000001000Z").
  { rewrite T1. vm_compute. reflexivity. }
  assert (H2 : scan_timestamp (ok_metadata s2) = "1700000000004000Z").
  { rewrite T2. vm_compute. reflexivity. }
  split; [exact E1|]. split; [exact E2|].
  split; [exact H1|]. split; [exact H2|].
  intro Heq. rewrite Heq, H2 in H1. discriminate H1.
Qed.

Lemma design_id_hashes_the_six_digests_witness :
  exists s,
    model_scan [Byte.x00] 0 = (Scanned s, 3%nat) /\
    let h := hashes (ok_metadata s) in
    ok_design_id s = design_fingerprint h /\
    design_fingerprint h =
    sha256_hexdigest (Hashlib := hashlib_reference)
      (list_byte_of_string
         (perceptual_hash h ++ average_hash h ++ difference_hash h
          ++ wavelet_hash h ++ color_hash h ++ sha256 h)).
Proof.
  destruct (model_scan_returns Byte.x00 [] 0) as [s [E _]].
  exists s. split; [exact E|].
  exact (design_id_hashes_the_six_digests (config := config_example)
           (pillow := pillow_model) (skimage := skimage_reference)
           (imagehash := imagehash_model) (opencv := opencv_model)
           (numpy := numpy_model) (scipy := scipy_model)
           (feature := feature_model) (hashlib := hashlib_reference)
           (runtime := runtime_model) [Byte.x00] 0 3 s E).
Defined.

(** ** Further properties of compare.py *)

Lemma shape_last_gray_stack (rows : list (list Z)) :
  shape_last (Color3 (map (map (fun v => [v; v; v]%Z)) rows)) <> 4%nat.
Proof.
  destruct rows as [|[|v r] rows]; cbn; discriminate.
Qed.

Lemma shape_last_drop_alpha (rows : list (list pixel)) :
  shape_last (Color3 rows) = 4%nat ->
  shape_last (Color3 (map (map (firstn 3)) rows)) = 3%nat.
Proof.
  destruct rows as [|[|p r] rows]; cbn [shape_last map]; try discriminate.
  intro H. rewrite length_firstn, H. reflexivity.
Qed.

(** X1.  [normalize_image_array] always returns a three-dimensional array that
    does not have four channels, leaves such an array as it is, and so
    changes nothing when applied a second time. *)
Theorem normalize_image_array_idempotent (img_np : ndarray) :
  ndim (normalize_image_array img_np) = 3%nat /\
  shape_last (normalize_image_array img_np) <> 4%nat /\
  (ndim img_np = 3%nat -> shape_last img_np <> 4%nat ->
   normalize_image_array img_np = img_np) /\
  (shape_last img_np = 4%nat -> ndim img_np = 3%nat ->
   shape_last (normalize_image_array img_np) = 3%nat) /\
  normalize_image_array (normalize_image_array img_np)
  = normalize_image_array img_np.
Proof.
  assert (Hfix : forall a, ndim a = 3%nat -> shape_last a <> 4%nat ->
                           normalize_image_array a = a).
  { intros [rows | rows] Hd Hs; [discriminate|].
    unfold normalize_image_array.
    apply Nat.eqb_neq in Hs. rewrite Hs. reflexivity. }
  assert (Hd : ndim (normalize_image_array img_np) = 3%nat).
  { destruct img_np as [rows | rows]; [reflexivity|].
    unfold normalize_image_array.
    destruct (Nat.eqb (shape_last (Color3 rows)) 4); reflexivity. }
  assert (Hs : shape_last (normalize_image_array img_np) <> 4%nat).
  { destruct img_np as [rows | rows].
    - apply shape_last_gray_stack.
    - unfold normalize_image_array.
      destruct (Nat.eqb (shape_last (Color3 rows)) 4) eqn:E.
      + apply Nat.eqb_eq in E. rewrite (shape_last_drop_alpha rows E).
        discriminate.
      + apply Nat.eqb_neq in E. exact E. }
  split; [exact Hd|]. split; [exact Hs|]. split; [apply Hfix|].
  split; [|apply Hfix; assumption].
  intros H4 H3. destruct img_np as [rows | rows]; [discriminate|].
  unfold normalize_image_array. rewrite H4. cbn [Nat.eqb].
  apply shape_last_drop_alpha. exact H4.
Qed.

Lemma count_differing_sym (a b : list bool) :
  count_differing a b = count_differing b a.
Proof.
  revert b. induction a as [|x a IH]; intros [|y b]; cbn; try reflexivity.
  rewrite IH. destruct x, y; reflexivity.
Qed.

Lemma ImageHash_sub_sym (h1 h2 : ImageHash) :
  ImageHash_sub h1 h2 = ImageHash_sub h2 h1.
Proof.
  unfold ImageHash_sub. rewrite Nat.eqb_sym, count_differing_sym. reflexivity.
Qed.

Section CompareRanges.
Context {config : Config} {pillow : Pillow} {skimage : Skimage}
        {hashes : ImageHashLib} {opencv : OpenCV}.

Lemma compute_phash_similarity_range (pil1 pil2 : PILImage) (p : pyfloat) :
  compute_phash_similarity pil1 pil2 = Ok p -> in_range 0 1 p.
Proof.
  unfold compute_phash_similarity. intro H.
  do 6 step_ok H. injection H as <-.
  apply np_clip_range; [lra | reflexivity].
Qed.

Lemma compute_orb_match_ratio_range (img1 img2 : ndarray) (o : pyfloat) :
  compute_orb_match_ratio img1 img2 = Ok o -> in_range 0 1 o.
Proof.
  unfold compute_orb_match_ratio. intro H.
  do 2 step_ok H.
  apply rbind_ok in H. destruct H as [[kp1 des1] [_ H]].
  apply rbind_ok in H. destruct H as [[kp2 des2] [_ H]].
  assert (Hz : in_range 0 1 (Fin 0)) by (exists 0; repeat split; lra).
  destruct des1 as [d1|]; [|injection H as <-; exact Hz].
  destruct des2 as [d2|]; [|injection H as <-; exact Hz].
  apply rbind_ok in H. destruct H as [matches [_ H]].
  destruct (Z.of_nat (List.length matches) =? 0)%Z;
    [injection H as <-; exact Hz|].
  apply rbind_ok in H. destruct H as [ratio [_ H]]. injection H as <-.
  apply np_clip_range; [lra | reflexivity].
Qed.

Lemma compute_ssim_range (img1 img2 : ndarray) (s : pyfloat) :
  compute_ssim img1 img2 = Ok s -> s = NaN \/ in_range (-1) 1 s.
Proof.
  unfold compute_ssim. intro H.
  do 7 step_ok H. injection H as <-.
  destruct (is_nan v5) eqn:E.
  - left. destruct v5; try discriminate. reflexivity.
  - right. apply np_clip_range; [lra | exact E].
Qed.

(** X2.  Whatever the two images, a comparison by perceptual hash that returns
    gives a number in [0, 1], and it gives the same number with the images
    exchanged; one order raises exactly when the other does. *)
Theorem phash_similarity_symmetric (pil1 pil2 : PILImage) :
  match compute_phash_similarity pil1 pil2,
        compute_phash_similarity pil2 pil1 with
  | Ok a, Ok b => a = b /\ in_range 0 1 a
  | Raise _, Raise _ => True
  | _, _ => False
  end.
Proof.
  destruct (compute_phash_similarity pil1 pil2) as [a | e] eqn:E.
  - pose proof (compute_phash_similarity_range _ _ _ E) as Hr.
    unfold compute_phash_similarity in *.
    do 6 step_ok E.
    rewrite Hv0, Hv. cbn [at_line rbind]. rewrite Hv2, Hv1. cbn [at_line rbind].
    rewrite ImageHash_sub_sym, Hv3. cbn [at_line rbind].
    rewrite Hv4. cbn [at_line rbind]. injection E as E.
    split; [symmetry; exact E | exact Hr].
  - destruct (compute_phash_similarity pil2 pil1) as [b | e'] eqn:E';
      [|exact I].
    unfold compute_phash_similarity in *.
    do 6 step_ok E'.
    rewrite Hv0, Hv in E. cbn [at_line rbind] in E.
    rewrite Hv2, Hv1 in E. cbn [at_line rbind] in E.
    rewrite ImageHash_sub_sym, Hv3 in E. cbn [at_line rbind] in E.
    rewrite Hv4 in E. cbn [at_line rbind] in E. discriminate E.
Qed.

Lemma combined_similarity_range (pil1 pil2 : PILImage) (np_size : Z * Z)
  (r : SimilarityResult) :
  combined_similarity pil1 pil2 np_size = Ok r ->
  in_range 0 1 (bd_phash (breakdown r)) /\
  in_range 0 1 (bd_orb (breakdown r)) /\
  (in_range 0 1 (score r) /\ in_range 0 1 (bd_ssim (breakdown r)) \/
   score r = NaN /\ bd_ssim (breakdown r) = NaN).
Proof.
  intro E.
  apply combined_similarity_ok in E.
  destruct E as (c1 & c2 & img1 & img2 & s & p & o &
                 _ & _ & _ & _ & Hs & Hp & Ho & Hscore & Hbd).
  apply compute_phash_similarity_range in Hp. destruct Hp as [qp [-> Hp]].
  apply compute_orb_match_ratio_range in Ho. destruct Ho as [qo [-> Ho]].
  rewrite Hscore, Hbd. cbn [bd_ssim bd_phash bd_orb].
  split; [apply np_clip_range; [lra | reflexivity]|].
  split; [apply np_clip_range; [lra | reflexivity]|].
  apply compute_ssim_range in Hs. destruct Hs as [-> | [qs [-> Hs]]].
  - right. split; reflexivity.
  - left. split; apply np_clip_range; try lra; reflexivity.
Qed.

(** X3.  A comparison that returns reports the perceptual and the keypoint
    entry in [0, 1]; the score and the structural entry are both in [0, 1]
    or both [nan], and they are [nan] exactly when [compute_ssim], called on
    the two resized arrays, returned [nan]. *)
Theorem combined_similarity_unit_or_nan (pil1 pil2 : PILImage)
  (np_size : Z * Z) :
  match combined_similarity pil1 pil2 np_size with
  | Ok r =>
      in_range 0 1 (bd_phash (breakdown r)) /\
      in_range 0 1 (bd_orb (breakdown r)) /\
      (in_range 0 1 (score r) /\ in_range 0 1 (bd_ssim (breakdown r)) \/
       score r = NaN /\ bd_ssim (breakdown r) = NaN) /\
      exists c1 c2 img1 img2 s,
        Image_convert pil1 "RGB" = Ok c1 /\
        Image_convert pil2 "RGB" = Ok c2 /\
        pil_to_np c1 (Some np_size) = Ok img1 /\
        pil_to_np c2 (Some np_size) = Ok img2 /\
        compute_ssim img1 img2 = Ok s /\
        (s = NaN <-> score r = NaN) /\
        (s = NaN <-> bd_ssim (breakdown r) = NaN) /\
        (s <> NaN ->
         in_range 0 1 (score r) /\ in_range 0 1 (bd_ssim (breakdown r)))
  | Raise _ => True
  end.
Proof.
  destruct (combined_similarity pil1 pil2 np_size) as [r | e] eqn:E;
    [|exact I].
  pose proof (combined_similarity_range _ _ _ _ E) as [Hp [Ho Hs]].
  split; [exact Hp|]. split; [exact Ho|]. split; [exact Hs|].
  apply combined_similarity_ok in E.
  destruct E as (c1 & c2 & img1 & img2 & s & p & o &
                 H1 & H2 & H3 & H4 & Hssim & Hphash & Horb & Hscore & Hbd).
  exists c1, c2, img1, img2, s.
  split; [exact H1|]. split; [exact H2|]. split; [exact H3|].
  split; [exact H4|]. split; [exact Hssim|].
  apply compute_phash_similarity_range in Hphash.
  destruct Hphash as [qp [-> _]].
  apply compute_orb_match_ratio_range in Horb.
  destruct Horb as [qo [-> _]].
  rewrite Hscore, Hbd. cbn [bd_ssim].
  apply compute_ssim_range in Hssim.
  destruct Hssim as [-> | [qs [-> Hqs]]].
  - split; [split; intro; reflexivity|].
    split; [split; intro; reflexivity|].
    intro Hne. exfalso. apply Hne. reflexivity.
  - assert (Hsc : in_range 0 1
                    (np_clip (fadd (fadd (fmul (Fin SSIM_WEIGHT) (Fin qs))
                                         (fmul (Fin PHASH_WEIGHT) (Fin qp)))
                                   (fmul (Fin ORB_WEIGHT) (Fin qo))) 0 1)).
    { apply np_clip_range; [lra | reflexivity]. }
    assert (Hbs : in_range 0 1 (np_clip (Fin qs) 0 1)).
    { apply np_clip_range; [lra | reflexivity]. }
    split.
    { split; intro H; [discriminate H|].
      destruct Hsc as [q [Hq _]]. rewrite H in Hq. discriminate Hq. }
    split.
    { split; intro H; [discriminate H|].
      destruct Hbs as [q [Hq _]]. rewrite H in Hq. discriminate Hq. }
    intros _. split; [exact Hsc | exact Hbs].
Qed.

End CompareRanges.

(** ** Further properties of utils.py *)

Lemma py_clamp_unit (x : Q) :
  0 <= py_max 0 (py_min x 1) /\ py_max 0 (py_min x 1) <= 1 /\
  (0 <= x -> x <= 1 -> py_max 0 (py_min x 1) == x).
Proof.
  unfold py_max, py_min.
  destruct (Qltb 1 x) eqn:E1.
  - apply Qltb_true in E1.
    destruct (Qltb 0 1) eqn:E2; [|apply Qltb_false in E2; lra].
    repeat split; lra.
  - apply Qltb_false in E1.
    destruct (Qltb 0 x) eqn:E2.
    + apply Qltb_true in E2. repeat split; lra.
    + apply Qltb_false in E2. repeat split; lra.
Qed.

Lemma Qsum_map_bounds {A} (f : A -> Q) (c : Q) (l : list A) :
  Forall (fun m => 0 <= f m /\ f m <= c) l ->
  0 <= Qsum (map f l) /\
  Qsum (map f l) <= c * inject_Z (Z.of_nat (List.length l)).
Proof.
  induction 1 as [|x l [Hx0 Hx1] _ [IH0 IH1]].
  - change (0 <= 0 /\ 0 <= c * 0). split; lra.
  - cbn [map List.length]. rewrite Qsum_cons, Nat2Z.inj_succ.
    unfold Z.succ. rewrite inject_Z_plus. change (inject_Z 1) with 1.
    split; lra.
Qed.

Section MatchOrbFeatures.
Context {opencv : OpenCV}.

(** X4.  [match_orb_features] returns 0.0 when a descriptor set is missing or
    the matcher finds no match; only the matcher can make it raise; what it
    returns lies in [0, 1], and when every distance lies in [0, 256] it is
    one minus the mean distance over 256, with no clamping. *)
Theorem match_orb_features_score (desc1 desc2 : option descriptors) :
  match match_orb_features desc1 desc2 with
  | Ok v =>
      0 <= v /\ v <= 1 /\
      (desc1 = None \/ desc2 = None -> v = 0) /\
      (forall d1 d2 matches,
          desc1 = Some d1 -> desc2 = Some d2 ->
          BFMatcher_match NORM_HAMMING true d1 d2 = Ok matches ->
          (matches = [] -> v = 0) /\
          (matches <> [] ->
           Forall (fun m => 0 <= distance m /\ distance m <= 256) matches ->
           v == 1 - Qsum (map distance matches)
                    / inject_Z (Z.of_nat (List.length matches) * 256)))
  | Raise e =>
      exists d1 d2 e0,
        desc1 = Some d1 /\ desc2 = Some d2 /\
        BFMatcher_match NORM_HAMMING true d1 d2 = Raise e0 /\
        e = push_frame "match_orb_features" 43 e0
  end.
Proof.
  unfold match_orb_features.
  destruct desc1 as [d1|];
    [|split; [lra|]; split; [lra|]; split; [reflexivity|];
      intros d1' d2' matches' H; discriminate H].
  destruct desc2 as [d2|];
    [|split; [lra|]; split; [lra|]; split; [reflexivity|];
      intros d1' d2' matches' _ H; discriminate H].
  destruct (BFMatcher_match NORM_HAMMING true d1 d2) as [matches | e0] eqn:Hm;
    cbn [at_line rbind].
  2:{ exists d1, d2, e0. repeat split. exact Hm. }
  destruct matches as [|m ms].
  - split; [lra|]. split; [lra|].
    split; [intros [H | H]; discriminate H|].
    intros d1' d2' matches' H1 H2 H3.
    injection H1 as <-. injection H2 as <-. rewrite Hm in H3.
    injection H3 as <-.
    split; [reflexivity | intro Hne; congruence].
  - set (matches := m :: ms).
    assert (Hlen : (0 < Z.of_nat (List.length (map distance matches)) * 256)%Z).
    { rewrite length_map. unfold matches. cbn [List.length]. clear. lia. }
    unfold float_truediv.
    destruct (Qeq_bool (inject_Z (Z.of_nat (List.length (map distance matches)) * 256)) 0)
      eqn:Ez.
    { apply Qeq_bool_iff in Ez.
      assert (Hpos : 0 < inject_Z (Z.of_nat (List.length (map distance matches))
                                   * 256)).
      { change 0 with (inject_Z 0). rewrite <- Zlt_Qlt. exact Hlen. }
      rewrite Ez in Hpos. exfalso. exact (Qlt_irrefl 0 Hpos). }
    cbn [at_line rbind].
    set (q := Qsum (map distance matches)
              / inject_Z (Z.of_nat (List.length (map distance matches)) * 256)).
    destruct (py_clamp_unit (1 - q)) as [H0 [H1 Hid]].
    split; [exact H0|]. split; [exact H1|].
    split; [intros [H | H]; discriminate|].
    intros d1' d2' matches' E1 E2 E3.
    injection E1 as <-. injection E2 as <-. rewrite Hm in E3.
    injection E3 as <-. fold matches.
    split; [intro H; discriminate|].
    intros _ Hall.
    destruct (Qsum_map_bounds distance 256 matches Hall) as [S0 S1].
    assert (Hq : 0 <= q /\ q <= 1).
    { unfold q. rewrite length_map.
      assert (Hpos : 0 < inject_Z (Z.of_nat (List.length matches) * 256)).
      { change 0 with (inject_Z 0). rewrite <- Zlt_Qlt.
        rewrite length_map in Hlen. exact Hlen. }
      rewrite inject_Z_mult in *. change (inject_Z 256) with 256 in *.
      split.
      - apply Qle_shift_div_l; [exact Hpos | lra].
      - apply Qle_shift_div_r; [exact Hpos | lra]. }
    rewrite Hid by lra. unfold q. rewrite length_map. reflexivity.
Qed.

End MatchOrbFeatures.

(** ** Further properties of scan.py *)

Lemma fold_left_min_spec (l : list Z) (x : Z) :
  In (fold_left Z.min l x) (x :: l) /\
  forall v, In v (x :: l) -> (fold_left Z.min l x <= v)%Z.
Proof.
  revert x. induction l as [|y l IH]; intro x; cbn [fold_left].
  - split; [left; reflexivity|]. intros v [<- | []]. lia.
  - destruct (IH (Z.min x y)) as [Hin Hle]. split.
    + destruct Hin as [Hin | Hin].
      * destruct (Z.min_spec x y) as [[_ E] | [_ E]].
        -- left. rewrite <- Hin. symmetry. exact E.
        -- right. left. rewrite <- Hin. symmetry. exact E.
      * right. right. exact Hin.
    + intros v [<- | [<- | Hv]].
      * specialize (Hle (Z.min x y) (or_introl eq_refl)). lia.
      * specialize (Hle (Z.min x y) (or_introl eq_refl)). lia.
      * apply Hle. right. exact Hv.
Qed.

Lemma fold_left_max_spec (l : list Z) (x : Z) :
  In (fold_left Z.max l x) (x :: l) /\
  forall v, In v (x :: l) -> (v <= fold_left Z.max l x)%Z.
Proof.
  revert x. induction l as [|y l IH]; intro x; cbn [fold_left].
  - split; [left; reflexivity|]. intros v [<- | []]. lia.
  - destruct (IH (Z.max x y)) as [Hin Hle]. split.
    + destruct Hin as [Hin | Hin].
      * destruct (Z.max_spec x y) as [[_ E] | [_ E]].
        -- right. left. rewrite <- Hin. symmetry. exact E.
        -- left. rewrite <- Hin. symmetry. exact E.
      * right. right. exact Hin.
    + intros v [<- | [<- | Hv]].
      * specialize (Hle (Z.max x y) (or_introl eq_refl)). lia.
      * specialize (Hle (Z.max x y) (or_introl eq_refl)). lia.
      * apply Hle. right. exact Hv.
Qed.

Section PixelStatistics.
Context {opencv : OpenCV} {numpy : NumPy} {scipy : SciPy}.

(** X5.  On an array without elements [extract_pixel_statistics] raises the
    [ValueError] of [np.min]; on any other array the reported minimum and
    maximum are values of the array that bound all its values, and the
    dynamic range is their difference, which is not negative. *)
Theorem pixel_statistics_extremes (img_np : ndarray) :
  match extract_pixel_statistics img_np with
  | Ok ps =>
      In (min_pixel_value ps) (flatten_array img_np) /\
      In (max_pixel_value ps) (flatten_array img_np) /\
      (forall v, In v (flatten_array img_np) ->
                 (min_pixel_value ps <= v <= max_pixel_value ps)%Z) /\
      dynamic_range ps = (max_pixel_value ps - min_pixel_value ps)%Z /\
      (0 <= dynamic_range ps)%Z
  | Raise e =>
      flatten_array img_np = [] /\
      exn_type e = "ValueError" /\
      exn_tb e = [("extract_pixel_statistics", 269%nat)]
  end.
Proof.
  unfold extract_pixel_statistics.
  destruct (flatten_array img_np) as [|x l] eqn:E.
  - cbn. repeat split.
  - cbn [int_reduce at_line rbind min_pixel_value max_pixel_value dynamic_range].
    destruct (fold_left_min_spec l x) as [Hmin Hmin_le].
    destruct (fold_left_max_spec l x) as [Hmax Hmax_le].
    split; [exact Hmin|]. split; [exact Hmax|].
    split; [intros v Hv; split; [apply Hmin_le | apply Hmax_le]; exact Hv|].
    split; [reflexivity|].
    specialize (Hmin_le x (or_introl eq_refl)).
    specialize (Hmax_le x (or_introl eq_refl)). lia.
Qed.

End PixelStatistics.

Lemma gray_size_nonneg (gray : gray8) : (0 <= gray_size gray)%Z.
Proof. unfold gray_size. lia. Qed.

Section OrbFeatures.
Context {config : Config} {opencv : OpenCV} {hashlib : Hashlib}.

(** X6.  What [extract_orb_features] reports of the keypoints ORB returns: their
    number, the positions of the first fifty of them, a density that is not
    negative, and a descriptor digest exactly when there are keypoints and
    descriptors; without keypoints the density is 0 and there is no
    digest. *)
Theorem orb_features_of_keypoints (img_np : ndarray) :
  match extract_orb_features img_np with
  | Ok f =>
      exists gray keypoints descs,
        cvtColor_RGB2GRAY img_np = Ok gray /\
        ORB_detectAndCompute ORB_MAX_FEATURES gray = Ok (keypoints, descs) /\
        total_keypoints f = Z.of_nat (List.length keypoints) /\
        keypoint_positions f
        = map (fun kp => (kp_x kp, kp_y kp)) (firstn 50 keypoints) /\
        List.length (keypoint_positions f)
        = Nat.min 50 (List.length keypoints) /\
        0 <= keypoint_density f /\
        (keypoints = [] ->
         keypoint_density f = 0 /\ feature_descriptor_hash f = None) /\
        (feature_descriptor_hash f = None <-> keypoints = [] \/ descs = None)
  | Raise _ => True
  end.
Proof.
  destruct (extract_orb_features img_np) as [f | e] eqn:E; [|exact I].
  unfold extract_orb_features in E.
  apply rbind_ok in E. destruct E as [gray [Hg E]]. apply at_line_ok in Hg.
  apply rbind_ok in E. destruct E as [[keypoints descs] [Ho E]].
  apply at_line_ok in Ho.
  exists gray, keypoints, descs.
  split; [exact Hg|]. split; [exact Ho|].
  destruct (Z.of_nat (List.length keypoints) =? 0)%Z eqn:Ez.
  - apply Z.eqb_eq in Ez.
    assert (Hk : keypoints = []) by (destruct keypoints; [reflexivity | cbn in Ez; lia]).
    subst keypoints. injection E as <-.
    cbn [total_keypoints keypoint_positions keypoint_density
         feature_descriptor_hash List.length firstn map Nat.min].
    split; [reflexivity|]. split; [reflexivity|]. split; [reflexivity|].
    split; [lra|]. split; [intros _; split; reflexivity|].
    split; [intros _; left; reflexivity | reflexivity].
  - apply Z.eqb_neq in Ez.
    remember (firstn 50 keypoints) as first eqn:Hf.
    apply rbind_ok in E. destruct E as [d [Hd E]]. apply at_line_ok in Hd.
    injection E as <-.
    cbn [total_keypoints keypoint_positions keypoint_density
         feature_descriptor_hash].
    split; [reflexivity|]. split; [rewrite Hf; reflexivity|].
    split; [rewrite length_map, Hf, length_firstn; reflexivity|].
    split.
    + apply py_round_2_nonneg.
      unfold py_truediv in Hd.
      destruct (gray_size gray =? 0)%Z eqn:Es; [discriminate|].
      apply Z.eqb_neq in Es. injection Hd as <-.
      pose proof (gray_size_nonneg gray) as Hn.
      assert (Hpos : 0 < inject_Z (gray_size gray)).
      { change 0 with (inject_Z 0). rewrite <- Zlt_Qlt. lia. }
      assert (Hk : 0 <= inject_Z (Z.of_nat (List.length keypoints))).
      { change 0 with (inject_Z 0). rewrite <- Zle_Qle. lia. }
      assert (Hq : 0 <= inject_Z (Z.of_nat (List.length keypoints))
                        / inject_Z (gray_size gray)).
      { apply Qle_shift_div_l; [exact Hpos | lra]. }
      revert Hq.
      generalize (inject_Z (Z.of_nat (List.length keypoints))
                  / inject_Z (gray_size gray)).
      intros q Hq. lra.
    + split.
      * intros ->. cbn in Ez. lia.
      * destruct descs as [des|]; split.
        -- intro H. discriminate H.
        -- intros [-> | H]; [cbn in Ez; lia | discriminate H].
        -- intros _. right. reflexivity.
        -- intros _. reflexivity.
Qed.

End OrbFeatures.

Section ImageInfo.
Context {config : Config} {pillow : Pillow} {skimage : Skimage}
        {imagehash : ImageHashLib} {opencv : OpenCV}
        {numpy : NumPy} {scipy : SciPy} {feature : SkimageFeature}
        {hashlib : Hashlib} {runtime : Runtime} {json : Json}.

(** What a returned record holds about the image and its content hash. *)
Lemma extract_image_metadata_info (pil_img : PILImage) (n n' : nat)
  (md : FeatureMetadata) :
  extract_image_metadata pil_img n = (Ok md, n') ->
  exists c img_np,
    Image_convert pil_img "RGB" = Ok c /\
    pil_to_np c (Some (512, 512)%Z) = Ok img_np /\
    width (image_info md) = fst (im_size c) /\
    height (image_info md) = snd (im_size c) /\
    height (image_info md) <> 0%Z /\
    total_pixels (image_info md) = (fst (im_size c) * snd (im_size c))%Z /\
    aspect_ratio (image_info md)
    = py_round (inject_Z (fst (im_size c)) / inject_Z (snd (im_size c))) 2 /\
    mode (image_info md) = im_mode c /\
    format (image_info md)
    = match im_format c with
      | Some f => if String.eqb f "" then "UNKNOWN" else f
      | None => "UNKNOWN"
      end /\
    sha256 (hashes md) = sha256_hexdigest (tobytes (flatten_array img_np)).
Proof.
  unfold extract_image_metadata. intro H.
  stage_ok H. destruct (im_size v) as [w h] eqn:Es.
  stage_ok H. rename E0 into Enp.
  do 11 stage_ok H.
  unfold mbind at 1 in H. unfold utcnow at 1 in H.
  stage_ok H.
  unfold mret in H. injection H as <- <-.
  apply at_line_ok in E. apply at_line_ok in Enp.
  exists v, v0. rewrite Es.
  cbn [image_info hashes width height total_pixels aspect_ratio mode format
       sha256 fst snd].
  split; [exact E|]. split; [exact Enp|].
  split; [reflexivity|]. split; [reflexivity|].
  split.
  { match goal with
    | Hd : at_line _ _ (py_truediv w h) = Ok _ |- _ =>
        apply at_line_ok in Hd; unfold py_truediv in Hd;
        destruct (h =? 0)%Z eqn:Eh; [discriminate Hd|];
        apply Z.eqb_neq in Eh; exact Eh
    end. }
  split; [reflexivity|].
  split.
  { match goal with
    | Hd : at_line _ _ (py_truediv w h) = Ok _ |- _ =>
        apply at_line_ok in Hd; unfold py_truediv in Hd;
        destruct (h =? 0)%Z; [discriminate Hd|];
        injection Hd as <-; reflexivity
    end. }
  repeat split.
Qed.


(** X8.  The content hash of a record is the SHA-256 digest of the bytes of the
    resized 512x512 array, which is what [compute_sha256_of_normalized]
    returns for that array without metadata; an empty metadata dictionary
    counts as none. *)
Theorem content_hash_of_resized_pixels (pil_img : PILImage) (n : nat) :
  match extract_image_metadata pil_img n with
  | (Ok md, _) =>
      exists c img_np,
        Image_convert pil_img "RGB" = Ok c /\
        pil_to_np c (Some (512, 512)%Z) = Ok img_np /\
        sha256 (hashes md) = compute_sha256_of_normalized img_np None /\
        compute_sha256_of_normalized img_np (Some [])
        = compute_sha256_of_normalized img_np None
  | (Raise _, _) => True
  end.
Proof.
  destruct (extract_image_metadata pil_img n) as [[md | e] n'] eqn:H;
    [|exact I].
  apply extract_image_metadata_info in H.
  destruct H as (c & img_np & Hc & Hnp & _ & _ & _ & _ & _ & _ & _ & Hs).
  exists c, img_np. split; [exact Hc|]. split; [exact Hnp|].
  unfold compute_sha256_of_normalized. rewrite app_nil_r.
  split; [exact Hs | reflexivity].
Qed.

End ImageInfo.



(** ** Properties of main.py *)

Lemma length_zero_nil {A} (l : list A) :
  (Z.of_nat (List.length l) =? 0)%Z = true <-> l = [].
Proof.
  destruct l as [|x l]; cbn [List.length]; split; intro H;
    try reflexivity; discriminate H.
Qed.

Section ScanEndpoint.
Context {config : Config} {pillow : Pillow} {skimage : Skimage}
        {imagehash : ImageHashLib} {opencv : OpenCV}
        {numpy : NumPy} {scipy : SciPy} {feature : SkimageFeature}
        {hashlib : Hashlib} {runtime : Runtime}.

(** X9.  The error responses of [/scan].  Status 400 is given to an upload whose
    content type is missing, empty or not "image/..." and to an empty file,
    in both cases without running the scanner (the clock is not read).
    Status 500 is given when reading the upload raises ("UnexpectedError")
    and when the scanner reports a failure: then its exception type, its
    message and its traceback are passed on, so that a file that is not an
    image is answered with 500, not 400.  Nothing else gives an error
    response. *)
Theorem scan_design_error_responses (design : UploadFile) (n : nat) :
  match scan_design design n with
  | (JSONResponse status_code body, n') =>
      (status_code = 400%Z /\ n' = n /\ err_traceback body = None /\
       (is_image_upload design = false /\ err_error body = "InvalidFileType" \/
        is_image_upload design = true /\ upload_read design = Ok [] /\
        err_error body = "EmptyFile")) \/
      (status_code = 500%Z /\ n' = n /\ is_image_upload design = true /\
       err_error body = "UnexpectedError" /\
       exists e, upload_read design = Raise e /\
                 err_message body
                 = "Unexpected error during scan: " ++ exn_message e) \/
      (status_code = 500%Z /\ is_image_upload design = true /\
       exists image_bytes f,
         upload_read design = Ok image_bytes /\ image_bytes <> [] /\
         scan_design_for_blockchain image_bytes n = (Failed f, n') /\
         err_error body = error_type f /\
         err_message body = error_message f /\
         err_traceback body = Some (traceback f))
  | (Returned body, n') =>
      is_image_upload design = true /\
      exists image_bytes s,
        upload_read design = Ok image_bytes /\ image_bytes <> [] /\
        scan_design_for_blockchain image_bytes n = (Scanned s, n')
  end.
Proof.
  unfold scan_design.
  destruct (is_image_upload design) eqn:Ei; cbn [negb].
  2:{ left. repeat split. left. split; reflexivity. }
  destruct (upload_read design) as [image_bytes | e] eqn:Er; cbn [at_line].
  2:{ right. left. repeat split. exists e. split; reflexivity. }
  destruct (Z.of_nat (List.length image_bytes) =? 0)%Z eqn:El.
  { apply length_zero_nil in El. subst image_bytes.
    left. repeat split. right. repeat split. }
  assert (Hne : image_bytes <> []).
  { intro Hnil. apply length_zero_nil in Hnil. congruence. }
  destruct (scan_design_for_blockchain image_bytes n) as [[s | f] n'] eqn:Es.
  - split; [reflexivity|]. exists image_bytes, s.
    split; [reflexivity|]. split; [exact Hne | exact Es].
  - right. right. split; [reflexivity|]. split; [reflexivity|].
    exists image_bytes, f.
    split; [reflexivity|]. split; [exact Hne|]. split; [exact Es|].
    repeat split.
Qed.

(** X10.  A successful [/scan] response carries the design identifier twice and
    the duration twice, with equal values; the identifier is the fingerprint
    of the metadata sent with it, the SHA-256 digest of its six hash strings
    joined in order. *)
Theorem scan_design_success_response (design : UploadFile) (n : nat) :
  match scan_design design n with
  | (Returned body, _) =>
      let h := hashes (sc_metadata body) in
      sc_designId body = sc_design_id body /\
      sc_scanDuration body = sc_scan_duration body /\
      sc_design_id body = design_fingerprint h /\
      sc_design_id body =
      sha256_hexdigest
        (list_byte_of_string
           (perceptual_hash h ++ average_hash h ++ difference_hash h
            ++ wavelet_hash h ++ color_hash h ++ sha256 h))
  | (JSONResponse _ _, _) => True
  end.
Proof.
  unfold scan_design.
  destruct (negb (is_image_upload design)); [exact I|].
  destruct (at_line "scan_design" 93 (upload_read design))
    as [image_bytes | e]; [|exact I].
  destruct (Z.of_nat (List.length image_bytes) =? 0)%Z; [exact I|].
  destruct (scan_design_for_blockchain image_bytes n) as [[s | f] n'] eqn:Es;
    [|exact I].
  cbn [sc_designId sc_design_id sc_scanDuration sc_scan_duration sc_metadata].
  unfold scan_design_for_blockchain in Es.
  destruct (scan_body image_bytes (S n)) as [[[design_id md] | e] k] eqn:E;
    [|discriminate Es].
  injection Es as <- _. cbn [ok_design_id ok_metadata].
  apply scan_body_ok in E. destruct E as [pil_img [_ [E ->]]].
  apply extract_image_metadata_ok in E. destruct E as [_ [_ E]].
  split; [reflexivity|]. split; [reflexivity|]. split; [reflexivity|].
  rewrite E. apply create_design_fingerprint_six.
Qed.

End ScanEndpoint.

Section CompareEndpoint.
Context {config : Config} {api : ApiConfig} {pillow : Pillow}
        {skimage : Skimage} {imagehash : ImageHashLib} {opencv : OpenCV}.

(** What a [/compare] call that gets as far as the comparison returns. *)
Lemma compare_designs_returned (original suspect : UploadFile)
  (b1 b2 : list Byte.byte) (pil1 pil2 : PILImage) (r : SimilarityResult) :
  is_image_upload original = true -> is_image_upload suspect = true ->
  upload_read original = Ok b1 -> upload_read suspect = Ok b2 ->
  b1 <> [] -> b2 <> [] ->
  load_image_bytes b1 = Ok pil1 -> load_image_bytes b2 = Ok pil2 ->
  combined_similarity pil1 pil2 default_np_size = Ok r ->
  compare_designs original suspect
  = Returned
      {| cc_similarity_score := py_round_f (score r) 4;
         cc_similarityScore := py_round_f (score r) 4;
         cc_is_plagiarism := fleb (Fin SIMILARITY_THRESHOLD) (score r);
         cc_isPlagiarism := fleb (Fin SIMILARITY_THRESHOLD) (score r);
         cc_breakdown := breakdown r;
         cc_threshold := SIMILARITY_THRESHOLD;
         cc_message :=
           if fleb (Fin SIMILARITY_THRESHOLD) (score r)
           then "Plagiarism detected" else "No plagiarism detected" |}.
Proof.
  intros Hi1 Hi2 Hr1 Hr2 Hn1 Hn2 Hl1 Hl2 Hc.
  unfold compare_designs. rewrite Hi1, Hi2. cbn [negb].
  rewrite Hr1, Hr2. cbn [at_line rbind].
  destruct (Z.of_nat (List.length b1) =? 0)%Z eqn:E1.
  { apply length_zero_nil in E1. contradiction. }
  destruct (Z.of_nat (List.length b2) =? 0)%Z eqn:E2.
  { apply length_zero_nil in E2. contradiction. }
  cbn [orb]. rewrite Hl1, Hl2. cbn [at_line rbind].
  rewrite Hc. reflexivity.
Qed.

(** What a successful [/compare] response says. *)
Lemma compare_designs_returned_inv (original suspect : UploadFile)
  (body : CompareContent) :
  compare_designs original suspect = Returned body ->
  exists b1 b2 pil1 pil2 r,
    is_image_upload original = true /\ is_image_upload suspect = true /\
    upload_read original = Ok b1 /\ upload_read suspect = Ok b2 /\
    b1 <> [] /\ b2 <> [] /\
    load_image_bytes b1 = Ok pil1 /\ load_image_bytes b2 = Ok pil2 /\
    combined_similarity pil1 pil2 default_np_size = Ok r /\
    body = {| cc_similarity_score := py_round_f (score r) 4;
              cc_similarityScore := py_round_f (score r) 4;
              cc_is_plagiarism := fleb (Fin SIMILARITY_THRESHOLD) (score r);
              cc_isPlagiarism := fleb (Fin SIMILARITY_THRESHOLD) (score r);
              cc_breakdown := breakdown r;
              cc_threshold := SIMILARITY_THRESHOLD;
              cc_message :=
                if fleb (Fin SIMILARITY_THRESHOLD) (score r)
                then "Plagiarism detected" else "No plagiarism detected" |}.
Proof.
  unfold compare_designs. intro H.
  destruct (is_image_upload original) eqn:Hi1; cbn [negb] in H;
    [|discriminate H].
  destruct (is_image_upload suspect) eqn:Hi2; cbn [negb] in H;
    [|discriminate H].
  destruct (upload_read original) as [b1 | e1] eqn:Hr1;
    cbn [at_line rbind] in H; [|discriminate H].
  destruct (upload_read suspect) as [b2 | e2] eqn:Hr2;
    cbn [at_line rbind] in H; [|discriminate H].
  destruct (Z.of_nat (List.length b1) =? 0)%Z eqn:E1;
    cbn [orb] in H; [discriminate H|].
  destruct (Z.of_nat (List.length b2) =? 0)%Z eqn:E2;
    [discriminate H|].
  destruct (load_image_bytes b1) as [pil1 | e1] eqn:Hl1;
    cbn [at_line rbind] in H; [|discriminate H].
  destruct (load_image_bytes b2) as [pil2 | e2] eqn:Hl2;
    cbn [at_line rbind] in H; [|discriminate H].
  destruct (combined_similarity pil1 pil2 default_np_size) as [r | e] eqn:Hc;
    cbn [at_line rbind] in H; [|discriminate H].
  injection H as <-.
  assert (Hn1 : b1 <> []).
  { intro Hnil. apply length_zero_nil in Hnil. congruence. }
  assert (Hn2 : b2 <> []).
  { intro Hnil. apply length_zero_nil in Hnil. congruence. }
  exists b1, b2, pil1, pil2, r.
  split; [reflexivity|]. split; [reflexivity|]. split; [reflexivity|].
  split; [reflexivity|]. split; [exact Hn1|]. split; [exact Hn2|].
  split; [exact Hl1|]. split; [exact Hl2|]. split; [exact Hc | reflexivity].
Qed.

(** X11.  The verdict of [/compare]: both spellings of the flag and of the score
    agree; the message is "Plagiarism detected" exactly when the flag is
    set; the reported score is [nan] or lies in [0, 1]; the flag is set
    exactly when the score of the comparison, before it is rounded to four
    decimals for the response, is a number that reaches the threshold, so
    that a score that is [nan] is reported as no plagiarism. *)
Theorem compare_designs_verdict (original suspect : UploadFile) :
  match compare_designs original suspect with
  | Returned body =>
      cc_isPlagiarism body = cc_is_plagiarism body /\
      cc_similarityScore body = cc_similarity_score body /\
      cc_threshold body = SIMILARITY_THRESHOLD /\
      (cc_message body = "Plagiarism detected" <->
       cc_is_plagiarism body = true) /\
      (cc_message body = "No plagiarism detected" <->
       cc_is_plagiarism body = false) /\
      exists b1 b2 pil1 pil2 r,
        upload_read original = Ok b1 /\ upload_read suspect = Ok b2 /\
        load_image_bytes b1 = Ok pil1 /\ load_image_bytes b2 = Ok pil2 /\
        combined_similarity pil1 pil2 default_np_size = Ok r /\
        cc_breakdown body = breakdown r /\
        cc_similarity_score body = py_round_f (score r) 4 /\
        (cc_is_plagiarism body = true <->
         exists q, score r = Fin q /\ SIMILARITY_THRESHOLD <= q) /\
        (score r = NaN ->
         cc_is_plagiarism body = false /\ cc_similarity_score body = NaN) /\
        (cc_similarity_score body = NaN \/
         in_range 0 1 (cc_similarity_score body))
  | JSONResponse _ _ => True
  end.
Proof.
  destruct (compare_designs original suspect) as [code err | body] eqn:H;
    [exact I|].
  apply compare_designs_returned_inv in H.
  destruct H as (b1 & b2 & pil1 & pil2 & r & _ & _ & Hr1 & Hr2 & _ & _ &
                 Hl1 & Hl2 & Hc & ->).
  cbn [cc_isPlagiarism cc_is_plagiarism cc_similarityScore cc_similarity_score
       cc_threshold cc_message cc_breakdown].
  split; [reflexivity|]. split; [reflexivity|]. split; [reflexivity|].
  split.
  { destruct (fleb (Fin SIMILARITY_THRESHOLD) (score r)); split; intro H;
      try reflexivity; discriminate H. }
  split.
  { destruct (fleb (Fin SIMILARITY_THRESHOLD) (score r)); split; intro H;
      try reflexivity; discriminate H. }
  exists b1, b2, pil1, pil2, r.
  split; [exact Hr1|]. split; [exact Hr2|]. split; [exact Hl1|].
  split; [exact Hl2|]. split; [exact Hc|]. split; [reflexivity|].
  split; [reflexivity|].
  pose proof (combined_similarity_range _ _ _ _ Hc) as [_ [_ Hs]].
  split.
  { destruct Hs as [[[q [-> Hq]] _] | [-> _]].
    - cbn [fleb]. split.
      + intro H. exists q. split; [reflexivity|]. apply Qle_bool_iff. exact H.
      + intros [q' [Hq' Hle]]. injection Hq' as <-.
        apply Qle_bool_iff. exact Hle.
    - cbn [fleb]. split; [intro H; discriminate H|].
      intros [q [Hq _]]. discriminate Hq. }
  split.
  { intros ->. split; reflexivity. }
  destruct Hs as [[[q [-> [Hq0 Hq1]]] _] | [-> _]].
  - right. cbn [py_round_f]. exists (py_round q 4). split; [reflexivity|].
    unfold py_round. change (inject_Z (10 ^ Z.of_nat 4)) with 10000.
    destruct (round_half_even_bounds (q * 10000) 0 10000) as [L U].
    + change (inject_Z 0) with 0. lra.
    + change (inject_Z 10000) with 10000. lra.
    + assert (L' : 0 <= inject_Z (round_half_even (q * 10000))).
      { change 0 with (inject_Z 0). rewrite <- Zle_Qle. exact L. }
      assert (U' : inject_Z (round_half_even (q * 10000)) <= 10000).
      { change 10000 with (inject_Z 10000). rewrite <- Zle_Qle. exact U. }
      unfold Qdiv. change (/ 10000) with (1 # 10000).
      split; lra.
  - left. reflexivity.
Qed.

(** X12.  The error responses of [/compare]: status 400 for an upload that is not
    an image (the original checked first) and for an empty file, and status
    500 with "ComparisonError" and the text of the exception when reading,
    decoding or comparing raises. *)
Theorem compare_designs_error_responses (original suspect : UploadFile) :
  match compare_designs original suspect with
  | JSONResponse status_code body =>
      err_traceback body = None /\
      ((status_code = 400%Z /\ err_error body = "InvalidFileType" /\
        (is_image_upload original = false /\
         err_message body = "Original file must be an image" \/
         is_image_upload original = true /\
         is_image_upload suspect = false /\
         err_message body = "Suspect file must be an image")) \/
       (status_code = 400%Z /\ err_error body = "EmptyFile" /\
        is_image_upload original = true /\ is_image_upload suspect = true /\
        exists b1 b2,
          upload_read original = Ok b1 /\ upload_read suspect = Ok b2 /\
          (b1 = [] \/ b2 = [])) \/
       (status_code = 500%Z /\ err_error body = "ComparisonError" /\
        is_image_upload original = true /\ is_image_upload suspect = true /\
        exists e, err_message body = "Comparison failed: " ++ exn_message e /\
          (upload_read original = Raise e \/
           exists b1, upload_read original = Ok b1 /\
             (upload_read suspect = Raise e \/
              exists b2, upload_read suspect = Ok b2 /\
                b1 <> [] /\ b2 <> [] /\
                (load_image_bytes b1 = Raise e \/
                 exists pil1, load_image_bytes b1 = Ok pil1 /\
                   (load_image_bytes b2 = Raise e \/
                    exists pil2, load_image_bytes b2 = Ok pil2 /\
                      combined_similarity pil1 pil2 default_np_size
                      = Raise e))))))
  | Returned _ => True
  end.
Proof.
  unfold compare_designs.
  destruct (is_image_upload original) eqn:Hi1; cbn [negb].
  2:{ split; [reflexivity|]. left.
      split; [reflexivity|]. split; [reflexivity|]. left.
      split; reflexivity. }
  destruct (is_image_upload suspect) eqn:Hi2; cbn [negb].
  2:{ split; [reflexivity|]. left.
      split; [reflexivity|]. split; [reflexivity|]. right.
      split; [reflexivity|]. split; reflexivity. }
  destruct (upload_read original) as [b1 | e1] eqn:Hr1; cbn [at_line rbind].
  2:{ split; [reflexivity|]. right. right.
      split; [reflexivity|]. split; [reflexivity|].
      split; [reflexivity|]. split; [reflexivity|].
      exists e1. split; [reflexivity|]. left. reflexivity. }
  destruct (upload_read suspect) as [b2 | e2] eqn:Hr2; cbn [at_line rbind].
  2:{ split; [reflexivity|]. right. right.
      split; [reflexivity|]. split; [reflexivity|].
      split; [reflexivity|]. split; [reflexivity|].
      exists e2. split; [reflexivity|]. right. exists b1.
      split; [reflexivity|]. left. reflexivity. }
  destruct (Z.of_nat (List.length b1) =? 0)%Z eqn:E1; cbn [orb].
  { apply length_zero_nil in E1.
    split; [reflexivity|]. right. left.
    split; [reflexivity|]. split; [reflexivity|].
    split; [reflexivity|]. split; [reflexivity|].
    exists b1, b2. split; [reflexivity|]. split; [reflexivity|].
    left. exact E1. }
  destruct (Z.of_nat (List.length b2) =? 0)%Z eqn:E2.
  { apply length_zero_nil in E2.
    split; [reflexivity|]. right. left.
    split; [reflexivity|]. split; [reflexivity|].
    split; [reflexivity|]. split; [reflexivity|].
    exists b1, b2. split; [reflexivity|]. split; [reflexivity|].
    right. exact E2. }
  assert (Hn1 : b1 <> []).
  { intro Hnil. apply length_zero_nil in Hnil. congruence. }
  assert (Hn2 : b2 <> []).
  { intro Hnil. apply length_zero_nil in Hnil. congruence. }
  destruct (load_image_bytes b1) as [pil1 | e1] eqn:Hl1; cbn [at_line rbind].
  2:{ split; [reflexivity|]. right. right.
      split; [reflexivity|]. split; [reflexivity|].
      split; [reflexivity|]. split; [reflexivity|].
      exists e1. split; [reflexivity|]. right. exists b1.
      split; [reflexivity|]. right. exists b2.
      split; [reflexivity|]. split; [exact Hn1|]. split; [exact Hn2|].
      left. exact Hl1. }
  destruct (load_image_bytes b2) as [pil2 | e2] eqn:Hl2; cbn [at_line rbind].
  2:{ split; [reflexivity|]. right. right.
      split; [reflexivity|]. split; [reflexivity|].
      split; [reflexivity|]. split; [reflexivity|].
      exists e2. split; [reflexivity|]. right. exists b1.
      split; [reflexivity|]. right. exists b2.
      split; [reflexivity|]. split; [exact Hn1|]. split; [exact Hn2|].
      right. exists pil1. split; [exact Hl1|]. left. exact Hl2. }
  destruct (combined_similarity pil1 pil2 default_np_size) as [r | e] eqn:Hc;
    cbn [at_line rbind]; [exact I|].
  split; [reflexivity|]. right. right.
  split; [reflexivity|]. split; [reflexivity|].
  split; [reflexivity|]. split; [reflexivity|].
  exists e. split; [reflexivity|].
  right. exists b1. split; [reflexivity|]. right. exists b2.
  split; [reflexivity|]. split; [exact Hn1|]. split; [exact Hn2|].
  right. exists pil1. split; [exact Hl1|]. right. exists pil2.
  split; [exact Hl2 | exact Hc].
Qed.

End CompareEndpoint.

(** *** The low-frequency block of a small spectrum *)

Lemma py_slice_wraps {A} (l : list A) :
  (20 < List.length l < 40)%nat ->
  py_slice (Z.of_nat (List.length l) / 2 - 20) (Z.of_nat (List.length l) / 2 + 20) l
  = skipn (List.length l + List.length l / 2 - 20) l.
Proof.
  intro H. unfold py_slice, slice_bound.
  assert (Hd : (Z.of_nat (List.length l) / 2)%Z = Z.of_nat (List.length l / 2)).
  { rewrite Nat2Z.inj_div. reflexivity. }
  rewrite Hd.
  assert (Hh : (10 <= List.length l / 2 < 20)%nat /\
               (List.length l <= List.length l / 2 + 20)%nat).
  { pose proof (Nat.div_mod_eq (List.length l) 2) as Hm.
    pose proof (Nat.mod_upper_bound (List.length l) 2 ltac:(lia)). lia. }
  revert Hh. generalize (List.length l / 2)%nat as c. intros c [Hc Hc'].
  assert (E1 : (Z.of_nat c - 20 <? 0)%Z = true) by (apply Z.ltb_lt; lia).
  assert (E2 : (Z.of_nat c + 20 <? 0)%Z = false) by (apply Z.ltb_ge; lia).
  rewrite E1, E2.
  replace (Z.min (Z.max (Z.of_nat c - 20 + Z.of_nat (List.length l)) 0)
                 (Z.of_nat (List.length l)))
    with (Z.of_nat (List.length l + c - 20)) by lia.
  replace (Z.min (Z.max (Z.of_nat c + 20) 0) (Z.of_nat (List.length l)))
    with (Z.of_nat (List.length l)) by lia.
  rewrite Nat2Z.id.
  apply firstn_all2. rewrite length_skipn. lia.
Qed.

(** X13.  On a spectrum of more than 20 and fewer than 40 rows the row slice
    [center_y - 20 : center_y + 20] starts at a negative index, which Python
    counts from the end: the low-frequency block is cut from the last
    [20 - H/2] rows, all of them after row [H/2], where the shifted spectrum
    has its zero frequency. *)
Theorem low_freq_region_small_spectrum (m : grayf) (H : nat) :
  List.length m = H -> (20 < H < 40)%nat ->
  let center_x :=
    (Z.of_nat (match m with r :: _ => List.length r | [] => 0%nat end) / 2)%Z in
  low_freq_region m
  = map (py_slice (center_x - 20) (center_x + 20)) (skipn (H + H / 2 - 20) m) /\
  List.length (low_freq_region m) = (20 - H / 2)%nat /\
  (H / 2 < H + H / 2 - 20)%nat.
Proof.
  intros HH Hr center_x. subst H.
  assert (E : low_freq_region m
              = map (py_slice (center_x - 20) (center_x + 20))
                    (skipn (List.length m + List.length m / 2 - 20) m)).
  { unfold low_freq_region. fold center_x.
    rewrite (py_slice_wraps m Hr). reflexivity. }
  split; [exact E|].
  pose proof (Nat.div_mod_eq (List.length m) 2) as Hm.
  pose proof (Nat.mod_upper_bound (List.length m) 2 ltac:(lia)).
  split; [rewrite E, length_map, length_skipn|]; lia.
Qed.

Lemma low_freq_region_small_spectrum_witness :
  List.length (low_freq_region (repeat (repeat 1 30) 30)) = 5%nat /\
  (15 < 25)%nat.
Proof.
  destruct (low_freq_region_small_spectrum (repeat (repeat 1 30) 30) 30
              eq_refl ltac:(lia)) as [_ [Hl Hi]].
  split; [exact Hl | exact Hi].
Defined.

(** *** Flat images at the [/compare] endpoint *)

Section FlatImages.
Context {config : Config} {api : ApiConfig} {pillow : Pillow}
        {imagehash : ImageHashLib} {opencv : OpenCV}.

(** X14.  Two uploads that reach the metrics as black frames, for instance twice
    the same black image: the score is [nan], which reaches no threshold, and
    the response says "No plagiarism detected". *)
Theorem compare_designs_flat_images (original suspect : UploadFile)
  (b1 b2 : list Byte.byte) (pil1 pil2 c1 c2 : PILImage) (h w : nat)
  (r : SimilarityResult) :
  is_image_upload original = true -> is_image_upload suspect = true ->
  upload_read original = Ok b1 -> upload_read suspect = Ok b2 ->
  b1 <> [] -> b2 <> [] ->
  load_image_bytes b1 = Ok pil1 -> load_image_bytes b2 = Ok pil2 ->
  Image_convert pil1 "RGB" = Ok c1 -> Image_convert pil2 "RGB" = Ok c2 ->
  pil_to_np c1 (Some default_np_size) = Ok (black_frame h w) ->
  pil_to_np c2 (Some default_np_size) = Ok (black_frame h w) ->
  (7 <= h)%nat -> (7 <= w)%nat ->
  combined_similarity (skimage := skimage_reference) pil1 pil2 default_np_size
  = Ok r ->
  exists body,
    compare_designs (skimage := skimage_reference) original suspect
    = Returned body /\
    cc_similarity_score body = NaN /\
    cc_is_plagiarism body = false /\
    cc_message body = "No plagiarism detected".
Proof.
  intros Hi1 Hi2 Hr1 Hr2 Hn1 Hn2 Hl1 Hl2 Hc1 Hc2 Hp1 Hp2 Hh Hw Hc.
  assert (Hs : score r = NaN).
  { pose proof Hc as H. apply combined_similarity_ok in H.
    destruct H as (d1 & d2 & img1 & img2 & s & p & o &
                   H1 & H2 & H3 & H4 & Hs & _ & _ & Hscore & _).
    assert (d1 = c1) by congruence. assert (d2 = c2) by congruence.
    subst d1 d2.
    assert (img1 = black_frame h w) by congruence.
    assert (img2 = black_frame h w) by congruence. subst img1 img2.
    rewrite compute_ssim_black in Hs by assumption. injection Hs as <-.
    rewrite Hscore, fmul_nan_r, !fadd_nan_l. reflexivity. }
  eexists. split.
  - apply (compare_designs_returned original suspect b1 b2 pil1 pil2 r);
      assumption.
  - cbn [cc_similarity_score cc_is_plagiarism cc_message].
    rewrite Hs. repeat split.
Qed.

End FlatImages.

Lemma convert_decoded_image :
  Image_convert (Pillow := pillow_model) decoded_image "RGB"
  = Ok (black_image 512 512).
Proof. reflexivity. Qed.

Lemma combined_similarity_decoded (np_size : Z * Z) :
  combined_similarity (config := config_example) (pillow := pillow_model)
    (skimage := skimage_reference) (hashes := imagehash_model)
    (opencv := opencv_model) decoded_image decoded_image np_size
  = combined_similarity (config := config_example) (pillow := pillow_model)
      (skimage := skimage_reference) (hashes := imagehash_model)
      (opencv := opencv_model) (black_image 512 512) (black_image 512 512)
      np_size.
Proof.
  unfold combined_similarity.
  rewrite convert_decoded_image, convert_black_image. reflexivity.
Qed.

Lemma compare_decoded_images :
  exists r,
    combined_similarity (config := config_example) (pillow := pillow_model)
      (skimage := skimage_reference) (hashes := imagehash_model)
      (opencv := opencv_model) decoded_image decoded_image default_np_size
    = Ok r.
Proof.
  rewrite combined_similarity_decoded.
  exact (compare_black_images 512 512 ltac:(lia) ltac:(lia)).
Qed.

Lemma compare_designs_flat_images_witness :
  exists body,
    compare_designs (config := config_example) (api := api_example)
      (pillow := pillow_model) (skimage := skimage_reference)
      (imagehash := imagehash_model) (opencv := opencv_model)
      (image_upload [Byte.x01]) (image_upload [Byte.x01])
    = Returned body /\
    cc_similarity_score body = NaN /\
    cc_is_plagiarism body = false /\
    cc_message body = "No plagiarism detected".
Proof.
  destruct compare_decoded_images as [r Hr].
  apply (compare_designs_flat_images
           (config := config_example) (api := api_example)
           (pillow := pillow_model) (imagehash := imagehash_model)
           (opencv := opencv_model)
           (image_upload [Byte.x01]) (image_upload [Byte.x01])
           [Byte.x01] [Byte.x01] decoded_image decoded_image
           (black_image 512 512) (black_image 512 512) 512 512 r).
  - reflexivity.
  - reflexivity.
  - reflexivity.
  - reflexivity.
  - discriminate.
  - discriminate.
  - reflexivity.
  - reflexivity.
  - reflexivity.
  - reflexivity.
  - exact (pil_to_np_black_image 512 512).
  - exact (pil_to_np_black_image 512 512).
  - lia.
  - lia.
  - exact Hr.
Defined.

(** *** The dominant colour *)

Lemma argmax_from_spec (l : list (list Z * Z)) (best : list Z * Z) :
  In (argmax_from best l) (best :: l) /\
  forall x, In x (best :: l) -> (snd x <= snd (argmax_from best l))%Z.
Proof.
  revert best. induction l as [|y l IH]; intro best; cbn [argmax_from].
  - split; [left; reflexivity|]. intros x [<- | []]. lia.
  - destruct (IH (if (snd best <? snd y)%Z then y else best)) as [Hin Hle].
    split.
    + destruct Hin as [Hin | Hin].
      * destruct (snd best <? snd y)%Z.
        -- right. left. exact Hin.
        -- left. exact Hin.
      * right. right. exact Hin.
    + intros x Hx.
      pose proof (Hle _ (or_introl eq_refl)) as Hb.
      destruct Hx as [<- | [<- | Hx]].
      * destruct (snd best <? snd y)%Z eqn:E; [apply Z.ltb_lt in E|];
          cbn in Hb; lia.
      * destruct (snd best <? snd y)%Z eqn:E; [|apply Z.ltb_ge in E];
          cbn in Hb; lia.
      * apply Hle. right. exact Hx.
Qed.

Lemma Zsum_positive_bound (l : list Z) (x : Z) :
  Forall (fun c => (0 < c)%Z) l -> In x l -> (0 < x <= Zsum l)%Z.
Proof.
  induction 1 as [|c l Hc Hl IH]; intros Hin; [destruct Hin|].
  assert (Hs : (0 <= Zsum l)%Z).
  { clear IH Hin. induction Hl as [|d l Hd _ IHl]; cbn; [lia|].
    change (0 <= d + Zsum l)%Z. lia. }
  change (Zsum (c :: l)) with (c + Zsum l)%Z.
  destruct Hin as [<- | Hin]; [lia|]. specialize (IH Hin). lia.
Qed.

Section DominantColor.
Context {opencv : OpenCV} {numpy : NumPy} {scipy : SciPy}.

(** X15.  With [np.unique] returning every distinct pixel with a positive count,
    the dominant colour reported is one of those pixels, no other pixel has
    a larger count, and the dominant percentage is its count over the sum of
    the counts, times 100 and rounded to two decimals, a number in
    [0, 100]. *)
Theorem dominant_color_is_most_frequent (img_np : ndarray)
  (ca : ColorAnalysis) :
  (forall pixels,
      Forall (fun rc => (0 < snd rc)%Z) (np_unique_counts pixels)) ->
  extract_color_features img_np = Ok ca ->
  exists rgb pixels count,
    (if Nat.eqb (shape_last img_np) 4
     then first_three_channels img_np = Ok rgb
     else rgb = img_np) /\
    chunks3 (flatten_array (clip_array rgb)) = Ok pixels /\
    In (dominant_rgb ca, count) (np_unique_counts pixels) /\
    (forall rc, In rc (np_unique_counts pixels) -> (snd rc <= count)%Z) /\
    dominant_percentage ca
    = Fin (py_round
             (inject_Z count
              / inject_Z (Zsum (map snd (np_unique_counts pixels))) * 100) 2) /\
    in_range 0 100 (dominant_percentage ca).
Proof.
  intros Hpos H. unfold extract_color_features in H.
  apply rbind_ok in H. destruct H as [rgb [Hrgb H]].
  do 6 (apply rbind_ok in H; destruct H as [? [_ H]]).
  apply rbind_ok in H. destruct H as [pixels [Hpx H]]. apply at_line_ok in Hpx.
  apply rbind_ok in H. destruct H as [dominant [Hd H]]. apply at_line_ok in Hd.
  do 3 (apply rbind_ok in H; destruct H as [? [_ H]]).
  injection H as <-.
  cbn [dominant_rgb dominant_percentage].
  specialize (Hpos pixels).
  unfold argmax_count in Hd.
  destruct (np_unique_counts pixels) as [|first rest] eqn:Euc;
    [discriminate Hd|].
  injection Hd as Hd.
  destruct (argmax_from_spec rest first) as [Hin Hmax]. rewrite Hd in Hin, Hmax.
  assert (Hc : (0 < snd dominant
                <= Zsum (map snd (first :: rest)))%Z).
  { apply Zsum_positive_bound.
    - apply Forall_map. exact Hpos.
    - apply in_map. exact Hin. }
  set (total := Zsum (map snd (first :: rest))) in *.
  assert (Ht : 0 < inject_Z total).
  { change 0 with (inject_Z 0). rewrite <- Zlt_Qlt. lia. }
  assert (Hn : 0 <= inject_Z (snd dominant) /\
               inject_Z (snd dominant) <= inject_Z total).
  { split; [change 0 with (inject_Z 0)|]; rewrite <- Zle_Qle; lia. }
  assert (Hz : Qeq_bool (inject_Z total) 0 = false).
  { destruct (Qeq_bool (inject_Z total) 0) eqn:E; [|reflexivity].
    apply Qeq_bool_iff in E. rewrite E in Ht.
    exfalso. exact (Qlt_irrefl 0 Ht). }
  exists rgb, pixels, (snd dominant).
  split.
  { destruct (Nat.eqb (shape_last img_np) 4).
    - apply at_line_ok in Hrgb. exact Hrgb.
    - injection Hrgb as <-. reflexivity. }
  split; [exact Hpx|]. rewrite Euc. fold total.
  split; [rewrite <- surjective_pairing; exact Hin|].
  split; [exact Hmax|].
  cbn [fdiv fmul py_round_f]. rewrite Hz.
  split; [reflexivity|].
  eexists. split; [reflexivity|].
  assert (Hq : 0 <= inject_Z (snd dominant) / inject_Z total /\
               inject_Z (snd dominant) / inject_Z total <= 1).
  { split.
    - apply Qle_shift_div_l; [exact Ht | lra].
    - apply Qle_shift_div_r; [exact Ht | lra]. }
  revert Hq. generalize (inject_Z (snd dominant) / inject_Z total).
  intros q [Hq0 Hq1].
  destruct (py_round_2_bounds (q * 100) 0 10000) as [L U].
  - unfold Qdiv. change (inject_Z 0) with 0. lra.
  - unfold Qdiv. change (/ 100) with (1 # 100).
    change (inject_Z 10000) with 10000. lra.
  - unfold Qdiv in L, U. change (/ 100) with (1 # 100) in L, U.
    change (inject_Z 0) with 0 in L. change (inject_Z 10000) with 10000 in U.
    split; lra.
Qed.

End DominantColor.

Lemma count_row_positive (row : list Z) (acc : list (list Z * Z)) :
  Forall (fun rc => (0 < snd rc)%Z) acc ->
  Forall (fun rc => (0 < snd rc)%Z) (count_row row acc).
Proof.
  induction 1 as [|[r c] acc Hc Hacc IH]; cbn [count_row].
  - constructor; [cbn; lia | constructor].
  - cbn [snd] in Hc. destruct (lex_compare row r).
    + constructor; [cbn; lia | exact Hacc].
    + constructor; [cbn; lia|]. constructor; [exact Hc | exact Hacc].
    + constructor; [exact Hc | exact IH].
Qed.

Lemma unique_counts_positive (rows : list (list Z)) :
  Forall (fun rc => (0 < snd rc)%Z) (unique_counts rows).
Proof.
  induction rows as [|row rows IH]; cbn [unique_counts fold_right].
  - constructor.
  - apply count_row_positive. exact IH.
Qed.

Lemma dominant_color_is_most_frequent_witness :
  exists ca,
    extract_color_features (opencv := opencv_model) (numpy := numpy_model)
      (scipy := scipy_model) (black_frame 8 8) = Ok ca /\
    in_range 0 100 (dominant_percentage ca).
Proof.
  destruct (color_features_black 8 8 ltac:(lia) ltac:(lia)) as [ca Hca].
  exists ca. split; [exact Hca|].
  destruct (dominant_color_is_most_frequent
              (opencv := opencv_model) (numpy := numpy_model)
              (scipy := scipy_model) (black_frame 8 8) ca
              unique_counts_positive Hca)
    as (rgb & pixels & count & _ & _ & _ & _ & _ & Hr).
  exact Hr.
Defined.

(** *** Failing stages, with the models *)

Lemma pil_to_np_black_512 :
  pil_to_np (pillow := pillow_model) (black_image 512 512)
    (Some (512, 512)%Z) = Ok (black_frame 512 512).
Proof. exact (pil_to_np_black_image 512 512). Qed.

(** With a hash size of 1 the perceptual hash is the first stage to raise. *)
Lemma first_failure_small_hash :
  first_failure
    (stage_outcomes (config := config_small_hash) (pillow := pillow_model)
       (skimage := skimage_reference) (imagehash := imagehash_model)
       (opencv := opencv_model) (numpy := numpy_model) (scipy := scipy_model)
       (feature := feature_model) (hashlib := hashlib_reference)
       decoded_image)
  = Some ("phash",
          mkExn "ValueError" "Hash size must be greater than or equal to 2" []).
Proof.
  unfold stage_outcomes. rewrite convert_decoded_image.
  rewrite pil_to_np_black_512.
  reflexivity.
Qed.

Lemma stage_line_phash (line : nat) :
  stage_at line stage_table = Some "phash" -> line = 37%nat.
Proof.
  unfold stage_table. cbn [stage_at].
  destruct (Nat.eqb 24 line); [intro H; discriminate H|].
  destruct (Nat.eqb 32 line); [intro H; discriminate H|].
  destruct (Nat.eqb 37 line) eqn:E;
    [intros _; apply Nat.eqb_eq in E; symmetry; exact E|].
  repeat match goal with
         | |- (if ?c then _ else _) = _ -> _ =>
             destruct c; [intro H; discriminate H|]
         end.
  intro H. discriminate H.
Qed.

Lemma failed_stage_is_reported_witness :
  exists f k,
    scan_design_for_blockchain (config := config_small_hash)
      (pillow := pillow_model) (skimage := skimage_reference)
      (imagehash := imagehash_model) (opencv := opencv_model)
      (numpy := numpy_model) (scipy := scipy_model) (feature := feature_model)
      (hashlib := hashlib_reference) (runtime := runtime_model)
      [Byte.x00] 0 = (Failed f, S k) /\
    error_type f = "ValueError" /\
    error_message f = "Hash size must be greater than or equal to 2" /\
    traceback f = [("scan_design_for_blockchain", 374%nat);
                   ("extract_image_metadata", 37%nat)] /\
    failing_stage (traceback f) = Some "phash" /\
    get_metadata (Failed f) = None.
Proof.
  pose proof (failed_stage_is_reported (config := config_small_hash)
                (pillow := pillow_model) (skimage := skimage_reference)
                (imagehash := imagehash_model) (opencv := opencv_model)
                (numpy := numpy_model) (scipy := scipy_model)
                (feature := feature_model) (hashlib := hashlib_reference)
                (runtime := runtime_model) [Byte.x00] 0%nat) as H.
  cbn [Image_open pillow_model] in H.
  rewrite first_failure_small_hash in H.
  destruct H as (f & line & k & Hscan & _ & Hty & Hmsg & _ & _ & Hline & Htb
                 & Hstage & Hmd & _).
  exists f, k.
  split; [exact Hscan|]. split; [exact Hty|]. split; [exact Hmsg|].
  split.
  - rewrite Htb. cbn [exn_tb].
    assert (Hl : line = 37%nat) by (apply stage_line_phash; exact Hline).
    rewrite Hl. reflexivity.
  - split; [exact Hstage | exact Hmd].
Defined.

(** C7 as stated fails: the failure record has no entry for the stage.  An
    empty file fails in [load_image_bytes], and with a hash size of 1 a file
    fails in the perceptual hash; in both records the stage is found in the
    frames of the traceback only, and none of the texts of the record (the
    type and the message of the exception, the fixed message, the time
    stamp) mentions it. *)
Lemma failure_record_has_no_stage_entry :
  (exists f,
      model_scan [] 0 = (Failed f, 2%nat) /\
      failing_stage (traceback f) = Some "load_image_bytes" /\
      error_type f = "UnidentifiedImageError" /\
      error_message f = "cannot identify image file" /\
      message f = "Scan failed - see error details" /\
      timestamp f = "1700000000001000Z" /\
      names_stage_in_entry f "load_image_bytes" = false) /\
  (exists f,
      scan_design_for_blockchain (config := config_small_hash)
        (pillow := pillow_model) (skimage := skimage_reference)
        (imagehash := imagehash_model) (opencv := opencv_model)
        (numpy := numpy_model) (scipy := scipy_model)
        (feature := feature_model) (hashlib := hashlib_reference)
        (runtime := runtime_model) [Byte.x00] 0 = (Failed f, 2%nat) /\
      failing_stage (traceback f) = Some "phash" /\
      error_type f = "ValueError" /\
      error_message f = "Hash size must be greater than or equal to 2" /\
      message f = "Scan failed - see error details" /\
      timestamp f = "1700000000001000Z" /\
      names_stage_in_entry f "phash" = false).
Proof.
  split.
  - eexists. split; [reflexivity|].
    cbn [traceback error_type error_message message timestamp].
    repeat split; vm_compute; reflexivity.
  - eexists. split.
    + unfold scan_design_for_blockchain, scan_body, mbind, lift, mret,
        load_image_bytes.
      cbn [Image_open pillow_model at_line].
      unfold extract_image_metadata.
      rewrite mbind_lift, convert_decoded_image. cbn [at_line].
      cbn [im_size black_image].
      rewrite mbind_lift.
      rewrite pil_to_np_black_512. cbn [at_line].
      rewrite mbind_lift. reflexivity.
    + cbn [traceback error_type error_message message timestamp].
      repeat split; vm_compute; reflexivity.
Qed.
